(** * SimPEG: weighted l2 data misfit and time-domain EM sources

    A shallow embedding of [SimPEG/DataMisfit.py] and
    [SimPEG/EM/TDEM/SrcTDEM.py].

    Conventions of the embedding.
    - Python exceptions are values of [exn]; a call that may raise returns
      a [result].
    - Floating point numbers are an abstract [Scalar]; the file gives two
      instances, IEEE binary64 ([PrimFloat.float], what numpy computes
      with, used to run the definitions) and the real numbers ([R], what
      the formulas of the documentation are about).
    - Deferred dask values are identified with the values they compute:
      [dask.delayed(g)(x)] is [g x] and [da.from_delayed] is the identity.
      An exception that the code raises when a deferred value is
      computed is, in the embedding, raised by the call that builds
      it; the statements below are about the values.
    - Collaborators that are not part of the two files (the survey, the
      forward problem, the mesh, the vector potentials) are record
      fields or section variables. *)

From Stdlib Require Import Floats.
#[local] Close Scope float_scope.
From Stdlib Require Import Reals Lra ZArith Ascii String List Bool.
From Stdlib Require Import DecimalString.
From stdpp Require Import gmap strings list.

#[local] Open Scope string_scope.
#[local] Open Scope list_scope.

(** ** Python exceptions and results *)

Inductive exn : Type :=
| AssertionError (msg : string)
| AttributeError (attr : string)
| IndexError
| KeyError (key : string)
| TypeError (msg : string)
| ValueError (msg : string)
| NotImplementedError (msg : option string)
| UnboundLocalError (name : string)
| ZeroDivisionError
| PyException (msg : string).

Inductive result (A : Type) : Type :=
| Ok (a : A)
| Raise (e : exn).
Arguments Ok {A} a.
Arguments Raise {A} e.

#[global] Instance result_ret : MRet result := fun _ a => Ok a.
#[global] Instance result_bind : MBind result := fun _ _ k r =>
  match r with
  | Ok a => k a
  | Raise e => Raise e
  end.

Definition is_ok {A} (r : result A) : bool :=
  match r with Ok _ => true | Raise _ => false end.

(** Methods of an object whose state has type [S]: they read and write
    the object and may raise; an exception leaves the object as it was
    when it was raised. *)
Definition ST (S A : Type) : Type := S → result A * S.

#[global] Instance ST_ret {S} : MRet (ST S) := λ _ a self, (Ok a, self).
#[global] Instance ST_bind {S} : MBind (ST S) := λ _ _ k c self,
  match c self with
  | (Ok a, self') => k a self'
  | (Raise e, self') => (Raise e, self')
  end.

Definition get_self {S} : ST S S := λ self, (Ok self, self).

Definition lift {S A} (r : result A) : ST S A := λ self, (r, self).

(** ** Scalars *)

(** The arithmetic the two files use on Python floats and numpy doubles.
    The literals are those of the source: [0.], [1.], [0.5], [0.05] and
    [1e-5]; [fmu_0] is [scipy.constants.mu_0], [4e-7 * pi]. *)
Class Scalar (F : Type) : Type := {
  f0 : F;
  f1 : F;
  f0_5 : F;
  f0_05 : F;
  f1em5 : F;
  fmu_0 : F;
  fadd : F → F → F;
  fmul : F → F → F;
  fdiv : F → F → F;
  fabs : F → F;
  fsqrt : F → F;
  fltb : F → F → bool;
  feqb : F → F → bool
}.

(** The two laws of real arithmetic the statements below rely on. They
    hold in [R]; in binary64 the first fails at [-0.] *)
Class ScalarLaws (F : Type) `{Scalar F} : Prop := {
  fadd_0_l : ∀ x : F, fadd f0 x = x;
  fmul_1_l : ∀ x : F, fmul f1 x = x
}.

#[global] Instance Scalar_float : Scalar float := {|
  f0 := 0%float;
  f1 := 1%float;
  f0_5 := 0.5%float;
  f0_05 := 0x1.999999999999ap-5%float;
  f1em5 := 0x1.4f8b588e368f1p-17%float;
  fmu_0 := 0x1.515370f99f6cbp-20%float;
  fadd := PrimFloat.add;
  fmul := PrimFloat.mul;
  fdiv := PrimFloat.div;
  fabs := PrimFloat.abs;
  fsqrt := PrimFloat.sqrt;
  fltb := PrimFloat.ltb;
  feqb := PrimFloat.eqb
|}.

#[global] Instance Scalar_R : Scalar R := {|
  f0 := 0%R;
  f1 := 1%R;
  f0_5 := (1 / 2)%R;
  f0_05 := (5 / 100)%R;
  f1em5 := (1 / 100000)%R;
  fmu_0 := (4 / 10000000 * PI)%R;
  fadd := Rplus;
  fmul := Rmult;
  fdiv := Rdiv;
  fabs := Rabs;
  fsqrt := sqrt;
  fltb := fun x y => if Rlt_dec x y then true else false;
  feqb := fun x y => if Req_dec_T x y then true else false
|}.

#[global] Instance ScalarLaws_R : ScalarLaws R.
Proof. split; intros x; simpl; lra. Qed.

(** ** Python built-ins used by the source: [str] and [str.format] *)

(** [str(n)] for a non-negative integer. *)
Definition str_of_nat (n : nat) : string :=
  NilEmpty.string_of_uint (Nat.to_uint n).

(** A format template is a sequence of literal text and replacement
    fields. Plain fields are modelled, [{}], [{index}] and [{name}]: the
    two files use no conversion and no format spec. *)
Inductive piece : Type :=
| Lit (c : ascii)
| FieldAuto
| FieldIdx (n : nat)
| FieldKey (k : string).

Definition is_digit (c : ascii) : bool :=
  let n := nat_of_ascii c in (48 <=? n)%nat && (n <=? 57)%nat.

Fixpoint all_digits (s : string) : bool :=
  match s with
  | EmptyString => true
  | String c s' => is_digit c && all_digits s'
  end.

Fixpoint nat_of_digits (s : string) (acc : nat) : nat :=
  match s with
  | EmptyString => acc
  | String c s' => nat_of_digits s' (10 * acc + (nat_of_ascii c - 48))
  end.

Definition field_of_name (name : string) : piece :=
  match name with
  | EmptyString => FieldAuto
  | _ => if all_digits name then FieldIdx (nat_of_digits name 0)
         else FieldKey name
  end.

(** [parse_template s field]: [field] is [None] in literal text and
    [Some name] inside a replacement field whose name read so far is
    [name]. Doubled braces are escapes. *)
Fixpoint parse_template (s : string) (field : option string)
  : result (list piece) :=
  match field, s with
  | None, EmptyString => Ok []
  | None, String "{" (String "{" s') =>
      ps ← parse_template s' None; Ok (Lit "{" :: ps)
  | None, String "}" (String "}" s') =>
      ps ← parse_template s' None; Ok (Lit "}" :: ps)
  | None, String "{" s' => parse_template s' (Some EmptyString)
  | None, String "}" _ =>
      Raise (ValueError "Single '}' encountered in format string")
  | None, String c s' =>
      ps ← parse_template s' None; Ok (Lit c :: ps)
  | Some _, EmptyString =>
      Raise (ValueError "expected '}' before end of string")
  | Some name, String "}" s' =>
      ps ← parse_template s' None; Ok (field_of_name name :: ps)
  | Some name, String c s' =>
      parse_template s' (Some (name +:+ String c EmptyString))
  end.

(** Whether the fields seen so far were numbered by hand or
    automatically; a template may not mix the two. *)
Inductive numbering : Type :=
| NumUnset
| NumAuto (next : nat)
| NumManual.

(** Replacement fields are filled left to right; the first field that
    names a missing argument raises. *)
Fixpoint render (ps : list piece) (num : numbering) (args : list string)
    (kwargs : gmap string string) : result string :=
  match ps with
  | [] => Ok EmptyString
  | Lit c :: ps' =>
      rest ← render ps' num args kwargs; Ok (String c rest)
  | FieldAuto :: ps' =>
      match num with
      | NumManual =>
          Raise (ValueError "cannot switch from manual field specification to automatic field numbering")
      | _ =>
          let n := match num with NumAuto n => n | _ => 0 end in
          match args !! n with
          | None => Raise IndexError
          | Some a =>
              rest ← render ps' (NumAuto (S n)) args kwargs; Ok (a +:+ rest)
          end
      end
  | FieldIdx n :: ps' =>
      match num with
      | NumAuto _ =>
          Raise (ValueError "cannot switch from automatic field numbering to manual field specification")
      | _ =>
          match args !! n with
          | None => Raise IndexError
          | Some a =>
              rest ← render ps' NumManual args kwargs; Ok (a +:+ rest)
          end
      end
  | FieldKey k :: ps' =>
      match kwargs !! k with
      | None => Raise (KeyError k)
      | Some a => rest ← render ps' num args kwargs; Ok (a +:+ rest)
      end
  end.

(** [template.format] applied to positional and keyword arguments that
    are already converted with [str]. *)
Definition py_format (template : string) (args : list string)
    (kwargs : gmap string string) : result string :=
  ps ← parse_template template None;
  render ps NumUnset args kwargs.

(** Whether filling [ps] without positional arguments comes to a
    positional field before any keyword outside [keys]. *)
Fixpoint positional_first (keys : list string) (ps : list piece) : bool :=
  match ps with
  | [] => false
  | Lit _ :: ps' => positional_first keys ps'
  | FieldKey k :: ps' => bool_decide (k ∈ keys) && positional_first keys ps'
  | FieldAuto :: _ | FieldIdx _ :: _ => true
  end.

(** ** Vectors and sparse matrices *)

Section LinearAlgebra.
Context {F : Type} `{Scalar F}.

(** A scipy sparse matrix in compressed form. In the [CSR] layout
    [lines] holds, for each row, the (column, value) pairs of its slice
    of [indices] and [data]; in the [CSC] layout it holds, for each
    column, its (row, value) pairs. *)
Inductive layout : Type := CSR | CSC.

Record spmatrix : Type := {
  fmt : layout;
  shape : nat * nat;
  lines : list (list (nat * F))
}.

(** [A.T]: the transpose of a CSR matrix is the CSC matrix over the
    same arrays, and conversely. *)
Definition transpose (A : spmatrix) : spmatrix :=
  {| fmt := match fmt A with CSR => CSC | CSC => CSR end;
     shape := ((shape A).2, (shape A).1);
     lines := lines A |}.

(** [sum = 0; for jj in row: sum += data[jj] * x[indices[jj]]] *)
Definition row_sum (x : list F) (row : list (nat * F)) : F :=
  foldl (λ s e, fadd s (fmul e.2 (default f0 (x !! e.1)))) f0 row.

Definition csr_matvec (n_row : nat) (ls : list (list (nat * F)))
    (x : list F) : list F :=
  map (λ i, row_sum x (default [] (ls !! i))) (seq 0 n_row).

(** [for ii in column j: y[indices[ii]] += data[ii] * x[j]] *)
Definition col_add (xj : F) (y : list F) (col : list (nat * F)) : list F :=
  foldl (λ y e, alter (λ s, fadd s (fmul e.2 xj)) e.1 y) y col.

Definition csc_matvec (n_row n_col : nat) (ls : list (list (nat * F)))
    (x : list F) : list F :=
  foldl (λ y j, col_add (default f0 (x !! j)) y (default [] (ls !! j)))
        (replicate n_row f0) (seq 0 n_col).

(** [A.dot(x)] (also written [A * x]) for a one-dimensional [x]. *)
Definition dot (A : spmatrix) (x : list F) : result (list F) :=
  if decide (length x = (shape A).2) then
    Ok (match fmt A with
        | CSR => csr_matvec (shape A).1 (lines A) x
        | CSC => csc_matvec (shape A).1 (shape A).2 (lines A) x
        end)
  else Raise (ValueError "dimension mismatch").

(** Modelled from the spec: [Utils.sdiag], the "diagonal-matrix
    construction" helper of the utilities that are not among the
    sources; it returns the square CSR matrix with the given diagonal. *)
Definition sdiag (v : list F) : spmatrix :=
  {| fmt := CSR;
     shape := (length v, length v);
     lines := imap (λ i a, [(i, a)]) v |}.

(** [numpy.dot] of two vectors of the same length. *)
Definition vdot (u v : list F) : F :=
  foldl (λ s p, fadd s (fmul p.1 p.2)) f0 (zip u v).

(** [sum(x_i ^ 2)], accumulated in the same order. *)
Definition sum_sq (v : list F) : F :=
  foldl (λ s a, fadd s (fmul a a)) f0 v.

(** [numpy.linalg.norm(x, 2)] *)
Definition norm2 (x : list F) : F := fsqrt (vdot x x).

(** Scalar times vector, [a * x]. *)
Definition vscale (a : F) (x : list F) : list F := map (fmul a) x.

(** Vector times scalar, [x * a]. *)
Definition vscale_r (x : list F) (a : F) : list F := map (λ b, fmul b a) x.

End LinearAlgebra.

Arguments spmatrix F : clear implicits.

(** ** DataMisfit.py *)

Section DataMisfit.
Context {F : Type} `{Scalar F}.

(** The type of the fields objects of the forward problem. *)
Context {Fields : Type}.

(** The forward problem, as far as the misfit uses it. *)
Record Problem : Type := {
  fields : list F → Fields;
  Jtvec : list F → list F → Fields → list F;
  Jvec_approx : list F → list F → Fields → list F;
  Jtvec_approx : list F → list F → Fields → list F
}.

(** The survey, as far as the misfit uses it; [survey_std] and
    [survey_eps] are [None] when the survey has no such attribute or
    holds [None] there. *)
Record Survey : Type := {
  ispaired : bool;
  prob : Problem;
  dobs : list F;
  nD : nat;
  survey_std : option F;
  survey_eps : option F;
  residual : list F → Fields → list F
}.

(** An [l2_DataMisfit] instance after construction. [scale] is the
    attribute inherited from the objective function base class, which is
    not among the sources; the documentation gives its default, 1. *)
Record l2_DataMisfit : Type := {
  survey : Survey;
  std : F;
  eps : F;
  scale : F;
  _W : option (spmatrix F)
}.

Definition set_W (value : option (spmatrix F)) (self : l2_DataMisfit)
  : l2_DataMisfit :=
  {| survey := survey self; std := std self; eps := eps self;
     scale := scale self; _W := value |}.

(** Methods read and write the instance and may raise. *)
Abbreviation DM := (ST l2_DataMisfit).

(** Class attribute [eps_factor = 1e-5]. *)
Definition eps_factor : F := f1em5.

Definition msg_std : string :=
  "SimPEG.DataMisfit.l2_DataMisfit assigning default std of 5%".
Definition msg_eps : string :=
  "SimPEG.DataMisfit.l2_DataMisfit assigning default eps of 1e-5 * ||dobs||".

(** [l2_DataMisfit.__init__]. [std0] and [eps0] are the values of
    [self.std] and [self.eps] once the base class constructor has
    returned: the class attribute [None] unless a keyword argument set
    them. The result is the instance and the lines printed. *)
Definition __init__ (srv : Survey) (std0 eps0 : option F)
  : result (l2_DataMisfit * list string) :=
  if negb (ispaired srv) then
    Raise (AssertionError "The survey must be paired to a problem.")
  else
    let '(std1, out1) :=
      match std0 with
      | None =>
          match survey_std srv with
          | None => (f0_05, [msg_std])
          | Some s => (s, [])
          end
      | Some s => (s, [])
      end in
    let '(eps1, out2) :=
      match eps0 with
      | None =>
          match survey_eps srv with
          | None => (fmul (norm2 (dobs srv)) eps_factor, [msg_eps])
          | Some e => (e, [])
          end
      | Some e => (e, [])
      end in
    Ok ({| survey := srv; std := std1; eps := eps1; scale := f1;
           _W := None |}, (out1 ++ out2)%list).

(** The default weights [1/(abs(survey.dobs)*self.std+self.eps)]. *)
Definition default_weights (self : l2_DataMisfit) : list F :=
  map (λ d, fdiv f1 (fadd (fmul (fabs d) (std self)) (eps self)))
      (dobs (survey self)).

(** The property [W]: the getter builds the default once and caches it. *)
Definition W : DM (spmatrix F) := λ self,
  match _W self with
  | None =>
      let w := sdiag (default_weights self) in
      (Ok w, set_W (Some w) self)
  | Some w => (Ok w, self)
  end.

(** A value assigned to [W]: a one-dimensional array or a matrix. *)
Inductive weighting : Type :=
| Weights1d (v : list F)
| Weights2d (A : spmatrix F).

Definition W_template : string :=
  "W must have shape ({nD},{nD}), not ({val0}, val{1})".

(** The setter of [W]. The message of the [assert] is evaluated only
    when the condition fails. *)
Definition W_setter (value : weighting) : DM () := λ self,
  let value :=
    match value with
    | Weights1d v => sdiag v
    | Weights2d A => A
    end in
  let n := nD (survey self) in
  if decide (shape value = (n, n)) then
    (Ok (), set_W (Some value) self)
  else
    match py_format W_template []
            (<["nD" := str_of_nat n]>
             (<["val0" := str_of_nat (shape value).1]>
              (<["val1" := str_of_nat (shape value).2]> ∅))) with
    | Ok msg => (Raise (AssertionError msg), self)
    | Raise e => (Raise e, self)
    end.

(** [f = self.prob.fields(m)] when [f is None]. *)
Definition fields_or (self : l2_DataMisfit) (m : list F)
    (f : option Fields) : Fields :=
  match f with
  | None => fields (prob (survey self)) m
  | Some f => f
  end.

(** [l2_DataMisfit.__call__]. The decorator [Utils.timeIt] of the three
    methods only times the call. The shape given to [da.from_delayed]
    reads [self.W] once more. *)
Definition __call__ (m : list F) (f : option Fields) : DM F :=
  self ← get_self;
  let f := fields_or self m f in
  A ← W;
  W_res ← lift (dot A (residual (survey self) m f));
  _ ← W;
  let vec := W_res in
  mret (fmul f0_5 (vdot vec vec)).

(** [l2_DataMisfit.deriv] *)
Definition deriv (m : list F) (f : option Fields) : DM (list F) :=
  self ← get_self;
  let f := fields_or self m f in
  A ← W;
  w_d ← lift (dot A (residual (survey self) m f));
  A' ← W;
  wtw_d ← lift (dot (transpose A') (vscale (scale self) w_d));
  _ ← W;
  let row := wtw_d in
  mret (Jtvec (prob (survey self)) m row f).

(** [l2_DataMisfit.deriv2] *)
Definition deriv2 (m v : list F) (f : option Fields) : DM (list F) :=
  self ← get_self;
  let f := fields_or self m f in
  let jtvec := Jvec_approx (prob (survey self)) m v f in
  A ← W;
  w_jtvec ← lift (dot A jtvec);
  A' ← W;
  wtw_jtvec ← lift (dot (transpose A') w_jtvec);
  _ ← W;
  let row := wtw_jtvec in
  mret (Jtvec_approx (prob (survey self)) m row f).

End DataMisfit.

Arguments Problem F Fields : clear implicits.
Arguments Survey F Fields : clear implicits.
Arguments l2_DataMisfit F Fields : clear implicits.

(** ** The scenario of the documentation

    [dobs = [1.0, 2.0]], no [std] and no [eps] on the survey, residual
    [[0.1, -0.2]]. The forward problem is the identity: it plays no part
    in the value of the misfit. *)

Section Scenario.
Context {F : Type} `{Scalar F}.

Definition scenario_problem : Problem F () :=
  {| fields := λ _, ();
     Jtvec := λ _ v _, v;
     Jvec_approx := λ _ v _, v;
     Jtvec_approx := λ _ v _, v |}.

Definition scenario_survey (d r : list F) : Survey F () :=
  {| ispaired := true;
     prob := scenario_problem;
     dobs := d;
     nD := length d;
     survey_std := None;
     survey_eps := None;
     residual := λ _ _, r |}.

(** Construct the misfit and evaluate it at a model. *)
Definition scenario_misfit (d r m : list F) : result F :=
  match __init__ (scenario_survey d r) None None with
  | Ok (self, _) => (__call__ m None self).1
  | Raise e => Raise e
  end.

End Scenario.

Definition dobs_R : list R := [1; 2]%R.
Definition residual_R : list R := [1 / 10; - (2 / 10)]%R.

Definition dobs_float : list float := [1; 2]%float.
Definition residual_float : list float :=
  [0x1.999999999999ap-4; -0x1.999999999999ap-3]%float.

(** "Approximately", for a value quoted with four decimals. *)
Definition approx4 (v x : R) : Prop := (Rabs (v - x) <= 5 / 100000)%R.

(** The misfit of the scenario over binary64, as constructed, and a
    weighting matrix of the wrong shape for it. *)
Definition misfit_float : l2_DataMisfit float () :=
  {| survey := scenario_survey dobs_float residual_float;
     std := f0_05; eps := fmul (norm2 dobs_float) f1em5; scale := f1;
     _W := None |}.

Definition W_3x3 : spmatrix float := sdiag [1; 2; 3]%float.

(** The misfit of the scenario over the reals, as constructed. *)
Definition misfit_R : l2_DataMisfit R () :=
  {| survey := scenario_survey dobs_R residual_R;
     std := f0_05; eps := fmul (norm2 dobs_R) f1em5; scale := f1;
     _W := None |}.

(** ** A linear forward problem over the reals

    The predicted data are [J m] for a sparse matrix [J]; the Jacobian
    products of the problem are the products with [J] and with its
    transpose. Used to check the derivatives of the misfit against its
    values. *)

(** The value of a product that is defined. *)
Definition product (r : result (list R)) : list R :=
  match r with
  | Ok y => y
  | Raise _ => []
  end.

Definition vadd (x y : list R) : list R := zip_with Rplus x y.
Definition vsub (x y : list R) : list R := zip_with Rminus x y.

(** The sum of a list of reals. *)
Definition rsum (l : list R) : R := foldr Rplus 0%R l.

Definition linear_problem (J : spmatrix R) : Problem R () :=
  {| fields := λ _, ();
     Jtvec := λ _ y _, product (dot (transpose J) y);
     Jvec_approx := λ _ v _, product (dot J v);
     Jtvec_approx := λ _ y _, product (dot (transpose J) y) |}.

Definition linear_survey (J : spmatrix R) (d : list R) : Survey R () :=
  {| ispaired := true;
     prob := linear_problem J;
     dobs := d;
     nD := length d;
     survey_std := None;
     survey_eps := None;
     residual := λ m _, vsub (product (dot J m)) d |}.

(** A misfit on the linear problem with the diagonal weights [w]. *)
Definition linear_misfit (J : spmatrix R) (d w : list R)
  : l2_DataMisfit R () :=
  {| survey := linear_survey J d; std := f0_05; eps := f1em5; scale := f1;
     _W := Some (sdiag w) |}.

(** ** EM/TDEM/SrcTDEM.py: Python objects *)

Section Objects.
Context {F : Type} `{Scalar F}.

(** The waveform classes of the module. *)
Inductive wclass : Type :=
| BaseWaveform
| StepOffWaveform
| RawWaveform
| TriangularWaveform.

#[global] Instance wclass_eq_dec : EqDecision wclass.
Proof. solve_decision. Defined.

(** The Python values that the sources and waveforms handle. A waveform
    instance is its class and its instance dictionary. [PyOpaque] stands
    for an object whose content plays no part here (a bound method, a
    property declaration of the [properties] library, a receiver list).
    [PyZero] is the [Zero] sentinel of the utilities. *)
#[warnings="-register-all"]
Inductive pyobj : Type :=
| PyNone
| PyBool (b : bool)
| PyFloat (x : F)
| PyStr (s : string)
| PyFun (g : F → F)
| PyVec (v : list F)
| PyZero
| PyOpaque (descr : string)
| PyClass (c : wclass)
| PyWaveform (c : wclass) (d : gmap string pyobj).

#[global] Instance pyobj_inhabited : Inhabited pyobj := populate PyNone.

(** [x is None], [x is True] *)
Definition is_None (x : pyobj) : bool :=
  match x with PyNone => true | _ => false end.

Definition is_True (x : pyobj) : bool :=
  match x with PyBool true => true | _ => false end.

(** *** Calls *)

(** A signature [def name(p1, p2=d2, ...)], with or without a final
    [**kwargs]; none of the functions here takes [*args]. *)
Record signature : Type := {
  sig_name : string;
  sig_params : list (string * option pyobj);
  sig_varkw : bool
}.

Definition kwargs : Type := list (string * pyobj).

Definition too_many_positional (sig : signature) (given : nat) : exn :=
  let n := length (sig_params sig) in
  TypeError (sig_name sig +:+ "() takes " +:+ str_of_nat n
             +:+ (if decide (n = 1) then " positional argument but "
                  else " positional arguments but ")
             +:+ str_of_nat given
             +:+ (if decide (given = 1) then " was given"
                  else " were given")).

(** The positional arguments fill the parameters from the left; the
    flag tells whether some are left over. *)
Fixpoint bind_positional (params : list (string * option pyobj))
    (args : list pyobj) (bound : gmap string pyobj)
  : gmap string pyobj * bool :=
  match args, params with
  | [], _ => (bound, false)
  | a :: args', (p, _) :: params' =>
      bind_positional params' args' (<[p := a]> bound)
  | _ :: _, [] => (bound, true)
  end.

Fixpoint bind_keywords (sig : signature) (kw : kwargs)
    (bound : gmap string pyobj) (extra : kwargs)
  : result (gmap string pyobj * kwargs) :=
  match kw with
  | [] => Ok (bound, extra)
  | (k, v) :: kw' =>
      if bool_decide (k ∈ (sig_params sig).*1) then
        match bound !! k with
        | Some _ =>
            Raise (TypeError (sig_name sig
                     +:+ "() got multiple values for argument '" +:+ k
                     +:+ "'"))
        | None => bind_keywords sig kw' (<[k := v]> bound) extra
        end
      else if sig_varkw sig then
        bind_keywords sig kw' bound (extra ++ [(k, v)])
      else
        Raise (TypeError (sig_name sig
                 +:+ "() got an unexpected keyword argument '" +:+ k
                 +:+ "'"))
  end.

Fixpoint bind_defaults (sig : signature)
    (params : list (string * option pyobj)) (bound : gmap string pyobj)
  : result (gmap string pyobj) :=
  match params with
  | [] => Ok bound
  | (p, d) :: params' =>
      match bound !! p, d with
      | Some _, _ => bind_defaults sig params' bound
      | None, Some v => bind_defaults sig params' (<[p := v]> bound)
      | None, None =>
          Raise (TypeError (sig_name sig
                   +:+ "() missing 1 required positional argument: '"
                   +:+ p +:+ "'"))
      end
  end.

(** The binding of the arguments of a call to the parameters: the
    values of the parameters, and the keywords left for [**kwargs].
    Every failure is a [TypeError]. *)
Definition bind_args (sig : signature) (args : list pyobj) (kw : kwargs)
  : result (gmap string pyobj * kwargs) :=
  let '(bound, overflow) := bind_positional (sig_params sig) args ∅ in
  '(bound, extra) ← bind_keywords sig kw bound [];
  if overflow then Raise (too_many_positional sig (length args))
  else
    bound ← bind_defaults sig (sig_params sig) bound;
    Ok (bound, extra).

End Objects.

Arguments pyobj F : clear implicits.
Arguments signature F : clear implicits.
Arguments kwargs F : clear implicits.

(** ** EM/TDEM/SrcTDEM.py: waveforms *)

Section Waveforms.
Context {F : Type} `{Scalar F}.
#[local] Abbreviation pyobj := (pyobj F).
#[local] Abbreviation kwargs := (kwargs F).

Definition class_name (c : wclass) : string :=
  match c with
  | BaseWaveform => "BaseWaveform"
  | StepOffWaveform => "StepOffWaveform"
  | RawWaveform => "RawWaveform"
  | TriangularWaveform => "TriangularWaveform"
  end.

(** The names that each class body binds. *)
Definition wclass_names (c : wclass) : list string :=
  match c with
  | BaseWaveform =>
      ["hasInitialFields"; "offTime"; "__init__"; "_assertMatchesPair";
       "eval"; "evalDeriv"]
  | StepOffWaveform | RawWaveform | TriangularWaveform =>
      ["__init__"; "eval"]
  end.

(** Method resolution order: the class, then [BaseWaveform]. *)
Definition wclass_mro (c : wclass) : list wclass :=
  match c with
  | BaseWaveform => [BaseWaveform]
  | _ => [c; BaseWaveform]
  end.

(** The class that provides [name] to the instances of [c]. *)
Definition wclass_resolve (c : wclass) (name : string) : option wclass :=
  head (filter (λ k, name ∈ wclass_names k) (wclass_mro c)).

(** [isinstance(obj, p)] *)
Definition isinstance (obj : pyobj) (p : wclass) : bool :=
  match obj with
  | PyWaveform c _ => bool_decide (p ∈ wclass_mro c)
  | _ => false
  end.

(** [getattr(obj, name)]: the instance dictionary, then the classes.
    [hasInitialFields] and [offTime] are declared on [BaseWaveform],
    which is a plain [object] class: read from the class they are the
    declarations themselves. *)
Definition py_getattr (obj : pyobj) (name : string) : result pyobj :=
  match obj with
  | PyWaveform c d =>
      match d !! name with
      | Some v => Ok v
      | None =>
          match wclass_resolve c name with
          | Some k =>
              Ok (PyOpaque (class_name k +:+ "." +:+ name))
          | None => Raise (AttributeError name)
          end
      end
  | _ => Raise (AttributeError name)
  end.

Definition hasattr (obj : pyobj) (name : string) : bool :=
  is_ok (py_getattr obj name).

(** [setattr(obj, name, v)] on a waveform: no class attribute is a
    data descriptor, the value goes to the instance dictionary. *)
Definition py_setattr (obj : pyobj) (name : string) (v : pyobj)
  : result pyobj :=
  match obj with
  | PyWaveform c d => Ok (PyWaveform c (<[name := v]> d))
  | _ => Raise (AttributeError name)
  end.

(** Modelled from the spec: [Utils.setKwargs], one of the generic
    utility helpers that are not among the sources. It sets each
    keyword as an attribute of the object, and refuses a name that the
    object does not have. *)
Fixpoint setKwargs (obj : pyobj) (kw : kwargs) : result pyobj :=
  match kw with
  | [] => Ok obj
  | (attr, v) :: kw' =>
      if hasattr obj attr then
        obj' ← py_setattr obj attr v; setKwargs obj' kw'
      else Raise (PyException (attr +:+ " attr is not recognized"))
  end.

(** *** Constructors

    An [__init__] takes the positional arguments, [self] first, and the
    keyword arguments of the call, and returns the initialised [self]. *)

Definition sig_BaseWaveform : signature F :=
  {| sig_name := "__init__";
     sig_params := [("self", None)];
     sig_varkw := true |}.

(** [def __init__(self, **kwargs)] *)
Definition BaseWaveform__init__ (args : list pyobj) (kw : kwargs)
  : result pyobj :=
  '(bound, kwargs) ← bind_args sig_BaseWaveform args kw;
  setKwargs (bound !!! "self") kwargs.

Definition sig_StepOffWaveform : signature F :=
  {| sig_name := "__init__";
     sig_params := [("self", None); ("offTime", Some (PyFloat f0))];
     sig_varkw := false |}.

(** [def __init__(self, offTime=0.)] of [StepOffWaveform] *)
Definition StepOffWaveform__init__ (args : list pyobj) (kw : kwargs)
  : result pyobj :=
  '(bound, _) ← bind_args sig_StepOffWaveform args kw;
  BaseWaveform__init__ [bound !!! "self"]
    [("offTime", bound !!! "offTime"); ("hasInitialFields", PyBool true)].

Definition sig_RawWaveform : signature F :=
  {| sig_name := "__init__";
     sig_params := [("self", None); ("offTime", Some (PyFloat f0));
                    ("waveFct", Some PyNone)];
     sig_varkw := true |}.

(** [def __init__(self, offTime=0., waveFct=None, **kwargs)] *)
Definition RawWaveform__init__ (args : list pyobj) (kw : kwargs)
  : result pyobj :=
  '(bound, kwargs) ← bind_args sig_RawWaveform args kw;
  self ← py_setattr (bound !!! "self") "waveFct" (bound !!! "waveFct");
  BaseWaveform__init__ [self] (("offTime", bound !!! "offTime") :: kwargs).

Definition sig_TriangularWaveform : signature F :=
  {| sig_name := "__init__";
     sig_params := [("self", None); ("offTime", Some (PyFloat f0))];
     sig_varkw := false |}.

(** [def __init__(self, offTime=0.)] of [TriangularWaveform]: [offTime]
    is handed on as a positional argument. *)
Definition TriangularWaveform__init__ (args : list pyobj) (kw : kwargs)
  : result pyobj :=
  '(bound, _) ← bind_args sig_TriangularWaveform args kw;
  BaseWaveform__init__ [bound !!! "self"; bound !!! "offTime"]
    [("hasInitialFields", PyBool true)].

(** Calling a class: a fresh instance goes through the [__init__] of
    the class, and is the value of the call when that returns. *)
Definition new_waveform (c : wclass) (args : list pyobj) (kw : kwargs)
  : result pyobj :=
  let self := PyWaveform c ∅ in
  match c with
  | BaseWaveform => BaseWaveform__init__ (self :: args) kw
  | StepOffWaveform => StepOffWaveform__init__ (self :: args) kw
  | RawWaveform => RawWaveform__init__ (self :: args) kw
  | TriangularWaveform => TriangularWaveform__init__ (self :: args) kw
  end.

(** [callee(args, kw)]. A [PyFun] is a function of one float. *)
Definition py_call (callee : pyobj) (args : list pyobj) (kw : kwargs)
  : result pyobj :=
  match callee with
  | PyFun g =>
      match args, kw with
      | [PyFloat t], [] => Ok (PyFloat (g t))
      | _, _ => Raise (TypeError "a function of one float")
      end
  | PyClass c => new_waveform c args kw
  | _ => Raise (TypeError "object is not callable")
  end.

(** *** Methods *)

(** [BaseWaveform._assertMatchesPair] *)
Definition _assertMatchesPair (self : pyobj) (pair : pyobj) : result () :=
  match pair with
  | PyClass p =>
      if isinstance self p then Ok ()
      else
        msg ← py_format
                "Waveform object must be an instance of a %s BaseWaveform class."
                [class_name p] ∅;
        Raise (AssertionError msg)
  | _ => Raise (TypeError "isinstance() arg 2 must be a type")
  end.

(** The body of [eval] in class [k]. *)
Definition eval_of (k : wclass) (self : pyobj) (time : F) : result pyobj :=
  match k with
  | BaseWaveform => Raise (NotImplementedError None)
  | StepOffWaveform => Ok (PyFloat f0)
  | RawWaveform =>
      waveFct ← py_getattr self "waveFct";
      py_call waveFct [PyFloat time] []
  | TriangularWaveform =>
      Raise (NotImplementedError (Some
        "TriangularWaveform has not been implemented, you should write it!"))
  end.

(** [TriangularWaveform.eval] *)
Definition TriangularWaveform_eval (self : pyobj) (time : F)
  : result pyobj :=
  eval_of TriangularWaveform self time.

(** [obj.eval(time)]: an instance attribute of that name comes before
    the method of the class. *)
Definition call_eval (obj : pyobj) (time : F) : result pyobj :=
  match obj with
  | PyWaveform c d =>
      match d !! "eval" with
      | Some callee => py_call callee [PyFloat time] []
      | None =>
          match wclass_resolve c "eval" with
          | Some k => eval_of k obj time
          | None => Raise (AttributeError "eval")
          end
      end
  | _ => Raise (AttributeError "eval")
  end.

End Waveforms.

(** ** EM/TDEM/SrcTDEM.py: sources *)

Section Sources.
Context {F : Type} `{Scalar F}.
#[local] Abbreviation pyobj := (pyobj F).
#[local] Abbreviation kwargs := (kwargs F).

(** Locations and the grids of the mesh. *)
Context {Loc Grid : Type}.

(** The vector potentials of [SimPEG.EM.Utils]: location, observation
    grid, component, [mu], and the moment or the radius. *)
Variable MagneticDipoleVectorPotential :
  Loc → Grid → string → F → F → list F.
Variable MagneticLoopVectorPotential :
  Loc → Grid → string → F → F → list F.

(** The source classes of the module. *)
Inductive srcclass : Type :=
| BaseTDEMSrc
| MagDipole
| CircularLoop
| LineCurrent.

(** A source: its class, its instance dictionary, and the values of
    the declared properties that the forcing terms read. *)
Record source : Type := {
  src_class : srcclass;
  src_dict : gmap string pyobj;
  loc : Loc;
  mu : F;
  moment : F;
  radius : F
}.

Definition set_dict (d : gmap string pyobj) (self : source) : source :=
  {| src_class := src_class self; src_dict := d; loc := loc self;
     mu := mu self; moment := moment self; radius := radius self |}.

(** The attributes that [BaseEMSrc] and its bases give to a source;
    that class is not in this module. Data descriptors among them are
    not modelled. *)
Variable inherited : string → option pyobj.

(** [BaseEMSrc.__init__(self, rxList, **kwargs)] *)
Variable BaseEMSrc__init__ : pyobj → kwargs → ST source ().

(** What a class body binds a name to. *)
Inductive member : Type :=
| DataAttr (v : pyobj)
| WaveformProperty
| MethodAttr.

Definition BaseTDEMSrc_methods : list string :=
  ["__init__"; "bInitial"; "bInitialDeriv"; "eInitial"; "eInitialDeriv";
   "hInitial"; "hInitialDeriv"; "jInitial"; "jInitialDeriv"; "eval";
   "evalDeriv"; "s_m"; "s_e"; "s_mDeriv"; "s_eDeriv"].

Definition MagDipole_methods : list string :=
  ["__init__"; "_srcFct"; "_bSrc"; "bInitial"; "hInitial"; "eInitial";
   "eInitialDeriv"; "s_m"; "s_e"].

Definition CircularLoop_methods : list string := ["__init__"; "_srcFct"].

Definition LineCurrent_methods : list string :=
  ["__init__"; "Mejs"; "bInitial"; "eInitial"; "eInitialDeriv"; "s_m";
   "s_e"].

Definition method_in (names : list string) (name : string)
  : option member :=
  if bool_decide (name ∈ names) then Some MethodAttr else None.

(** The namespace of each class body. In [BaseTDEMSrc] the name
    [waveform] is bound twice, to [None] and then to the property: the
    property stays. In [LineCurrent] it is bound to [None]. *)
Definition srcclass_dict (c : srcclass) (name : string) : option member :=
  match c with
  | BaseTDEMSrc =>
      if decide (name = "waveformPair") then
        Some (DataAttr (PyClass BaseWaveform))
      else if decide (name = "waveform") then Some WaveformProperty
      else method_in BaseTDEMSrc_methods name
  | MagDipole =>
      if bool_decide (name ∈ ["moment"; "mu"; "orientation"]) then
        Some (DataAttr (PyOpaque "properties"))
      else method_in MagDipole_methods name
  | CircularLoop =>
      if decide (name = "radius") then
        Some (DataAttr (PyOpaque "properties"))
      else method_in CircularLoop_methods name
  | LineCurrent =>
      if decide (name = "waveform") then Some (DataAttr PyNone)
      else if decide (name = "loc") then Some (DataAttr PyNone)
      else if decide (name = "mu") then Some (DataAttr (PyFloat fmu_0))
      else method_in LineCurrent_methods name
  end.

(** Method resolution order, up to [BaseEMSrc]. *)
Definition srcclass_mro (c : srcclass) : list srcclass :=
  match c with
  | BaseTDEMSrc => [BaseTDEMSrc]
  | MagDipole => [MagDipole; BaseTDEMSrc]
  | CircularLoop => [CircularLoop; MagDipole; BaseTDEMSrc]
  | LineCurrent => [LineCurrent; BaseTDEMSrc]
  end.

(** The first binding of [name] along the resolution order. *)
Definition type_lookup (c : srcclass) (name : string) : option member :=
  match omap (λ k, srcclass_dict k name) (srcclass_mro c) with
  | m :: _ => Some m
  | [] => DataAttr <$> inherited name
  end.

(** Attribute read that finds no data descriptor: the instance
    dictionary, then the class. *)
Definition getattr_plain (self : source) (name : string) : result pyobj :=
  match src_dict self !! name with
  | Some v => Ok v
  | None =>
      match type_lookup (src_class self) name with
      | Some (DataAttr v) => Ok v
      | Some MethodAttr => Ok (PyOpaque "method")
      | _ => Raise (AttributeError name)
      end
  end.

(** The getter of the property [waveform]:
    [getattr(self, '_waveform', None)]. *)
Definition waveform_getter (self : source) : pyobj :=
  match getattr_plain self "_waveform" with
  | Ok v => v
  | Raise _ => PyNone
  end.

(** [self.name] *)
Definition src_getattr (self : source) (name : string) : result pyobj :=
  match type_lookup (src_class self) name with
  | Some WaveformProperty => Ok (waveform_getter self)
  | _ => getattr_plain self name
  end.

(** Assignment that finds no data descriptor. *)
Definition set_plain (name : string) (val : pyobj) : ST source () :=
  λ self, (Ok (), set_dict (<[name := val]> (src_dict self)) self).

(** [val._assertMatchesPair], fetched before its argument is
    evaluated. *)
Definition get_assertMatchesPair (val : pyobj)
  : result (pyobj → result ()) :=
  match val with
  | PyWaveform c d =>
      match d !! "_assertMatchesPair" with
      | Some callee => Ok (λ pair, _ ← py_call callee [pair] []; Ok ())
      | None =>
          match wclass_resolve c "_assertMatchesPair" with
          | Some _ => Ok (_assertMatchesPair val)
          | None => Raise (AttributeError "_assertMatchesPair")
          end
      end
  | _ => Raise (AttributeError "_assertMatchesPair")
  end.

(** The setter of the property [waveform]. *)
Definition waveform_setter (val : pyobj) : ST source () :=
  self ← get_self;
  if is_None (waveform_getter self) then
    check ← lift (get_assertMatchesPair val);
    pair ← lift (src_getattr self "waveformPair");
    _ ← lift (check pair);
    set_plain "_waveform" val
  else
    ctor ← lift (src_getattr self "StepOffWaveform");
    w ← lift (py_call ctor [val] []);
    set_plain "_waveform" w.

(** [self.name = val]: through the setter when the class binds [name]
    to the property, into the instance dictionary otherwise. *)
Definition src_setattr (name : string) (val : pyobj) : ST source () :=
  λ self,
  match type_lookup (src_class self) name with
  | Some WaveformProperty => waveform_setter val self
  | _ => set_plain name val self
  end.

(** *** Constructors *)

(** The default of the parameter [waveform], [StepOffWaveform()]
    evaluated when the class body runs. *)
Definition default_waveform : pyobj :=
  PyWaveform StepOffWaveform
    (<["hasInitialFields" := PyBool true]> (<["offTime" := PyFloat f0]> ∅)).

Definition sig_BaseTDEMSrc : signature F :=
  {| sig_name := "__init__";
     sig_params := [("self", None); ("rxList", None);
                    ("waveform", Some default_waveform)];
     sig_varkw := true |}.

(** [BaseTDEMSrc.__init__], the second definition of the class body:
    [def __init__(self, rxList, waveform=StepOffWaveform(), **kwargs)].
    [args] are the arguments after [self]. *)
Definition BaseTDEMSrc__init__ (args : list pyobj) (kw : kwargs)
  : ST source () :=
  '(bound, kwargs) ← lift (bind_args sig_BaseTDEMSrc
                             (PyOpaque "self" :: args) kw);
  _ ← src_setattr "waveform" (bound !!! "waveform");
  BaseEMSrc__init__ (bound !!! "rxList") kwargs.

Definition sig_rxList_kwargs : signature F :=
  {| sig_name := "__init__";
     sig_params := [("self", None); ("rxList", None)];
     sig_varkw := true |}.

(** [MagDipole.__init__] and [CircularLoop.__init__]:
    [def __init__(self, rxList, **kwargs)]. *)
Definition MagDipole__init__ (args : list pyobj) (kw : kwargs)
  : ST source () :=
  '(bound, kwargs) ← lift (bind_args sig_rxList_kwargs
                             (PyOpaque "self" :: args) kw);
  BaseTDEMSrc__init__ [bound !!! "rxList"] kwargs.

(** [LineCurrent.__init__] *)
Definition LineCurrent__init__ (args : list pyobj) (kw : kwargs)
  : ST source () :=
  '(bound, kwargs) ← lift (bind_args sig_rxList_kwargs
                             (PyOpaque "self" :: args) kw);
  _ ← src_setattr "integrate" (PyBool false);
  BaseEMSrc__init__ (bound !!! "rxList") kwargs.

(** The [__init__] that the class of the instance resolves to. *)
Definition source__init__ (args : list pyobj) (kw : kwargs)
  : ST source () := λ self,
  match src_class self with
  | BaseTDEMSrc => BaseTDEMSrc__init__ args kw self
  | MagDipole | CircularLoop => MagDipole__init__ args kw self
  | LineCurrent => LineCurrent__init__ args kw self
  end.

(** *** The forward problem, as far as the sources use it *)

(** A Python string object: its characters, and whether it is the
    interned object, the one that a literal of the same characters in
    the source denotes. A string built at run time is equal to the
    literal without being that object. *)
Record pystring : Type := {
  chars : string;
  interned : bool
}.

(** [x is 'lit'], the identity test against a string literal. *)
Definition is_literal (x : pystring) (lit : string) : bool :=
  interned x && String.eqb (chars x) lit.

Record Mesh : Type := {
  gridEx : Grid; gridEy : Grid; gridEz : Grid;
  gridFx : Grid; gridFy : Grid; gridFz : Grid;
  edgeCurl : spmatrix F;
  _meshType : pystring;
  isSymmetric : bool
}.

Record TDEMProblem : Type := {
  mesh : Mesh;
  _formulation : string;
  _fieldType : string;
  timeSteps : list F;
  MfMui : spmatrix F
}.

(** *** MagDipole and CircularLoop *)

(** [_srcFct], of [MagDipole] or overridden by [CircularLoop]. *)
Definition _srcFct (self : source) (obsLoc : Grid) (component : string)
  : result (list F) :=
  match src_class self with
  | MagDipole =>
      Ok (MagneticDipoleVectorPotential (loc self) obsLoc component
            (mu self) (moment self))
  | CircularLoop =>
      Ok (MagneticLoopVectorPotential (loc self) obsLoc component
            (mu self) (radius self))
  | _ => Raise (AttributeError "_srcFct")
  end.

(** The grids and the curl that [_bSrc] binds: in neither branch when
    the formulation is neither ['EB'] nor ['HJ']. *)
Definition _bSrc_locals (prob : TDEMProblem)
  : option (Grid * Grid * Grid * spmatrix F) :=
  let mesh := mesh prob in
  if String.eqb (_formulation prob) "EB" then
    Some (gridEx mesh, gridEy mesh, gridEz mesh, edgeCurl mesh)
  else if String.eqb (_formulation prob) "HJ" then
    Some (gridFx mesh, gridFy mesh, gridFz mesh, transpose (edgeCurl mesh))
  else None.

(** [MagDipole._bSrc]. The test [_meshType is 'CYL'] is an identity
    test: it holds of the interned string ['CYL'] only. *)
Definition _bSrc (self : source) (prob : TDEMProblem) : result (list F) :=
  let locals := _bSrc_locals prob in
  a ← (if is_literal (_meshType (mesh prob)) "CYL" then
         if negb (isSymmetric (mesh prob)) then
           Raise (NotImplementedError
                    (Some "Non-symmetric cyl mesh not implemented yet!"))
         else
           match locals with
           | Some (_, gridY, _, _) => _srcFct self gridY "y"
           | None => Raise (UnboundLocalError "gridY")
           end
       else
         match locals with
         | Some (gridX, gridY, gridZ, _) =>
             ax ← _srcFct self gridX "x";
             ay ← _srcFct self gridY "y";
             az ← _srcFct self gridZ "z";
             Ok (ax ++ ay ++ az)
         | None => Raise (UnboundLocalError "gridX")
         end);
  match locals with
  | Some (_, _, _, C) => dot C a
  | None => Raise (UnboundLocalError "C")
  end.

(** [self.waveform.hasInitialFields] *)
Definition hasInitialFields (self : source) : result pyobj :=
  w ← src_getattr self "waveform";
  py_getattr w "hasInitialFields".

(** [self.waveform.hasInitialFields is True and
    time < prob.timeSteps[1]]: the time steps are read only when the
    flag is [True]. *)
Definition initial_step (self : source) (prob : TDEMProblem) (time : F)
  : result bool :=
  flag ← hasInitialFields self;
  if is_True flag then
    match timeSteps prob !! 1 with
    | Some t1 => Ok (fltb time t1)
    | None => Raise IndexError
    end
  else Ok false.

(** [1./x] on Python floats. *)
Definition py_inverse (x : F) : result F :=
  if feqb x f0 then Raise ZeroDivisionError else Ok (fdiv f1 x).

(** [v * x] for an array [v] and the value of [eval]. *)
Definition array_times (v : list F) (x : pyobj) : result pyobj :=
  match x with
  | PyFloat a => Ok (PyVec (vscale_r v a))
  | PyBool b => Ok (PyVec (vscale_r v (if b then f1 else f0)))
  | PyZero => Ok PyZero
  | PyVec u =>
      if decide (length u = length v) then Ok (PyVec (zip_with fmul v u))
      else Raise (ValueError "operands could not be broadcast together")
  | _ => Raise (TypeError "unsupported operand type(s) for *")
  end.

(** [self.waveform.eval(time)] *)
Definition waveform_eval (self : source) (time : F) : result pyobj :=
  w ← src_getattr self "waveform";
  call_eval w time.

(** [MagDipole.bInitial] *)
Definition MagDipole_bInitial (self : source) (prob : TDEMProblem)
  : result pyobj :=
  flag ← hasInitialFields self;
  match flag with
  | PyBool false => Ok PyZero
  | _ => b ← _bSrc self prob; Ok (PyVec b)
  end.

(** [MagDipole.hInitial] *)
Definition MagDipole_hInitial (self : source) (prob : TDEMProblem)
  : result pyobj :=
  flag ← hasInitialFields self;
  match flag with
  | PyBool false => Ok PyZero
  | _ =>
      inv ← py_inverse (mu self);
      b ← _bSrc self prob;
      Ok (PyVec (vscale inv b))
  end.

(** [MagDipole.eInitial] *)
Definition MagDipole_eInitial (self : source) (prob : TDEMProblem)
  : result pyobj := Ok PyZero.

(** [MagDipole.s_m] *)
Definition MagDipole_s_m (self : source) (prob : TDEMProblem) (time : F)
  : result pyobj :=
  flag ← hasInitialFields self;
  match flag with
  | PyBool false => Ok PyZero
  | _ => Ok PyZero
  end.

(** [MagDipole.s_e]. A function that ends without [return] gives
    [None]. *)
Definition MagDipole_s_e (self : source) (prob : TDEMProblem) (time : F)
  : result pyobj :=
  let C := edgeCurl (mesh prob) in
  b ← _bSrc self prob;
  if String.eqb (_formulation prob) "EB" then
    let MfMui := MfMui prob in
    initial ← initial_step self prob time;
    if (initial : bool) then
      if String.eqb (_fieldType prob) "b" then Ok PyZero
      else if String.eqb (_fieldType prob) "e" then
        Mb ← dot MfMui b;
        CtMb ← dot (transpose C) Mb;
        Ok (PyVec CtMb)
      else Ok PyNone
    else
      Mb ← dot MfMui b;
      CtMb ← dot (transpose C) Mb;
      amplitude ← waveform_eval self time;
      array_times CtMb amplitude
  else if String.eqb (_formulation prob) "HJ" then
    inv ← py_inverse (mu self);
    let h := vscale inv b in
    initial ← initial_step self prob time;
    if (initial : bool) then
      if String.eqb (_fieldType prob) "h" then Ok PyZero
      else if String.eqb (_fieldType prob) "j" then
        Ch ← dot C h;
        Ok (PyVec Ch)
      else Ok PyNone
    else
      Ch ← dot C h;
      amplitude ← waveform_eval self time;
      array_times Ch amplitude
  else Ok PyNone.

(** The two situations that [s_e] tells apart, given the value
    [flag] of [waveform.hasInitialFields]: the call is at the first
    step, [flag is True and time < timeSteps[1]], or it is not. *)
Definition at_first_step (prob : TDEMProblem) (time : F) (flag : pyobj)
  : Prop :=
  is_True flag = true ∧
  ∃ t1, timeSteps prob !! 1 = Some t1 ∧ fltb time t1 = true.

Definition after_first_step (prob : TDEMProblem) (time : F) (flag : pyobj)
  : Prop :=
  is_True flag = false ∨
  ∃ t1, timeSteps prob !! 1 = Some t1 ∧ fltb time t1 = false.

End Sources.

Arguments source F Loc : clear implicits.
Arguments Mesh F Grid : clear implicits.
Arguments TDEMProblem F Grid : clear implicits.

(** ** A small forward problem and sources over binary64

    Three edges and three faces; the curl is diagonal. A grid is the
    list of the values the vector potential takes on it. The base class
    of the sources gives them no attribute and its constructor leaves
    the instance as it is. *)

Section Examples.
#[local] Open Scope float_scope.

Definition no_inherited : string → option (pyobj float) := λ _, None.

Definition BaseEMSrc_init_skip
  : pyobj float → kwargs float → ST (source float ()) () :=
  λ _ _ self, (Ok (), self).

Definition potential_on_grid
  : () → list float → string → float → float → list float :=
  λ _ grid _ _ _, grid.

Definition mesh_3 : Mesh float (list float) :=
  {| gridEx := [1]; gridEy := [2]; gridEz := [3];
     gridFx := [4]; gridFy := [5]; gridFz := [6];
     edgeCurl := sdiag [1; 2; 3];
     _meshType := {| chars := "TENSOR"; interned := true |};
     isSymmetric := false |}.

Definition problem_3 (formulation fieldType : string)
  : TDEMProblem float (list float) :=
  {| mesh := mesh_3;
     _formulation := formulation;
     _fieldType := fieldType;
     timeSteps := [1; 1; 1];
     MfMui := sdiag [10; 10; 10] |}.

(** A mesh with three edges and two faces, whose curl is neither
    square nor symmetric: [C = [[1, 2, 0], [0, 3, 4]]]. *)
Definition mesh_2x3 : Mesh float (list float) :=
  {| gridEx := [1]; gridEy := [1]; gridEz := [1];
     gridFx := [1]; gridFy := [1]; gridFz := [];
     edgeCurl := {| fmt := CSR; shape := (2%nat, 3%nat);
                    lines := [[(0%nat, 1); (1%nat, 2)];
                              [(1%nat, 3); (2%nat, 4)]] |};
     _meshType := {| chars := "TENSOR"; interned := true |};
     isSymmetric := false |}.

Definition problem_2x3 (formulation fieldType : string)
  : TDEMProblem float (list float) :=
  {| mesh := mesh_2x3;
     _formulation := formulation;
     _fieldType := fieldType;
     timeSteps := [1; 1; 1];
     MfMui := sdiag [10; 100] |}.

(** An instance before its [__init__] has run. *)
Definition blank_source (c : srcclass) : source float () :=
  {| src_class := c; src_dict := ∅; loc := ();
     mu := 2; moment := 1; radius := 1 |}.

(** [c(rxList, **kw)] *)
Definition new_source (c : srcclass) (kw : kwargs float)
  : result () * source float () :=
  source__init__ no_inherited BaseEMSrc_init_skip
    [PyOpaque "rxList"] kw (blank_source c).

(** [MagDipole(rxList)], with the default waveform. *)
Definition dipole : source float () := (new_source MagDipole []).2.

(** [RawWaveform(waveFct=lambda t: 3*t)] *)
Definition raw_waveform : pyobj float :=
  PyWaveform RawWaveform
    (<["waveFct" := PyFun (λ t, 3 * t)]> (<["offTime" := PyFloat 0]> ∅)).

(** [MagDipole(rxList, waveform=RawWaveform(waveFct=lambda t: 3*t))] *)
Definition raw_dipole : source float () :=
  (new_source MagDipole [("waveform", raw_waveform)]).2.

(** [LineCurrent(rxList)] *)
Definition line_current : source float () := (new_source LineCurrent []).2.

End Examples.

(** ** Inputs for the misfit over the reals

    A forward problem with two data and two parameters, [J = [[1, 2],
    [0, 3]]], its data, weights, a model and two directions. *)

Definition J_2x2 : spmatrix R :=
  {| fmt := CSR; shape := (2, 2);
     lines := [[(0, 1%R); (1, 2%R)]; [(1, 3%R)]] |}.

Definition d_2 : list R := [1; 1]%R.
Definition w_2 : list R := [2; 1 / 2]%R.
Definition m_2 : list R := [1; 0]%R.
Definition h_2 : list R := [0; 1]%R.

(** The misfit of the scenario over the reals with the weights [w_2]
    assigned. *)
Definition misfit_R_w2 : l2_DataMisfit R () :=
  set_W (Some (sdiag w_2)) misfit_R.

(** [self.scale = s], the factor that [deriv] reads. *)
Definition set_scale {F Fields : Type} (s : F)
    (self : l2_DataMisfit F Fields) : l2_DataMisfit F Fields :=
  {| survey := survey self; std := std self; eps := eps self;
     scale := s; _W := _W self |}.



(** ** EM/TDEM/SrcTDEM.py: the methods of the sources *)

Section SourceMethods.
Context {F : Type} `{Scalar F} {Loc Grid : Type}.
#[local] Abbreviation pyobj := (pyobj F).
#[local] Abbreviation kwargs := (kwargs F).
#[local] Abbreviation source := (source F Loc).
#[local] Abbreviation TDEMProblem := (TDEMProblem F Grid).

Variable MagneticDipoleVectorPotential :
  Loc → Grid → string → F → F → list F.
Variable MagneticLoopVectorPotential :
  Loc → Grid → string → F → F → list F.
Variable inherited : string → option pyobj.

(** [loc[:, k]] on the array of the vertices of a current path. *)
Variable column : pyobj → nat → result pyobj.

(** [getSourceTermLineCurrentPolygon] of [SimPEG.EM.Utils]. The mesh
    stands for its origin [x0] and its cell sizes [hx], [hy], [hz]; the
    other arguments are the three columns of the vertices. *)
Variable getSourceTermLineCurrentPolygon :
  Mesh F Grid → pyobj → pyobj → pyobj → result pyobj.

(** The call of a value that is not a method of the module, found
    under the name of a method in the instance dictionary or in what
    the sources inherit; the arguments of the call are the problem and,
    where there is one, the time. *)
Variable call_attribute :
  pyobj → TDEMProblem → option F → ST source pyobj.

(** *** Waveforms: [evalDeriv] *)

(** [obj.evalDeriv(time)]: only [BaseWaveform] defines the method, and
    it raises. *)
Definition call_evalDeriv (obj : pyobj) (time : F) : result pyobj :=
  match obj with
  | PyWaveform c d =>
      match d !! "evalDeriv" with
      | Some callee => py_call callee [PyFloat time] []
      | None =>
          match wclass_resolve c "evalDeriv" with
          | Some _ => Raise (NotImplementedError None)
          | None => Raise (AttributeError "evalDeriv")
          end
      end
  | _ => Raise (AttributeError "evalDeriv")
  end.

(** *** Products *)

(** Modelled from the spec: the [Zero] sentinel of the utilities, which
    is not among the sources, absorbs every factor. The other cases of
    [x * y] are the products of Python floats and numpy arrays. *)
Definition py_mul (x y : pyobj) : result pyobj :=
  match x with
  | PyVec v => array_times v y
  | PyZero => Ok PyZero
  | PyFloat a =>
      match y with
      | PyFloat b => Ok (PyFloat (fmul a b))
      | PyBool b => Ok (PyFloat (fmul a (if b then f1 else f0)))
      | PyVec u => Ok (PyVec (vscale a u))
      | PyZero => Ok PyZero
      | _ => Raise (TypeError "unsupported operand type(s) for *")
      end
  | _ => Raise (TypeError "unsupported operand type(s) for *")
  end.

(** *** LineCurrent *)

(** [getattr(self, name, default)] *)
Definition getattr_default (self : source) (name : string)
    (default : pyobj) : pyobj :=
  match src_getattr inherited self name with
  | Ok v => v
  | Raise _ => default
  end.

(** [x[:, k]]; [None] has no subscript. *)
Definition subscript_column (x : pyobj) (k : nat) : result pyobj :=
  match x with
  | PyNone => Raise (TypeError "'NoneType' object is not subscriptable")
  | _ => column x k
  end.

(** [LineCurrent.Mejs] *)
Definition LineCurrent_Mejs (prob : TDEMProblem) : ST source pyobj :=
  self ← get_self;
  if is_None (getattr_default self "_Mejs" PyNone) then
    px ← lift (l ← src_getattr inherited self "loc"; subscript_column l 0);
    py ← lift (l ← src_getattr inherited self "loc"; subscript_column l 1);
    pz ← lift (l ← src_getattr inherited self "loc"; subscript_column l 2);
    M ← lift (getSourceTermLineCurrentPolygon (mesh prob) px py pz);
    _ ← src_setattr inherited "_Mejs" M;
    self ← get_self;
    lift (src_getattr inherited self "_Mejs")
  else lift (src_getattr inherited self "_Mejs").

(** The class that gives the name [name] to the instances of [c]: the
    first along the resolution order whose body binds it. *)
Definition method_owner (c : srcclass) (name : string) : option srcclass :=
  head (filter (λ k, is_Some (srcclass_dict k name)) (srcclass_mro c)).

(** [self.Mejs(prob)] *)
Definition src_Mejs (prob : TDEMProblem) : ST source pyobj := λ self,
  match src_dict self !! "Mejs" with
  | Some x => call_attribute x prob None self
  | None =>
      match type_lookup inherited (src_class self) "Mejs" with
      | Some MethodAttr => LineCurrent_Mejs prob self
      | Some (DataAttr x) => call_attribute x prob None self
      | _ => (Raise (AttributeError "Mejs"), self)
      end
  end.

(** [LineCurrent.s_e] *)
Definition LineCurrent_s_e (prob : TDEMProblem) (time : F)
  : ST source pyobj :=
  M ← src_Mejs prob;
  self ← get_self;
  amplitude ← lift (waveform_eval inherited self time);
  lift (py_mul M amplitude).

(** *** The fields and forcing terms of every source *)

(** The methods that return an initial field, a forcing term, or a
    derivative of one. *)
Inductive method : Type :=
| m_bInitial | m_bInitialDeriv
| m_eInitial | m_eInitialDeriv
| m_hInitial | m_hInitialDeriv
| m_jInitial | m_jInitialDeriv
| m_s_m | m_s_e | m_s_mDeriv | m_s_eDeriv.

Definition method_name (m : method) : string :=
  match m with
  | m_bInitial => "bInitial" | m_bInitialDeriv => "bInitialDeriv"
  | m_eInitial => "eInitial" | m_eInitialDeriv => "eInitialDeriv"
  | m_hInitial => "hInitial" | m_hInitialDeriv => "hInitialDeriv"
  | m_jInitial => "jInitial" | m_jInitialDeriv => "jInitialDeriv"
  | m_s_m => "s_m" | m_s_e => "s_e"
  | m_s_mDeriv => "s_mDeriv" | m_s_eDeriv => "s_eDeriv"
  end.

(** The methods with a time argument. *)
Definition takes_time (m : method) : bool :=
  match m with
  | m_s_m | m_s_e | m_s_mDeriv | m_s_eDeriv => true
  | _ => false
  end.

(** The body of the method [m] in the class [k]. The derivatives read
    neither [v] nor [adjoint]. Every one of these methods of
    [BaseTDEMSrc] is [return Zero()]; [CircularLoop] defines none. *)
Definition method_body (k : srcclass) (m : method) (prob : TDEMProblem)
    (time : F) : ST source pyobj :=
  match k with
  | BaseTDEMSrc => mret PyZero
  | MagDipole =>
      match m with
      | m_bInitial =>
          self ← get_self;
          lift (MagDipole_bInitial MagneticDipoleVectorPotential
                  MagneticLoopVectorPotential inherited self prob)
      | m_hInitial =>
          self ← get_self;
          lift (MagDipole_hInitial MagneticDipoleVectorPotential
                  MagneticLoopVectorPotential inherited self prob)
      | m_eInitial =>
          self ← get_self; lift (MagDipole_eInitial self prob)
      | m_eInitialDeriv => mret PyZero
      | m_s_m =>
          self ← get_self; lift (MagDipole_s_m inherited self prob time)
      | m_s_e =>
          self ← get_self;
          lift (MagDipole_s_e MagneticDipoleVectorPotential
                  MagneticLoopVectorPotential inherited self prob time)
      | _ => lift (Raise (AttributeError (method_name m)))
      end
  | CircularLoop => lift (Raise (AttributeError (method_name m)))
  | LineCurrent =>
      match m with
      | m_bInitial | m_eInitial | m_eInitialDeriv | m_s_m => mret PyZero
      | m_s_e => LineCurrent_s_e prob time
      | _ => lift (Raise (AttributeError (method_name m)))
      end
  end.

(** [self.m(prob, ...)]: the instance dictionary, then the classes
    along the resolution order, then what the sources inherit. *)
Definition src_call (m : method) (prob : TDEMProblem) (time : F)
  : ST source pyobj := λ self,
  let name := method_name m in
  let t := if takes_time m then Some time else None in
  match src_dict self !! name with
  | Some x => call_attribute x prob t self
  | None =>
      match type_lookup inherited (src_class self) name,
            method_owner (src_class self) name with
      | Some MethodAttr, Some k => method_body k m prob time self
      | Some (DataAttr x), _ => call_attribute x prob t self
      | _, _ => (Raise (AttributeError name), self)
      end
  end.

(** [BaseTDEMSrc.eval] *)
Definition BaseTDEMSrc_eval (prob : TDEMProblem) (time : F)
  : ST source (pyobj * pyobj) :=
  s_m ← src_call m_s_m prob time;
  s_e ← src_call m_s_e prob time;
  mret (s_m, s_e).

(** What [evalDeriv] returns: a pair of values, or a pair of functions
    of [v]. *)
Inductive derivatives : Type :=
| DerivValues (s_mDeriv s_eDeriv : pyobj)
| DerivFunctions (s_mDeriv s_eDeriv : pyobj → ST source pyobj).

(** [BaseTDEMSrc.evalDeriv(prob, time, v=None, adjoint=False)] *)
Definition BaseTDEMSrc_evalDeriv (prob : TDEMProblem) (time : F)
    (v : pyobj) (adjoint : pyobj) : ST source derivatives :=
  if negb (is_None v) then
    a ← src_call m_s_mDeriv prob time;
    b ← src_call m_s_eDeriv prob time;
    mret (DerivValues a b)
  else
    mret (DerivFunctions (λ v, src_call m_s_mDeriv prob time)
                         (λ v, src_call m_s_eDeriv prob time)).

(** [self.moment = x] *)
Definition set_moment (x : F) (self : source) : source :=
  {| src_class := src_class self; src_dict := src_dict self;
     loc := loc self; mu := mu self; moment := x; radius := radius self |}.

End SourceMethods.

(** ** A current path and the collaborators of the examples *)

Section MoreExamples.
#[local] Open Scope float_scope.

Definition not_callable
  : pyobj float → TDEMProblem float (list float) → option float
    → ST (source float ()) (pyobj float) :=
  λ _ _ _ self, (Raise (TypeError "object is not callable"), self).

(** The vertices are kept as one vector; each column is that vector. *)
Definition whole_column : pyobj float → nat → result (pyobj float) :=
  λ x _, Ok x.

(** A source term that is the sum of the curl's diagonal and the path. *)
Definition path_term
  : Mesh float (list float) → pyobj float → pyobj float → pyobj float
    → result (pyobj float) :=
  λ mesh px _ _,
  match px with
  | PyVec p => Ok (PyVec (zip_with PrimFloat.add (gridEx mesh ++ gridEy mesh
                                                  ++ gridEz mesh) p))
  | _ => Raise (TypeError "vertices")
  end.

(** [LineCurrent(rxList)] with [loc] and [waveform] assigned
    afterwards. *)
Definition line_current_path : source float () :=
  set_dict (<["waveform" := raw_waveform]>
              (<["loc" := PyVec [10; 20; 30]]> (src_dict line_current)))
    line_current.

(** The same mesh with other edge grids. *)
Definition mesh_3' : Mesh float (list float) :=
  {| gridEx := [7]; gridEy := [8]; gridEz := [9];
     gridFx := [4]; gridFy := [5]; gridFz := [6];
     edgeCurl := sdiag [1; 2; 3];
     _meshType := {| chars := "TENSOR"; interned := true |};
     isSymmetric := false |}.

Definition problem_3' : TDEMProblem float (list float) :=
  {| mesh := mesh_3';
     _formulation := "EB";
     _fieldType := "e";
     timeSteps := [1; 1; 1];
     MfMui := sdiag [10; 10; 10] |}.

(** [CircularLoop(rxList)] *)
Definition loop : source float () := (new_source CircularLoop []).2.

(** A problem with a single time step. *)
Definition problem_1step : TDEMProblem float (list float) :=
  {| mesh := mesh_3;
     _formulation := "EB";
     _fieldType := "e";
     timeSteps := [1];
     MfMui := sdiag [10; 10; 10] |}.

(** A cylindrical mesh that is not symmetric. *)
Definition mesh_cyl : Mesh float (list float) :=
  {| gridEx := [1]; gridEy := [2]; gridEz := [3];
     gridFx := [4]; gridFy := [5]; gridFz := [6];
     edgeCurl := sdiag [1; 2; 3];
     _meshType := {| chars := "CYL"; interned := true |};
     isSymmetric := false |}.

Definition problem_cyl : TDEMProblem float (list float) :=
  {| mesh := mesh_cyl;
     _formulation := "EB";
     _fieldType := "e";
     timeSteps := [1; 1; 1];
     MfMui := sdiag [10; 10; 10] |}.

(** The same mesh with a type tag built at run time: equal to
    ['CYL'], not the interned string. *)
Definition mesh_cyl_runtime : Mesh float (list float) :=
  {| gridEx := [1]; gridEy := [2]; gridEz := [3];
     gridFx := [4]; gridFy := [5]; gridFz := [6];
     edgeCurl := sdiag [1; 2; 3];
     _meshType := {| chars := "CYL"; interned := false |};
     isSymmetric := false |}.

Definition problem_cyl_runtime : TDEMProblem float (list float) :=
  {| mesh := mesh_cyl_runtime;
     _formulation := "EB";
     _fieldType := "e";
     timeSteps := [1; 1; 1];
     MfMui := sdiag [10; 10; 10] |}.

End MoreExamples.

(** * Properties *)

(** ** Linear algebra *)

Section LinearAlgebraFacts.
Context {F : Type} `{Scalar F}.

Lemma vdot_acc (v : list F) (s : F) :
  foldl (λ s p, fadd s (fmul p.1 p.2)) s (zip v v)
  = foldl (λ s a, fadd s (fmul a a)) s v.
Proof.
  revert s. induction v as [|a v IH]; intros s; simpl; [done|].
  apply IH.
Qed.

(** The dot product of a vector with itself is the sum of its squares. *)
Lemma vdot_self (v : list F) : vdot v v = sum_sq v.
Proof. apply vdot_acc. Qed.

Lemma length_csr_matvec n ls (x : list F) :
  length (csr_matvec n ls x) = n.
Proof. unfold csr_matvec. by rewrite length_map, length_seq. Qed.

Lemma length_col_add (xj : F) col y :
  length (col_add xj y col) = length y.
Proof.
  unfold col_add. revert y.
  induction col as [|e col IH]; intros y; simpl; [done|].
  by rewrite IH, length_alter.
Qed.

Lemma length_csc_matvec n k ls (x : list F) :
  length (csc_matvec n k ls x) = n.
Proof.
  unfold csc_matvec.
  assert (Hgen : ∀ js y,
    length (foldl (λ y j, col_add (default f0 (x !! j)) y
                                  (default [] (ls !! j))) y js)
    = length y).
  { induction js as [|j js IH]; intros y; simpl; [done|].
    by rewrite IH, length_col_add. }
  by rewrite Hgen, length_replicate.
Qed.

(** A product has as many entries as the matrix has rows. *)
Lemma length_dot (A : spmatrix F) x y :
  dot A x = Ok y → length y = (shape A).1.
Proof.
  unfold dot. case_decide; [|done]. intros [= <-].
  destruct (fmt A); [apply length_csr_matvec | apply length_csc_matvec].
Qed.

(** The product is defined exactly when the dimensions agree. *)
Lemma dot_defined (A : spmatrix F) x :
  length x = (shape A).2 → ∃ y, dot A x = Ok y.
Proof. intros Hx. unfold dot. rewrite decide_True by done. eauto. Qed.

Lemma dot_dimension_mismatch (A : spmatrix F) x :
  length x ≠ (shape A).2 → dot A x = Raise (ValueError "dimension mismatch").
Proof. intros Hx. unfold dot. by rewrite decide_False. Qed.

Lemma shape_transpose (A : spmatrix F) :
  shape (transpose A) = ((shape A).2, (shape A).1).
Proof. done. Qed.


(** Row [i] of a diagonal matrix against [x]. *)
Lemma dot_sdiag (w x : list F) :
  length x = length w →
  dot (sdiag w) x = Ok (zip_with (λ a b, fadd f0 (fmul a b)) w x).
Proof.
  intros Hlen. unfold dot. simpl. rewrite decide_True by done. f_equal.
  unfold csr_matvec. apply list_eq. intros i.
  rewrite list_lookup_fmap, lookup_zip_with.
  destruct (decide (i < length w)) as [Hi|Hi].
  - rewrite lookup_seq_lt by done. simpl.
    rewrite list_lookup_imap.
    destruct (lookup_lt_is_Some_2 w i Hi) as [a Ha].
    destruct (lookup_lt_is_Some_2 x i ltac:(lia)) as [b Hb].
    rewrite Ha. simpl. rewrite Hb. unfold row_sum. simpl. by rewrite Hb.
  - rewrite lookup_seq_ge by lia. simpl.
    by rewrite (lookup_ge_None_2 w) by lia.
Qed.

Context `{!ScalarLaws F}.

Lemma dot_sdiag_lawful (w x : list F) :
  length x = length w →
  dot (sdiag w) x = Ok (zip_with fmul w x).
Proof.
  intros Hlen. rewrite dot_sdiag by done. f_equal.
  revert x Hlen. induction w as [|a w IH]; intros [|b x] Hlen; simpl in *;
    try done.
  rewrite fadd_0_l. f_equal. apply IH. lia.
Qed.

(** The entries of [diag(w) (s * (diag(w) r))]. *)
Lemma zip_with_scaled (s : F) (w r : list F) :
  zip_with fmul w (vscale s (zip_with fmul w r))
  = zip_with (λ a b, fmul a (fmul s (fmul a b))) w r.
Proof.
  revert r. induction w as [|a w IH]; intros [|b r]; try reflexivity.
  cbn. f_equal. apply IH.
Qed.


Lemma vscale_one (x : list F) : vscale f1 x = x.
Proof.
  unfold vscale. induction x as [|a x IH]; simpl; [done|].
  by rewrite fmul_1_l, IH.
Qed.

End LinearAlgebraFacts.

Section DiagonalFacts.
Context {F : Type} `{Scalar F}.

(** The column loop of the transposed product of a diagonal matrix,
    after [k] columns. *)
Lemma csc_sdiag_prefix (w x : list F) (k : nat) :
  length x = length w → (k ≤ length w)%nat →
  foldl (λ y j, col_add (default f0 (x !! j)) y
                  (default [] (imap (λ i a, [(i, a)]) w !! j)))
        (replicate (length w) f0) (seq 0 k)
  = take k (zip_with (λ a b, fadd f0 (fmul a b)) w x)
    ++ replicate (length w - k) f0.
Proof.
  intros Hlen. induction k as [|k IH]; intros Hk.
  - simpl. by rewrite Nat.sub_0_r.
  - rewrite seq_S, foldl_app, IH by lia. simpl.
    destruct (lookup_lt_is_Some_2 w k ltac:(lia)) as [a Ha].
    destruct (lookup_lt_is_Some_2 x k ltac:(lia)) as [b Hb].
    rewrite list_lookup_imap, Ha, Hb. simpl.
    assert (Hz : zip_with (λ a b, fadd f0 (fmul a b)) w x !! k
                 = Some (fadd f0 (fmul a b)))
      by (by rewrite lookup_zip_with, Ha; simpl; rewrite Hb).
    rewrite (take_S_r _ _ _ Hz).
    replace (length w - k) with (S (length w - S k)) by lia.
    simpl. rewrite <- app_assoc. simpl.
    assert (Hk' : length (take k (zip_with (λ a b, fadd f0 (fmul a b)) w x))
                  = k).
    { apply length_take_le. rewrite length_zip_with_l_eq; lia. }
    rewrite alter_app_r_alt by lia. rewrite Hk', Nat.sub_diag. done.
Qed.

(** A diagonal matrix is its own transpose: the product of the
    transposed matrix, computed column by column, has the same entries as
    the product computed row by row. *)
Lemma dot_transpose_sdiag (w x : list F) :
  length x = length w →
  dot (transpose (sdiag w)) x = dot (sdiag w) x.
Proof.
  intros Hlen. rewrite dot_sdiag by done.
  unfold dot. simpl. rewrite decide_True by done. f_equal.
  unfold csc_matvec. rewrite csc_sdiag_prefix by done.
  rewrite Nat.sub_diag. simpl. rewrite app_nil_r.
  apply take_ge. rewrite length_zip_with_l_eq; lia.
Qed.

End DiagonalFacts.

(** ** The weighted l2 misfit *)

Section DataMisfitFacts.
Context {F : Type} `{Scalar F} {Fields : Type}.
Implicit Types (self : l2_DataMisfit F Fields) (m v : list F)
  (f : option Fields) (A : spmatrix F).

(** Unfolds one method call down to the matches on its parts. *)
Ltac run_method :=
  unfold mbind, mret, ST_bind, ST_ret, get_self, lift; simpl.

(** The getter changes nothing but the cache. *)
Lemma W_result self A self' :
  W self = (Ok A, self') →
  self' = set_W (Some A) self ∧
  (_W self = Some A ∨ (_W self = None ∧ A = sdiag (default_weights self))).
Proof.
  unfold W. destruct (_W self) as [A0|] eqn:E; intros [= <- <-].
  - split; [|by left]. destruct self; simpl in *. by subst.
  - split; [done|by right].
Qed.

(** Once built, the matrix is returned as it is. *)
Lemma W_cached self A self' :
  W self = (Ok A, self') → W self' = (Ok A, self').
Proof.
  intros HW. destruct (W_result _ _ _ HW) as [-> _]. done.
Qed.

Lemma W_total self : ∃ A self', W self = (Ok A, self').
Proof. unfold W. destruct (_W self); eauto. Qed.

Lemma W_keeps self A self' :
  W self = (Ok A, self') →
  survey self' = survey self ∧ scale self' = scale self ∧
  std self' = std self ∧ eps self' = eps self.
Proof. intros HW. destruct (W_result _ _ _ HW) as [-> _]. done. Qed.

(** The three methods, given the value of [W] and the products. *)
Lemma call_run self m f A self' Wr :
  W self = (Ok A, self') →
  dot A (residual (survey self) m (fields_or self m f)) = Ok Wr →
  __call__ m f self = (Ok (fmul f0_5 (vdot Wr Wr)), self').
Proof.
  intros HW HWr. unfold __call__. run_method.
  rewrite HW, HWr. by rewrite (W_cached _ _ _ HW).
Qed.

Lemma deriv_run self m f A self' Wr WtWr :
  W self = (Ok A, self') →
  dot A (residual (survey self) m (fields_or self m f)) = Ok Wr →
  dot (transpose A) (vscale (scale self) Wr) = Ok WtWr →
  deriv m f self
  = (Ok (Jtvec (prob (survey self)) m WtWr (fields_or self m f)), self').
Proof.
  intros HW HWr HWt. unfold deriv. run_method.
  rewrite HW, HWr. rewrite (W_cached _ _ _ HW), HWt.
  by rewrite (W_cached _ _ _ HW).
Qed.

Lemma deriv2_run self m v f A self' WJv WtWJv :
  W self = (Ok A, self') →
  dot A (Jvec_approx (prob (survey self)) m v (fields_or self m f))
    = Ok WJv →
  dot (transpose A) WJv = Ok WtWJv →
  deriv2 m v f self
  = (Ok (Jtvec_approx (prob (survey self)) m WtWJv (fields_or self m f)),
     self').
Proof.
  intros HW HWJ HWt. unfold deriv2. run_method.
  rewrite HW, HWJ. rewrite (W_cached _ _ _ HW), HWt.
  by rewrite (W_cached _ _ _ HW).
Qed.

(** The second product of [deriv] and [deriv2] is always defined: the
    first one has as many entries as [W] has rows. *)
Lemma dot_transpose_defined A x y y' :
  dot A x = Ok y → length y' = length y →
  ∃ z, dot (transpose A) y' = Ok z.
Proof.
  intros Hy Hlen. apply dot_defined.
  rewrite Hlen, (length_dot _ _ _ Hy). done.
Qed.

Context `{!ScalarLaws F}.


End DataMisfitFacts.

(** ** The weighting matrix *)

Section WeightingFacts.
Context {F : Type} `{Scalar F} {Fields : Type}.
Implicit Types (self : l2_DataMisfit F Fields) (A : spmatrix F).

(** Construction without [std] and [eps], neither given by keyword nor
    found on the survey: both defaults are taken and announced. *)
Lemma init_defaults (srv : Survey F Fields) :
  ispaired srv = true → survey_std srv = None → survey_eps srv = None →
  __init__ srv None None
  = Ok ({| survey := srv; std := f0_05;
           eps := fmul (norm2 (dobs srv)) f1em5; scale := f1;
           _W := None |}, [msg_std; msg_eps]).
Proof. intros Hp Hs He. unfold __init__. by rewrite Hp, Hs, He. Qed.

(** What the survey provides is used, silently. *)
Lemma init_from_survey (srv : Survey F Fields) s e :
  ispaired srv = true → survey_std srv = Some s → survey_eps srv = Some e →
  __init__ srv None None
  = Ok ({| survey := srv; std := s; eps := e; scale := f1; _W := None |},
        []).
Proof. intros Hp Hs He. unfold __init__. by rewrite Hp, Hs, He. Qed.

Lemma init_unpaired (srv : Survey F Fields) std0 eps0 :
  ispaired srv = false →
  __init__ srv std0 eps0
  = Raise (AssertionError "The survey must be paired to a problem.").
Proof. intros Hp. unfold __init__. by rewrite Hp. Qed.

(** First access: the default is built and stored. *)
Lemma W_first_access self :
  _W self = None →
  W self = (Ok (sdiag (default_weights self)),
            set_W (Some (sdiag (default_weights self))) self).
Proof. intros HW. unfold W. by rewrite HW. Qed.

(** An assigned matrix is what the getter returns. *)
Lemma W_after_set self A : W (set_W (Some A) self) = (Ok A, set_W (Some A) self).
Proof. done. Qed.

(** A template whose first field to fail is positional raises
    [IndexError] when [format] is given keyword arguments only. *)
Lemma render_IndexError keys ps (kw : gmap string string) :
  positional_first keys ps = true →
  (∀ k, k ∈ keys → is_Some (kw !! k)) →
  render ps NumUnset [] kw = Raise IndexError.
Proof.
  intros Hps Hkw. induction ps as [|[c| |n|k] ps IH]; simpl in *; try done.
  - by rewrite IH.
  - apply andb_prop in Hps as [Hk Hps]. apply bool_decide_eq_true in Hk.
    destruct (Hkw k Hk) as [a ->]. by rewrite IH.
Qed.

(** The template of the assertion message of the setter is such a
    template: it ends in [val{1}]. *)
Lemma W_message_IndexError (n r c : string) :
  py_format W_template []
    (<["nD" := n]> (<["val0" := r]> (<["val1" := c]> ∅)))
  = Raise IndexError.
Proof.
  assert (∃ ps, parse_template W_template None = Ok ps ∧
                positional_first ["nD"; "val0"; "val1"] ps = true)
    as (ps & Hparse & Hfirst)
    by (eexists; split; vm_compute; reflexivity).
  unfold py_format. rewrite Hparse. simpl.
  apply (render_IndexError _ _ _ Hfirst).
  intros k Hk. rewrite !elem_of_cons, elem_of_nil in Hk.
  destruct Hk as [->|[->|[->|[]]]]; by simplify_map_eq.
Qed.

(** A matrix that is not [nD] by [nD] is refused and the instance is
    left as it was, but the exception is the [IndexError] of the
    message. *)
Lemma W_setter_wrong_shape self A :
  shape A ≠ (nD (survey self), nD (survey self)) →
  W_setter (Weights2d A) self = (Raise IndexError, self).
Proof.
  intros Hs. unfold W_setter. rewrite decide_False by done.
  by rewrite W_message_IndexError.
Qed.

Lemma W_setter_wrong_length self (w : list F) :
  length w ≠ nD (survey self) →
  W_setter (Weights1d w) self = (Raise IndexError, self).
Proof.
  intros Hs. unfold W_setter. rewrite decide_False.
  - by rewrite W_message_IndexError.
  - simpl. intros [= ?]. done.
Qed.

(** A matrix of the right shape is stored as it is, and a vector as the
    diagonal matrix of its entries. *)
Lemma W_setter_matrix self A :
  shape A = (nD (survey self), nD (survey self)) →
  W_setter (Weights2d A) self = (Ok (), set_W (Some A) self).
Proof. intros Hs. unfold W_setter. by rewrite decide_True. Qed.

Lemma W_setter_vector self (w : list F) :
  length w = nD (survey self) →
  W_setter (Weights1d w) self = W_setter (Weights2d (sdiag w)) self.
Proof. done. Qed.

End WeightingFacts.

Lemma sqrt5_bounds :
  (2236 / 1000 < sqrt (0 + 1 * 1 + 2 * 2) < 22361 / 10000)%R.
Proof.
  replace (0 + 1 * 1 + 2 * 2)%R with 5%R by lra.
  assert (H5 : (sqrt 5 * sqrt 5 = 5)%R) by (apply sqrt_sqrt; lra).
  assert (Hp : (0 <= sqrt 5)%R) by apply sqrt_pos.
  split; nra.
Qed.

Lemma inv_bounds (d lo hi : R) :
  (0 < d → lo * d < 1 → 1 < hi * d → lo < 1 / d < hi)%R.
Proof.
  intros Hd Hlo Hhi.
  assert (Hi : (0 < / d)%R) by (by apply Rinv_0_lt_compat).
  assert (He : (d * / d = 1)%R) by (apply Rinv_r; lra).
  unfold Rdiv. rewrite Rmult_1_l. split; nra.
Qed.

(** The misfit of the scenario, over the reals. *)
Lemma scenario_value_R m :
  ∃ v, scenario_misfit dobs_R residual_R m = Ok v ∧
       (399731 / 100000 < v < 399733 / 100000)%R.
Proof.
  eexists. split; [reflexivity|].
  simpl. unfold vdot, csr_matvec, row_sum. simpl.
  rewrite (Rabs_right 1), (Rabs_right 2) by lra.
  pose proof sqrt5_bounds as Hs.
  set (s := sqrt (0 + 1 * 1 + 2 * 2)) in *.
  destruct (inv_bounds (1 * (5 / 100) + s * (1 / 100000))
              (1999105 / 100000) (1999107 / 100000)) as [Ha1 Ha2]; [lra..|].
  destruct (inv_bounds (2 * (5 / 100) + s * (1 / 100000))
              (999776 / 100000) (999777 / 100000)) as [Hb1 Hb2]; [lra..|].
  set (a := (1 / (1 * (5 / 100) + s * (1 / 100000)))%R) in *.
  set (b := (1 / (2 * (5 / 100) + s * (1 / 100000)))%R) in *.
  split; nra.
Qed.

(** The same scenario in binary64: the value is 3.99731821762244. *)
Example scenario_value_float :
  scenario_misfit dobs_float residual_float []
  = Ok 0x1.ffa81f94325aap+1%float.
Proof. vm_compute. reflexivity. Qed.

(** The default weights of the scenario in binary64:
    19.991059726301945 and 9.99776443191072. *)
Example scenario_weights_float :
  match __init__ (scenario_survey dobs_float residual_float) None None with
  | Ok (self, _) => (W self).1
  | Raise e => Raise e
  end = Ok (sdiag [0x1.3fdb61718d97dp+4; 0x1.3fedafac8564ep+3]%float).
Proof. vm_compute. reflexivity. Qed.

(** C5 (amended). On an instance whose [W] has not been set, the first
    access to [W] builds the diagonal matrix of [1/(|dobs|*std + eps)],
    stores it, and the next access returns the stored matrix. When neither
    a keyword nor the survey gives [std] and [eps], construction takes
    [std = 0.05] and [eps = ||dobs||_2 * 1e-5] and prints one notice for
    each, without raising. For [dobs = [1.0, 2.0]] with these defaults and
    the residual [[0.1, -0.2]] the misfit is approximately 3.9973. *)
Theorem default_weighting_and_scenario {F : Type} `{Scalar F} {Fields : Type}
    (srv : Survey F Fields) (self : l2_DataMisfit F Fields) :
  ispaired srv = true → survey_std srv = None → survey_eps srv = None →
  _W self = None →
  (∃ self0, __init__ srv None None = Ok (self0, [msg_std; msg_eps]) ∧
            survey self0 = srv ∧ std self0 = f0_05 ∧
            eps self0 = fmul (norm2 (dobs srv)) f1em5 ∧ _W self0 = None) ∧
  (let A := sdiag (map (λ d, fdiv f1 (fadd (fmul (fabs d) (std self))
                                           (eps self)))
                       (dobs (survey self))) in
   W self = (Ok A, set_W (Some A) self) ∧
   W (set_W (Some A) self) = (Ok A, set_W (Some A) self)) ∧
  (∃ v, scenario_misfit dobs_R residual_R [] = Ok v ∧
        approx4 v (39973 / 10000)).
Proof.
  intros Hp Hs He HW. split; [|split].
  - eexists. split; [by apply init_defaults|]. done.
  - split; [by apply W_first_access|done].
  - destruct (scenario_value_R []) as (v & Hv & Hlo & Hhi).
    exists v. split; [done|].
    unfold approx4. apply Rabs_le. lra.
Qed.

Lemma default_weighting_and_scenario_witness :
  _W misfit_float = None ∧
  W misfit_float
  = (Ok (sdiag [0x1.3fdb61718d97dp+4; 0x1.3fedafac8564ep+3]%float),
     set_W (Some (sdiag [0x1.3fdb61718d97dp+4; 0x1.3fedafac8564ep+3]%float))
           misfit_float).
Proof.
  split; [reflexivity|].
  generalize (proj1 (proj1 (proj2
    (default_weighting_and_scenario
       (scenario_survey dobs_float residual_float) misfit_float
       eq_refl eq_refl eq_refl eq_refl)))).
  vm_compute. exact (λ e, e).
Defined.

(** The value of the scenario is not the one the documentation quotes,
    neither over the reals nor in binary64 (where it is
    3.99731821762244). *)
Lemma scenario_misfit_is_not_2_1998 :
  (∃ v, scenario_misfit dobs_R residual_R [] = Ok v ∧
        ¬ approx4 v (21998 / 10000)) ∧
  scenario_misfit dobs_float residual_float []
  = Ok 0x1.ffa81f94325aap+1%float ∧
  PrimFloat.ltb 3%float 0x1.ffa81f94325aap+1%float = true.
Proof.
  split; [|split; vm_compute; reflexivity].
  destruct (scenario_value_R []) as (v & Hv & Hlo & Hhi).
  exists v. split; [done|].
  unfold approx4. intros Habs.
  pose proof (Rle_abs (v - 21998 / 10000)). lra.
Qed.

(** C6, at a failing input: a 3 by 3 matrix assigned to [W] of a misfit
    with two data. The assignment is refused and the instance is left as
    it was, but what is raised is the [IndexError] of [format], not an
    assertion error with the two shapes. *)
Theorem W_setter_3x3_raises_IndexError :
  nD (survey misfit_float) = 2 ∧ shape W_3x3 = (3, 3) ∧
  W_setter (Weights2d W_3x3) misfit_float = (Raise IndexError, misfit_float).
Proof. repeat split. Qed.

(** ** Calls and waveforms *)

Section WaveformFacts.
Context {F : Type} `{Scalar F}.
Implicit Types (self obj val : pyobj F) (args : list (pyobj F))
  (kw : kwargs F) (time : F).

Lemma bind_keywords_error (sig : signature F) kw bound extra e :
  bind_keywords sig kw bound extra = Raise e → ∃ msg, e = TypeError msg.
Proof.
  revert bound extra. induction kw as [|[k v] kw IH]; intros bound extra;
    simpl; [done|].
  case_bool_decide.
  - destruct (bound !! k); [intros [= <-]; eauto|apply IH].
  - destruct (sig_varkw sig); [apply IH|intros [= <-]; eauto].
Qed.

Lemma bind_defaults_error (sig : signature F) params bound e :
  bind_defaults sig params bound = Raise e → ∃ msg, e = TypeError msg.
Proof.
  revert bound. induction params as [|[p d] params IH]; intros bound;
    simpl; [done|].
  destruct (bound !! p); [apply IH|].
  destruct d; [apply IH|intros [= <-]; eauto].
Qed.

(** A call that cannot bind its arguments raises [TypeError]. *)
Lemma bind_args_error (sig : signature F) args kw e :
  bind_args sig args kw = Raise e → ∃ msg, e = TypeError msg.
Proof.
  unfold bind_args.
  destruct (bind_positional _ _ _) as [bound overflow].
  destruct (bind_keywords _ _ _ _) as [[bound' extra]|e'] eqn:Ekw; simpl.
  - destruct overflow; [intros [= <-]; unfold too_many_positional; eauto|].
    destruct (bind_defaults _ _ _) as [?|e'] eqn:Edef; simpl; [done|].
    intros [= <-]. by eapply bind_defaults_error.
  - intros [= <-]. by eapply bind_keywords_error.
Qed.

(** [BaseWaveform.__init__] takes [self] and keywords: a second
    positional argument is refused. *)
Lemma BaseWaveform_init_positional self obj kw :
  (∀ k v, (k, v) ∈ kw → k ≠ "self") →
  BaseWaveform__init__ [self; obj] kw
  = Raise (TypeError
             "__init__() takes 1 positional argument but 2 were given").
Proof.
  intros Hkw. unfold BaseWaveform__init__, bind_args. simpl.
  assert (Hgen : ∀ bound extra,
    ∃ extra', bind_keywords sig_BaseWaveform kw bound extra
              = Ok (bound, extra')).
  { induction kw as [|[k v] kw' IH]; intros bound extra; simpl; [eauto|].
    rewrite bool_decide_eq_false_2.
    - apply IH. intros k' v' Hin. eapply Hkw. by right.
    - simpl. rewrite list_elem_of_singleton. eapply Hkw. by left. }
  destruct (Hgen (<["self" := self]> ∅) []) as [extra' ->]. done.
Qed.

(** The default waveform of the sources is what [StepOffWaveform()]
    returns. *)
Lemma StepOffWaveform_default :
  new_waveform StepOffWaveform [] [] = Ok (default_waveform (F := F)).
Proof. vm_compute. reflexivity. Qed.

(** [StepOffWaveform.eval(t)] is [0.] and the flag is [True]. *)
Lemma StepOffWaveform_eval time :
  call_eval default_waveform time = Ok (PyFloat f0) ∧
  py_getattr (default_waveform (F := F)) "hasInitialFields"
  = Ok (PyBool true).
Proof. split; vm_compute; reflexivity. Qed.

(** A raw waveform delegates to its function. *)
Lemma RawWaveform_eval (g : F → F) offTime time :
  (w ← new_waveform RawWaveform [] [("offTime", offTime);
                                    ("waveFct", PyFun g)];
   call_eval w time) = Ok (PyFloat (g time)).
Proof. vm_compute. reflexivity. Qed.

(** C10. Whatever the arguments, the call [TriangularWaveform(...)]
    raises [TypeError] and gives no instance: with no argument, with
    [offTime] given by position or by keyword, the error is that of
    [BaseWaveform.__init__], which is handed [offTime] as a second
    positional argument and takes keywords only. *)
Theorem TriangularWaveform_cannot_be_constructed :
  (∀ args kw, ∃ msg,
     new_waveform TriangularWaveform args kw = Raise (TypeError msg)) ∧
  (∀ offTime : pyobj F,
     let e := TypeError
                "__init__() takes 1 positional argument but 2 were given" in
     new_waveform TriangularWaveform [] [] = Raise e ∧
     new_waveform TriangularWaveform [offTime] [] = Raise e ∧
     new_waveform TriangularWaveform [] [("offTime", offTime)] = Raise e).
Proof.
  split.
  - intros args kw. unfold new_waveform, TriangularWaveform__init__.
    destruct (bind_args _ _ _) as [[bound extra]|e] eqn:E; simpl.
    + eexists. apply BaseWaveform_init_positional.
      intros k v Hin. apply list_elem_of_singleton in Hin. by intros ->.
    + destruct (bind_args_error _ _ _ _ E) as [msg ->]. eauto.
  - intros offTime e. repeat split; vm_compute; reflexivity.
Qed.

(** C9. For every time, and every object it is applied to,
    [TriangularWaveform.eval] raises [NotImplementedError] with the
    message that names the class; so does the call [w.eval(time)] on
    an instance [w] of the class, where the class provides [eval]. *)
Theorem TriangularWaveform_eval_not_implemented self time
    (d : gmap string (pyobj F)) :
  let e := NotImplementedError (Some
    "TriangularWaveform has not been implemented, you should write it!") in
  TriangularWaveform_eval self time = Raise e ∧
  wclass_resolve TriangularWaveform "eval" = Some TriangularWaveform ∧
  call_eval (PyWaveform TriangularWaveform (delete "eval" d)) time
  = Raise e.
Proof.
  intros e. split; [done|]. split; [by vm_compute|].
  unfold call_eval. rewrite lookup_delete_eq.
  replace (wclass_resolve TriangularWaveform "eval")
    with (Some TriangularWaveform) by (by vm_compute).
  done.
Qed.

End WaveformFacts.

(** ** Sources: the waveform attribute *)

Section SourceFacts.
Context {F : Type} `{Scalar F} {Loc Grid : Type}.
Variable inherited : string → option (pyobj F).
Implicit Types (self : source F Loc) (val : pyobj F).

(** Except in [LineCurrent], the name [waveform] is the property of
    [BaseTDEMSrc]. *)
Lemma waveform_is_property (c : srcclass) :
  c ≠ LineCurrent → type_lookup inherited c "waveform" = Some WaveformProperty.
Proof. destruct c; intros Hc; try done; vm_compute; reflexivity. Qed.

(** [LineCurrent] binds the name again, to [None]: its instances do
    not see the property. *)
Lemma waveform_is_plain_in_LineCurrent :
  type_lookup inherited LineCurrent "waveform" = Some (DataAttr PyNone).
Proof. vm_compute. reflexivity. Qed.


(** No class of the module binds the name [StepOffWaveform]: the
    lookup goes on to what the sources inherit. *)
Lemma StepOffWaveform_lookup (c : srcclass) :
  type_lookup inherited c "StepOffWaveform"
  = DataAttr <$> inherited "StepOffWaveform".
Proof. destruct c; vm_compute; reflexivity. Qed.

Ltac run_setter :=
  unfold waveform_setter, mbind, mret, ST_bind, ST_ret, get_self, lift,
    set_plain; simpl.

(** Assignment to [waveform] on a [LineCurrent]: any value is stored,
    nothing is checked. *)
Lemma LineCurrent_waveform_unchecked self val :
  src_class self = LineCurrent →
  src_setattr inherited "waveform" val self
  = (Ok (), set_dict (<["waveform" := val]> (src_dict self)) self) ∧
  src_getattr inherited
    (set_dict (<["waveform" := val]> (src_dict self)) self) "waveform"
  = Ok val.
Proof.
  intros Hc. unfold src_setattr, src_getattr. simpl. rewrite Hc.
  rewrite waveform_is_plain_in_LineCurrent. split; [done|].
  unfold getattr_plain. simpl. by rewrite lookup_insert_eq.
Qed.



(** Assignment when a waveform is bound: the setter looks for the
    attribute [StepOffWaveform] of the source; when neither the
    instance nor what it inherits has one, the assignment raises and
    the waveform stays. *)
Lemma reassignment_raises self val :
  src_class self ≠ LineCurrent →
  waveform_getter inherited self ≠ PyNone →
  src_dict self !! "StepOffWaveform" = None →
  inherited "StepOffWaveform" = None →
  src_setattr inherited "waveform" val self
  = (Raise (AttributeError "StepOffWaveform"), self).
Proof.
  intros Hc Hget Hd Hinh. unfold src_setattr.
  rewrite waveform_is_property by done. run_setter.
  destruct (waveform_getter inherited self) eqn:E; try done; simpl;
    unfold src_getattr, getattr_plain;
    by rewrite StepOffWaveform_lookup, Hinh, Hd.
Qed.

(** Were the class reachable under that name, the new value would
    become the [offTime] of a fresh step-off waveform. *)
Lemma reassignment_with_class self val :
  src_class self ≠ LineCurrent →
  waveform_getter inherited self ≠ PyNone →
  src_dict self !! "StepOffWaveform" = None →
  inherited "StepOffWaveform" = Some (PyClass StepOffWaveform) →
  src_setattr inherited "waveform" val self
  = (Ok (),
     set_dict (<["_waveform" :=
                   PyWaveform StepOffWaveform
                     (<["hasInitialFields" := PyBool true]>
                        (<["offTime" := val]> ∅))]> (src_dict self)) self).
Proof.
  intros Hc Hget Hd Hinh. unfold src_setattr.
  rewrite waveform_is_property by done. run_setter.
  assert (Hnew : new_waveform StepOffWaveform [val] []
                 = Ok (PyWaveform StepOffWaveform
                         (<["hasInitialFields" := PyBool true]>
                            (<["offTime" := val]> ∅))))
    by (vm_compute; reflexivity).
  destruct (waveform_getter inherited self) eqn:E; try done; simpl;
    unfold src_getattr, getattr_plain;
    rewrite StepOffWaveform_lookup, Hinh, Hd; cbn -[new_waveform];
    by rewrite Hnew.
Qed.

End SourceFacts.

(** A dipole is constructed with the default waveform bound. *)
Example dipole_has_waveform :
  new_source MagDipole [] = (Ok (), dipole) ∧
  waveform_getter no_inherited dipole = default_waveform.
Proof. split; vm_compute; reflexivity. Qed.

(** C7, at a failing input: a dipole constructed with the default
    waveform, then assigned a raw waveform. The setter takes the branch
    that wraps the value, where [self.StepOffWaveform] is not an
    attribute of the source (no class of the module binds that name, and
    the base class is taken to bind none either): the assignment raises
    [AttributeError] and the waveform that was bound stays. *)
Theorem waveform_reassignment_raises_AttributeError :
  waveform_getter no_inherited dipole = default_waveform ∧
  src_setattr no_inherited "waveform" raw_waveform dipole
  = (Raise (AttributeError "StepOffWaveform"), dipole).
Proof. split; vm_compute; reflexivity. Qed.

(** C8, at a failing input: the float [3.0] assigned to the waveform of
    a [LineCurrent]. It is not an instance of the paired class, and it is
    stored without any error. *)
Theorem LineCurrent_accepts_mismatched_waveform :
  isinstance (PyFloat 3%float) BaseWaveform = false ∧
  src_getattr no_inherited line_current "waveformPair"
  = Ok (PyClass BaseWaveform) ∧
  ∃ src', src_setattr no_inherited "waveform" (PyFloat 3%float) line_current
          = (Ok (), src') ∧
          src_getattr no_inherited src' "waveform" = Ok (PyFloat 3%float).
Proof.
  split; [done|]. split; [vm_compute; reflexivity|].
  eexists. split; vm_compute; reflexivity.
Qed.

(** The same value on a dipole that has no waveform yet is refused. *)
Example dipole_refuses_mismatched_waveform :
  src_setattr no_inherited "waveform" (PyFloat 3%float)
    (blank_source MagDipole)
  = (Raise (AttributeError "_assertMatchesPair"), blank_source MagDipole).
Proof. vm_compute. reflexivity. Qed.

(** ** Sources: the electric forcing term of a dipole or loop *)

Section ForcingFacts.
Context {F : Type} `{Scalar F} {Loc Grid : Type}.
Variables MagneticDipoleVectorPotential MagneticLoopVectorPotential :
  Loc → Grid → string → F → F → list F.
Variable inherited : string → option (pyobj F).
Implicit Types (self : source F Loc) (prob : TDEMProblem F Grid)
  (time : F) (flag : pyobj F).

#[local] Abbreviation bSrc :=
  (_bSrc MagneticDipoleVectorPotential MagneticLoopVectorPotential).
#[local] Abbreviation srcFct :=
  (_srcFct MagneticDipoleVectorPotential MagneticLoopVectorPotential).
#[local] Abbreviation s_e :=
  (MagDipole_s_e MagneticDipoleVectorPotential
     MagneticLoopVectorPotential inherited).

(** The vector potential of a dipole and of a loop. *)
Lemma srcFct_MagDipole self obsLoc component :
  src_class self = MagDipole →
  srcFct self obsLoc component
  = Ok (MagneticDipoleVectorPotential (loc self) obsLoc component
          (mu self) (moment self)).
Proof. intros Hc. unfold _srcFct. by rewrite Hc. Qed.

Lemma srcFct_CircularLoop self obsLoc component :
  src_class self = CircularLoop →
  srcFct self obsLoc component
  = Ok (MagneticLoopVectorPotential (loc self) obsLoc component
          (mu self) (radius self)).
Proof. intros Hc. unfold _srcFct. by rewrite Hc. Qed.

(** [b] is the curl of the vector potential on the edge grids under
    [EB], and the transposed curl of the vector potential on the face
    grids under [HJ] (tensor mesh). *)
Lemma bSrc_EB self prob ax ay az :
  _formulation prob = "EB" →
  is_literal (_meshType (mesh prob)) "CYL" = false →
  srcFct self (gridEx (mesh prob)) "x" = Ok ax →
  srcFct self (gridEy (mesh prob)) "y" = Ok ay →
  srcFct self (gridEz (mesh prob)) "z" = Ok az →
  bSrc self prob = dot (edgeCurl (mesh prob)) (ax ++ ay ++ az).
Proof.
  intros Hf Hm Hx Hy Hz. unfold _bSrc, _bSrc_locals. rewrite Hf. simpl.
  rewrite Hm, Hx, Hy, Hz. done.
Qed.

Lemma bSrc_HJ self prob ax ay az :
  _formulation prob = "HJ" →
  is_literal (_meshType (mesh prob)) "CYL" = false →
  srcFct self (gridFx (mesh prob)) "x" = Ok ax →
  srcFct self (gridFy (mesh prob)) "y" = Ok ay →
  srcFct self (gridFz (mesh prob)) "z" = Ok az →
  bSrc self prob = dot (transpose (edgeCurl (mesh prob))) (ax ++ ay ++ az).
Proof.
  intros Hf Hm Hx Hy Hz. unfold _bSrc, _bSrc_locals. rewrite Hf. simpl.
  rewrite Hm, Hx, Hy, Hz. done.
Qed.

(** Any other formulation leaves the locals of [_bSrc] unbound. *)
Lemma bSrc_other_formulation self prob :
  _formulation prob ≠ "EB" → _formulation prob ≠ "HJ" →
  (∃ name, bSrc self prob = Raise (UnboundLocalError name)) ∨
  bSrc self prob
  = Raise (NotImplementedError
             (Some "Non-symmetric cyl mesh not implemented yet!")).
Proof.
  intros H1 H2. unfold _bSrc, _bSrc_locals.
  apply String.eqb_neq in H1, H2. rewrite H1, H2.
  destruct (is_literal _ "CYL"); [destruct (isSymmetric _)|]; simpl.
  - left. by exists "gridY".
  - by right.
  - left. by exists "gridX".
Qed.

(** The test of the first step. *)
Lemma initial_step_true self prob time flag t1 :
  hasInitialFields inherited self = Ok flag →
  is_True flag = true → timeSteps prob !! 1 = Some t1 →
  initial_step inherited self prob time = Ok (fltb time t1).
Proof.
  intros Hflag Ht Hsteps. unfold initial_step.
  by rewrite Hflag; simpl; rewrite Ht, Hsteps.
Qed.

Lemma initial_step_false self prob time flag :
  hasInitialFields inherited self = Ok flag →
  is_True flag = false →
  initial_step inherited self prob time = Ok false.
Proof.
  intros Hflag Ht. unfold initial_step. by rewrite Hflag; simpl; rewrite Ht.
Qed.

Lemma initial_step_first self prob time flag :
  hasInitialFields inherited self = Ok flag →
  at_first_step prob time flag →
  initial_step inherited self prob time = Ok true.
Proof.
  intros Hflag (Ht & t1 & Hsteps & Hlt).
  by rewrite (initial_step_true _ _ _ _ _ Hflag Ht Hsteps), Hlt.
Qed.

Lemma initial_step_after self prob time flag :
  hasInitialFields inherited self = Ok flag →
  after_first_step prob time flag →
  initial_step inherited self prob time = Ok false.
Proof.
  intros Hflag [Ht|(t1 & Hsteps & Hlt)].
  - by eapply initial_step_false.
  - destruct (is_True flag) eqn:Ht; [|by eapply initial_step_false].
    by rewrite (initial_step_true _ _ _ _ _ Hflag Ht Hsteps), Hlt.
Qed.

(** C4 (amended). Let [b] be what [_bSrc] returns, [C] the edge curl
    and [flag] the value of [waveform.hasInitialFields]. Under [EB], at
    the first step ([flag] is [True] and [time < timeSteps[1]]) [s_e]
    returns [Zero] for the field type ['b'] and [C^T (MfMui b)], a
    vector with one entry for each column of [C], for ['e']; otherwise
    it returns [C^T (MfMui b) * waveform.eval(time)], each entry
    multiplied by the amplitude. Under [HJ], with [mu] not zero and
    [h = (1/mu) b], each entry of [b] multiplied by [1/mu], at the
    first step it returns [Zero] for ['h'] and [C h], a vector with one
    entry for each row of [C], for ['j']; otherwise
    [C h * waveform.eval(time)]. The products are assumed defined and
    [eval] to return a float. *)
Theorem MagDipole_s_e_cases self prob time b flag :
  bSrc self prob = Ok b →
  hasInitialFields inherited self = Ok flag →
  let C := edgeCurl (mesh prob) in
  (_formulation prob = "EB" →
     (at_first_step prob time flag → _fieldType prob = "b" →
        s_e self prob time = Ok PyZero) ∧
     (∀ Mb CtMb,
        dot (MfMui prob) b = Ok Mb → dot (transpose C) Mb = Ok CtMb →
        length CtMb = (shape C).2 ∧
        (at_first_step prob time flag → _fieldType prob = "e" →
           s_e self prob time = Ok (PyVec CtMb)) ∧
        (∀ a, after_first_step prob time flag →
              waveform_eval inherited self time = Ok (PyFloat a) →
              s_e self prob time
              = Ok (PyVec (map (λ x, fmul x a) CtMb))))) ∧
  (_formulation prob = "HJ" → feqb (mu self) f0 = false →
     let h := map (fmul (fdiv f1 (mu self))) b in
     (at_first_step prob time flag → _fieldType prob = "h" →
        s_e self prob time = Ok PyZero) ∧
     (∀ Ch,
        dot C h = Ok Ch →
        length Ch = (shape C).1 ∧
        (at_first_step prob time flag → _fieldType prob = "j" →
           s_e self prob time = Ok (PyVec Ch)) ∧
        (∀ a, after_first_step prob time flag →
              waveform_eval inherited self time = Ok (PyFloat a) →
              s_e self prob time
              = Ok (PyVec (map (λ x, fmul x a) Ch))))).
Proof.
  intros Hb Hflag C. split.
  - intros Hf. split; [|intros Mb CtMb HMb HCt; split; [|split]].
    + intros Hfirst Hb'. unfold MagDipole_s_e. rewrite Hb, Hf. simpl.
      rewrite (initial_step_first _ _ _ _ Hflag Hfirst). simpl.
      by rewrite Hb'.
    + rewrite (length_dot _ _ _ HCt), shape_transpose. reflexivity.
    + intros Hfirst He. unfold MagDipole_s_e. rewrite Hb, Hf. simpl.
      rewrite (initial_step_first _ _ _ _ Hflag Hfirst). simpl.
      rewrite He. simpl. rewrite HMb. simpl. fold C. by rewrite HCt.
    + intros a Hafter Ha. unfold MagDipole_s_e. rewrite Hb, Hf. simpl.
      rewrite (initial_step_after _ _ _ _ Hflag Hafter). simpl.
      rewrite HMb. simpl. fold C. rewrite HCt. simpl. by rewrite Ha.
  - intros Hf Hmu h.
    assert (Hinv : py_inverse (mu self) = Ok (fdiv f1 (mu self)))
      by (unfold py_inverse; rewrite Hmu; reflexivity).
    assert (Hh : vscale (fdiv f1 (mu self)) b = h) by reflexivity.
    split; [|intros Ch HCh; split; [|split]].
    + intros Hfirst Hh'. unfold MagDipole_s_e. rewrite Hb, Hf. simpl.
      rewrite Hinv. simpl.
      rewrite (initial_step_first _ _ _ _ Hflag Hfirst). simpl.
      by rewrite Hh'.
    + rewrite (length_dot _ _ _ HCh). reflexivity.
    + intros Hfirst Hj. unfold MagDipole_s_e. rewrite Hb, Hf. simpl.
      rewrite Hinv. simpl.
      rewrite (initial_step_first _ _ _ _ Hflag Hfirst). simpl.
      rewrite Hj. simpl. fold C. rewrite Hh. by rewrite HCh.
    + intros a Hafter Ha. unfold MagDipole_s_e. rewrite Hb, Hf. simpl.
      rewrite Hinv. simpl.
      rewrite (initial_step_after _ _ _ _ Hflag Hafter). simpl.
      fold C. rewrite Hh, HCh. simpl. by rewrite Ha.
Qed.

End ForcingFacts.

(** ** The derivatives against the values, over the reals *)

Section RealFacts.
#[local] Open Scope R_scope.
Implicit Types (x y h u v : list R) (row col : list (nat * R)).

Lemma foldl_plus_acc {A} (t : A → R) (l : list A) (s : R) :
  foldl (λ s a, s + t a) s l = s + foldl (λ s a, s + t a) 0 l.
Proof.
  revert s. induction l as [|a l IH]; intros s; simpl; [lra|].
  rewrite (IH (s + t a)), (IH (0 + t a)). lra.
Qed.

Lemma vdot_cons a b u v : vdot (a :: u) (b :: v) = a * b + vdot u v.
Proof.
  unfold vdot. simpl.
  rewrite (foldl_plus_acc (λ p : R * R, p.1 * p.2)). simpl. lra.
Qed.

Lemma vdot_nil_l v : vdot [] v = 0.
Proof. done. Qed.

Lemma vdot_nil_r u : vdot u [] = 0.
Proof. by destruct u. Qed.

Lemma vdot_comm u v : vdot u v = vdot v u.
Proof.
  revert v. induction u as [|a u IH]; intros [|b v];
    rewrite ?vdot_nil_l, ?vdot_nil_r, ?vdot_cons; try done.
  rewrite IH. lra.
Qed.

Lemma row_sum_cons x j a row :
  row_sum x ((j, a) :: row) = a * default 0 (x !! j) + row_sum x row.
Proof.
  unfold row_sum. simpl.
  rewrite (foldl_plus_acc (λ e : nat * R, e.2 * default 0 (x !! e.1))).
  simpl. lra.
Qed.

Lemma vdot_replicate_0 h n : vdot h (replicate n 0) = 0.
Proof.
  revert n. induction h as [|a h IH]; intros [|n]; simpl;
    rewrite ?vdot_nil_l, ?vdot_nil_r, ?vdot_cons; try done.
  rewrite IH. lra.
Qed.

(** Adding [c] to entry [j] of [y] adds [h_j * c] to the product with
    [h]; out of range nothing changes and [h_j] counts for zero. *)
Lemma vdot_alter h y j c :
  length h = length y →
  vdot h (alter (λ s, s + c) j y) = vdot h y + default 0 (h !! j) * c.
Proof.
  revert y j. induction h as [|a h IH]; intros [|b y] j Hlen; simpl in *;
    try done.
  - rewrite !vdot_nil_l. simpl. lra.
  - destruct j as [|j]; simpl.
    + rewrite !vdot_cons. lra.
    + rewrite !vdot_cons.
      change (list_alter (λ s, s + c) j y) with (alter (λ s, s + c) j y).
      rewrite IH by lia. lra.
Qed.

Lemma vdot_col_add h y col xi :
  length h = length y →
  vdot h (col_add xi y col) = vdot h y + xi * row_sum h col.
Proof.
  revert y. induction col as [|[j a] col IH]; intros y Hlen.
  - unfold col_add, row_sum. simpl. lra.
  - unfold col_add in *. simpl.
    rewrite IH by (by rewrite length_alter).
    rewrite (vdot_alter h y j (a * xi)) by done.
    rewrite row_sum_cons. lra.
Qed.

Lemma rsum_app l1 l2 : rsum (l1 ++ l2) = rsum l1 + rsum l2.
Proof. induction l1 as [|a l1 IH]; simpl; [lra|]. rewrite IH. lra. Qed.

(** The row-by-row product against [x], as a sum over the rows. *)
Lemma vdot_csr x (g : nat → R) (s : nat) :
  vdot x (map g (seq s (length x)))
  = rsum (map (λ i, default 0 (x !! (i - s)%nat) * g i) (seq s (length x))).
Proof.
  revert s. induction x as [|a x IH]; intros s; simpl; [done|].
  rewrite vdot_cons, IH, Nat.sub_diag. simpl. f_equal.
  f_equal. apply map_ext_in. intros i Hi. apply in_seq in Hi.
  replace (i - s)%nat with (S (i - S s)) by lia. done.
Qed.

(** The column-by-column product against [h], after [k] columns. *)
Lemma vdot_csc h x (ls : list (list (nat * R))) y (k : nat) :
  length h = length y →
  vdot h (foldl (λ y j, col_add (default 0 (x !! j)) y
                          (default [] (ls !! j))) y (seq 0 k))
  = vdot h y
    + rsum (map (λ i, default 0 (x !! i) * row_sum h (default [] (ls !! i)))
                (seq 0 k)).
Proof.
  intros Hlen. induction k as [|k IH]; [simpl; lra|].
  rewrite seq_S, foldl_app, map_app, rsum_app. simpl.
  rewrite vdot_col_add, IH; [lra|].
  clear IH. induction (seq 0 k) as [|j js IHjs] using rev_ind; [done|].
  by rewrite foldl_app; simpl; rewrite length_col_add.
Qed.

(** The transpose is the adjoint: [x . (A h) = h . (A^T x)]. *)
Lemma dot_adjoint (A : spmatrix R) x h Ah Atx :
  fmt A = CSR →
  dot A h = Ok Ah → dot (transpose A) x = Ok Atx →
  vdot x Ah = vdot h Atx.
Proof.
  intros Hfmt. unfold dot. simpl. rewrite Hfmt.
  case_decide as Hh; [|done]. case_decide as Hx; [|done].
  intros [= <-] [= <-]. unfold csr_matvec, csc_matvec.
  rewrite <- Hx, (vdot_csr x _ 0), Hx.
  rewrite vdot_csc by (by rewrite length_replicate).
  rewrite vdot_replicate_0, Rplus_0_l. f_equal.
  apply map_ext. intros i. by rewrite Nat.sub_0_r.
Qed.

Lemma sum_sq_nonneg v : 0 <= sum_sq v.
Proof.
  rewrite <- vdot_self.
  induction v as [|a v IH]; [unfold vdot; simpl; lra|].
  rewrite vdot_cons. nra.
Qed.

Lemma lookup_vadd x y (j : nat) :
  length x = length y →
  default 0 (vadd x y !! j) = default 0 (x !! j) + default 0 (y !! j).
Proof.
  intros Hlen. unfold vadd. rewrite lookup_zip_with.
  destruct (x !! j) as [a|] eqn:Ex; simpl.
  - destruct (lookup_lt_is_Some_2 y j) as [b Hb].
    { rewrite <- Hlen. by eapply lookup_lt_Some. }
    by rewrite Hb.
  - rewrite (lookup_ge_None_2 y); [simpl; lra|].
    rewrite <- Hlen. by apply lookup_ge_None.
Qed.

Lemma row_sum_vadd x y row :
  length x = length y →
  row_sum (vadd x y) row = row_sum x row + row_sum y row.
Proof.
  intros Hlen. induction row as [|[j a] row IH].
  - unfold row_sum. simpl. lra.
  - rewrite !row_sum_cons, IH, lookup_vadd by done. lra.
Qed.

Lemma csr_matvec_vadd n (ls : list (list (nat * R))) x y :
  length x = length y →
  csr_matvec n ls (vadd x y) = vadd (csr_matvec n ls x) (csr_matvec n ls y).
Proof.
  intros Hlen. unfold csr_matvec, vadd.
  induction (seq 0 n) as [|i l IH]; simpl; [done|].
  rewrite IH. f_equal. by apply row_sum_vadd.
Qed.

Lemma vdot_vadd_l u v x :
  length u = length v →
  vdot (vadd u v) x = vdot u x + vdot v x.
Proof.
  revert v x. induction u as [|a u IH]; intros [|b v] [|c x] Hlen;
    simpl in *; rewrite ?vdot_nil_l, ?vdot_nil_r; try done; try lra.
  unfold vadd in *. simpl. rewrite !vdot_cons, IH by lia. lra.
Qed.

Lemma vsub_vadd a b d :
  length a = length b → length a = length d →
  vsub (vadd a b) d = vadd (vsub a d) b.
Proof.
  revert b d. induction a as [|a0 a IH]; intros [|b0 b] [|d0 d] Hb Hd;
    simpl in *; try done.
  unfold vsub, vadd in *. simpl. rewrite IH by lia. f_equal. lra.
Qed.

Lemma vdot_vadd_r u v x :
  length u = length v →
  vdot x (vadd u v) = vdot x u + vdot x v.
Proof.
  intros Hlen. rewrite !(vdot_comm x). by apply vdot_vadd_l.
Qed.

Lemma dot_csr_vadd (A : spmatrix R) x y Ax Ay :
  fmt A = CSR → dot A x = Ok Ax → dot A y = Ok Ay →
  dot A (vadd x y) = Ok (vadd Ax Ay).
Proof.
  intros Hfmt. unfold dot. rewrite Hfmt.
  case_decide as Hx; [|done]. case_decide as Hy; [|done].
  intros [= <-] [= <-].
  rewrite decide_True by (unfold vadd; rewrite length_zip_with_l_eq; lia).
  f_equal. apply csr_matvec_vadd. lia.
Qed.

(** The Gauss-Newton product is positive semi-definite:
    [v . deriv2(m, v) = |W J v|^2]. *)
Lemma deriv2_quadratic_form (J : spmatrix R) d w m v :
  fmt J = CSR → shape J = (length w, length v) →
  ∃ g WJv,
    (deriv2 m v None (linear_misfit J d w)).1 = Ok g ∧
    dot (sdiag w) (product (dot J v)) = Ok WJv ∧
    vdot v g = sum_sq WJv ∧ 0 <= vdot v g.
Proof.
  intros Hfmt Hshape.
  destruct (dot_defined J v) as [Jv HJv]; [by rewrite Hshape|].
  pose proof (length_dot _ _ _ HJv) as HlenJv. rewrite Hshape in HlenJv.
  destruct (dot_defined (sdiag w) Jv) as [WJv HWJv]; [done|].
  destruct (dot_transpose_defined _ _ _ WJv HWJv eq_refl) as [z Hz].
  pose proof (length_dot _ _ _ Hz) as Hlenz. simpl in Hlenz.
  destruct (dot_defined (transpose J) z) as [g Hg].
  { simpl. by rewrite Hshape. }
  exists g, WJv.
  assert (Hrun : deriv2 m v None (linear_misfit J d w)
                 = (Ok g, linear_misfit J d w)).
  { rewrite (deriv2_run (linear_misfit J d w) m v None (sdiag w)
               (linear_misfit J d w) WJv z); simpl.
    - by rewrite Hg.
    - done.
    - by rewrite HJv.
    - done. }
  assert (Hquad : vdot v g = sum_sq WJv).
  { rewrite <- (dot_adjoint J z v Jv g Hfmt HJv Hg).
    rewrite vdot_comm.
    rewrite <- (dot_adjoint (sdiag w) WJv Jv WJv z eq_refl HWJv Hz).
    apply vdot_self. }
  split; [by rewrite Hrun|]. split; [by rewrite HJv|].
  split; [done|]. rewrite Hquad. apply sum_sq_nonneg.
Qed.

(** The derivative against the values: for a linear forward problem
    the misfit is quadratic, and [deriv] is its gradient,
    [phi(m + h) = phi(m) + h . deriv(m) + |W J h|^2 / 2]. *)
Lemma deriv_is_gradient (J : spmatrix R) d w m h :
  fmt J = CSR → shape J = (length w, length m) →
  length d = length w → length h = length m →
  ∃ phi0 phi1 g WJh,
    (__call__ m None (linear_misfit J d w)).1 = Ok phi0 ∧
    (__call__ (vadd m h) None (linear_misfit J d w)).1 = Ok phi1 ∧
    (deriv m None (linear_misfit J d w)).1 = Ok g ∧
    dot (sdiag w) (product (dot J h)) = Ok WJh ∧
    phi1 = phi0 + vdot h g + 1 / 2 * sum_sq WJh.
Proof.
  intros Hfmt Hshape Hd Hh.
  set (self := linear_misfit J d w).
  destruct (dot_defined J m) as [Jm HJm]; [by rewrite Hshape|].
  destruct (dot_defined J h) as [Jh HJh]; [by rewrite Hshape|].
  pose proof (length_dot _ _ _ HJm) as HlenJm. rewrite Hshape in HlenJm.
  pose proof (length_dot _ _ _ HJh) as HlenJh. rewrite Hshape in HlenJh.
  simpl in HlenJm, HlenJh.
  pose proof (dot_csr_vadd J m h Jm Jh Hfmt HJm HJh) as HJmh.
  set (r0 := vsub Jm d).
  assert (Hr0 : length r0 = length w).
  { unfold r0, vsub. rewrite length_zip_with_l_eq; lia. }
  destruct (dot_defined (sdiag w) r0) as [a Ha]; [done|].
  destruct (dot_defined (sdiag w) Jh) as [b Hb]; [done|].
  pose proof (dot_csr_vadd (sdiag w) r0 Jh a b eq_refl Ha Hb) as Hab.
  destruct (dot_transpose_defined _ _ _ a Ha eq_refl) as [z Hz].
  pose proof (length_dot _ _ _ Hz) as Hlenz. simpl in Hlenz.
  destruct (dot_defined (transpose J) z) as [g Hg].
  { simpl. by rewrite Hshape. }
  exists (1 / 2 * vdot a a), (1 / 2 * vdot (vadd a b) (vadd a b)), g, b.
  assert (HW : W self = (Ok (sdiag w), self)) by done.
  split; [|split; [|split; [|split]]].
  - rewrite (call_run self m None (sdiag w) self a HW); [done|].
    simpl. by rewrite HJm.
  - rewrite (call_run self (vadd m h) None (sdiag w) self (vadd a b) HW);
      [done|].
    simpl. rewrite HJmh. simpl.
    rewrite vsub_vadd by lia. done.
  - rewrite (deriv_run self m None (sdiag w) self a z HW).
    + simpl. by rewrite Hg.
    + simpl. by rewrite HJm.
    + change (scale self) with (f1 (F := R)). by rewrite vscale_one.
  - by rewrite HJh.
  - pose proof (length_dot _ _ _ Ha) as Hlena.
    pose proof (length_dot _ _ _ Hb) as Hlenb. simpl in Hlena, Hlenb.
    rewrite vdot_vadd_l, !vdot_vadd_r by lia.
    rewrite <- (dot_adjoint J z h Jh g Hfmt HJh Hg).
    rewrite (vdot_comm z Jh).
    rewrite <- (dot_adjoint (sdiag w) a Jh b z eq_refl Hb Hz).
    rewrite <- (vdot_self b), (vdot_comm b a). lra.
Qed.

End RealFacts.

(** ** The two derivatives, over the reals *)

Section DerivativesReal.
#[local] Open Scope R_scope.
Context {Fields : Type}.
Implicit Types (self : l2_DataMisfit R Fields) (m v r x y : list R)
  (f : option Fields) (A : spmatrix R).





End DerivativesReal.

(** ** The theorems at concrete inputs *)


(** The Gauss-Newton product of the scenario in binary64, for the
    direction [[1, 1]]: the squares of the two weights. *)
Example deriv2_float :
  (deriv2 [] [1; 1]%float None misfit_float).1
  = Ok [0x1.8fa478d8dc3fep+8; 0x1.8fd2387eb26dbp+6]%float.
Proof. vm_compute. reflexivity. Qed.

(** C4, as it is stated, fails at this input: under [EB], at the first
    step, with the field type ['h'], the function ends without a
    [return]; its value is [None], neither a vector nor [Zero]. *)
Lemma MagDipole_s_e_returns_None :
  _formulation (problem_3 "EB" "h") = "EB" ∧
  hasInitialFields no_inherited dipole = Ok (PyBool true) ∧
  at_first_step (problem_3 "EB" "h") 0%float (PyBool true) ∧
  MagDipole_s_e potential_on_grid potential_on_grid no_inherited dipole
    (problem_3 "EB" "h") 0%float = Ok PyNone.
Proof.
  split; [done|]. split; [vm_compute; reflexivity|]. split.
  - split; [done|]. exists 1%float. split; vm_compute; reflexivity.
  - vm_compute. reflexivity.
Qed.

Section ForcingInstances.
#[local] Open Scope float_scope.

#[local] Abbreviation s_e_3 :=
  (MagDipole_s_e potential_on_grid potential_on_grid no_inherited).

(** The amended cases on a curl that is neither square nor symmetric,
    with a dipole of permeability [2]: the step-off dipole at the first
    step and the dipole with the waveform [3 t] at time [2], under both
    formulations. *)
Lemma MagDipole_s_e_cases_witness :
  (s_e_3 dipole (problem_2x3 "EB" "b") 0 = Ok PyZero ∧
   s_e_3 dipole (problem_2x3 "EB" "e") 0 = Ok (PyVec [30; 2160; 2800]) ∧
   s_e_3 raw_dipole (problem_2x3 "EB" "e") 2
   = Ok (PyVec [180; 12960; 16800])) ∧
  (s_e_3 dipole (problem_2x3 "HJ" "h") 0 = Ok PyZero ∧
   s_e_3 dipole (problem_2x3 "HJ" "j") 0 = Ok (PyVec [5.5; 15.5]) ∧
   s_e_3 raw_dipole (problem_2x3 "HJ" "j") 2 = Ok (PyVec [33; 93])).
Proof.
  assert (Hflag : hasInitialFields no_inherited dipole = Ok (PyBool true))
    by (vm_compute; reflexivity).
  assert (Hraw : hasInitialFields no_inherited raw_dipole
                 = Ok (PyOpaque "BaseWaveform.hasInitialFields"))
    by (vm_compute; reflexivity).
  assert (Hfirst : ∀ fm ft, at_first_step (problem_2x3 fm ft) 0 (PyBool true)).
  { intros fm ft. split; [reflexivity|]. exists 1.
    split; vm_compute; reflexivity. }
  assert (Hafter : ∀ fm ft, after_first_step (problem_2x3 fm ft) 2
                              (PyOpaque "BaseWaveform.hasInitialFields")).
  { intros fm ft. left. reflexivity. }
  assert (Hev : waveform_eval no_inherited raw_dipole 2 = Ok (PyFloat 6))
    by (vm_compute; reflexivity).
  assert (HbE : ∀ src ft, src = dipole ∨ src = raw_dipole →
            _bSrc potential_on_grid potential_on_grid src
              (problem_2x3 "EB" ft) = Ok [3; 7]).
  { intros src ft [->| ->]; vm_compute; reflexivity. }
  assert (HbH : ∀ src ft, src = dipole ∨ src = raw_dipole →
            _bSrc potential_on_grid potential_on_grid src
              (problem_2x3 "HJ" ft) = Ok [1; 5; 4]).
  { intros src ft [->| ->]; vm_compute; reflexivity. }
  split.
  - split; [|split].
    + exact (proj1 (proj1
        (MagDipole_s_e_cases potential_on_grid potential_on_grid
           no_inherited dipole (problem_2x3 "EB" "b") 0 _ _
           (HbE _ _ (or_introl eq_refl)) Hflag) eq_refl)
        (Hfirst _ _) eq_refl).
    + refine (proj1 (proj2 (proj2 (proj1
        (MagDipole_s_e_cases potential_on_grid potential_on_grid
           no_inherited dipole (problem_2x3 "EB" "e") 0 _ _
           (HbE _ _ (or_introl eq_refl)) Hflag) eq_refl)
        [30; 700] [30; 2160; 2800] _ _)) (Hfirst _ _) eq_refl);
        vm_compute; reflexivity.
    + etransitivity.
      * refine (proj2 (proj2 (proj2 (proj1
          (MagDipole_s_e_cases potential_on_grid potential_on_grid
             no_inherited raw_dipole (problem_2x3 "EB" "e") 2 _ _
             (HbE _ _ (or_intror eq_refl)) Hraw) eq_refl)
          [30; 700] [30; 2160; 2800] _ _)) 6 (Hafter _ _) Hev);
          vm_compute; reflexivity.
      * vm_compute. reflexivity.
  - split; [|split].
    + refine (proj1 (proj2
        (MagDipole_s_e_cases potential_on_grid potential_on_grid
           no_inherited dipole (problem_2x3 "HJ" "h") 0 _ _
           (HbH _ _ (or_introl eq_refl)) Hflag) eq_refl _)
        (Hfirst _ _) eq_refl).
      vm_compute. reflexivity.
    + refine (proj1 (proj2 (proj2 (proj2
        (MagDipole_s_e_cases potential_on_grid potential_on_grid
           no_inherited dipole (problem_2x3 "HJ" "j") 0 _ _
           (HbH _ _ (or_introl eq_refl)) Hflag) eq_refl _)
        [5.5; 15.5] _)) (Hfirst _ _) eq_refl);
        vm_compute; reflexivity.
    + etransitivity.
      * refine (proj2 (proj2 (proj2 (proj2
          (MagDipole_s_e_cases potential_on_grid potential_on_grid
             no_inherited raw_dipole (problem_2x3 "HJ" "j") 2 _ _
             (HbH _ _ (or_intror eq_refl)) Hraw) eq_refl _)
          [5.5; 15.5] _)) 6 (Hafter _ _) Hev);
          vm_compute; reflexivity.
      * vm_compute. reflexivity.
Defined.

End ForcingInstances.

(** ** The two derivatives at a concrete input

    The linear problem of [J = [[1, 2], [0, 3]]] with the data
    [[1, 1]], the weighting [[1, 1], [0, 2]] and [scale = 2], at the
    model [[1, 0]]: the residual is [[0, -1]]; the values are derived
    from what the theorems state of the vector handed to the Jacobian
    product. *)

Section DerivativeInstances.
#[local] Open Scope R_scope.



End DerivativeInstances.

(** * Further properties of the code *)

(** ** The misfit: weighting, caching, errors *)

Section MisfitMore.
Context {F : Type} `{Scalar F} {Fields : Type}.
Implicit Types (self : l2_DataMisfit F Fields) (m v : list F)
  (f : option Fields) (A : spmatrix F).

Ltac run_method :=
  unfold mbind, mret, ST_bind, ST_ret, get_self, lift; simpl.

(** X1. Whatever is assigned to [W], either it is stored, it is then
    [nD] by [nD] and it is what the getter returns from then on, or the
    assignment raises and the instance is as before: a matrix of another
    shape is never stored. *)
Theorem W_setter_invariant self (value : weighting) :
  let n := nD (survey self) in
  (∃ A, W_setter value self = (Ok (), set_W (Some A) self) ∧
        shape A = (n, n) ∧
        W (set_W (Some A) self) = (Ok A, set_W (Some A) self)) ∨
  (∃ e, W_setter value self = (Raise e, self)).
Proof.
  intros n. unfold W_setter. fold n.
  set (A := match value with Weights1d v => sdiag v | Weights2d A => A end).
  destruct (decide (shape A = (n, n))) as [Hs|Hs].
  - left. exists A. done.
  - right. destruct (py_format _ _ _); eauto.
Qed.

(** X2. Laziness cannot be observed: on an instance whose [W] has been
    read before, the three methods return what they return on the
    instance as it was, value and final state. *)
Theorem caching_is_transparent self m v f :
  let cached := (W self).2 in
  __call__ m f cached = __call__ m f self ∧
  deriv m f cached = deriv m f self ∧
  deriv2 m v f cached = deriv2 m v f self.
Proof.
  intros cached. subst cached. unfold __call__, deriv, deriv2, W, fields_or.
  run_method. destruct (_W self) as [A|] eqn:E; simpl; rewrite ?E; simpl;
    repeat split.
Qed.

Context `{!ScalarLaws F}.

(** X4. Assigning the vector [w] to [W] and assigning the diagonal
    matrix of [w] leave the same instance, on which the misfit of the
    residual [r] is [0.5 * sum_i (w_i * r_i)^2]. The vector and the
    residual have [nD] entries. *)
Theorem weights_vector_then_call self m f (w : list F) :
  let r := residual (survey self) m (fields_or self m f) in
  length w = nD (survey self) → length r = nD (survey self) →
  W_setter (Weights1d w) self = W_setter (Weights2d (sdiag w)) self ∧
  ∃ self', W_setter (Weights1d w) self = (Ok (), self') ∧
           __call__ m f self'
           = (Ok (fmul f0_5 (sum_sq (zip_with fmul w r))), self').
Proof.
  intros r Hw Hr. split; [reflexivity|].
  exists (set_W (Some (sdiag w)) self). split.
  - unfold W_setter. cbn [shape sdiag]. rewrite decide_True; [reflexivity|].
    by rewrite Hw.
  - assert (Hdot : dot (sdiag w) r = Ok (zip_with fmul w r)).
    { apply dot_sdiag_lawful. lia. }
    assert (HW : W (set_W (Some (sdiag w)) self)
                 = (Ok (sdiag w), set_W (Some (sdiag w)) self))
      by reflexivity.
    rewrite (call_run _ m f (sdiag w) _ (zip_with fmul w r) HW Hdot).
    by rewrite vdot_self.
Qed.

End MisfitMore.

(** ** The misfit over the reals: sign, zeros, default weights *)

Section MisfitReal.
#[local] Open Scope R_scope.
Implicit Types (self : l2_DataMisfit R ()) (m u v w r : list R)
  (f : option ()).

Lemma sum_sq_cons a v : sum_sq (a :: v) = a * a + sum_sq v.
Proof.
  unfold sum_sq. simpl. rewrite (foldl_plus_acc (λ a : R, a * a)). lra.
Qed.

Lemma sum_sq_zero v : sum_sq v = 0 ↔ Forall (λ a, a = 0) v.
Proof.
  induction v as [|a v IH]; [by split; [constructor|]|].
  rewrite sum_sq_cons, Forall_cons, <- IH.
  pose proof (sum_sq_nonneg v). split.
  - intros Hs. assert (a * a = 0) by nra. split; nra.
  - intros [-> ->]. lra.
Qed.

Lemma sum_sq_positive v : Exists (λ a, a ≠ 0) v → 0 < sum_sq v.
Proof.
  intros Hex. pose proof (sum_sq_nonneg v) as Hge.
  destruct (Req_dec (sum_sq v) 0) as [Hz|Hz]; [|lra].
  apply sum_sq_zero in Hz. apply Exists_exists in Hex as (a & Hin & Ha).
  rewrite Forall_forall in Hz. by destruct Ha, (Hz a Hin).
Qed.

(** What [__call__] returns when it returns. *)
Lemma call_value self m f (val : R) self' :
  __call__ m f self = (Ok val, self') →
  ∃ A Wr, W self = (Ok A, self') ∧
          dot A (residual (survey self) m (fields_or self m f)) = Ok Wr ∧
          val = 1 / 2 * sum_sq Wr.
Proof.
  destruct (W_total self) as (A & s1 & HW).
  destruct (dot A (residual (survey self) m (fields_or self m f)))
    as [Wr|e] eqn:Hdot.
  - rewrite (call_run self m f A s1 Wr HW Hdot). intros [= <- <-].
    exists A, Wr. by rewrite vdot_self.
  - unfold __call__, mbind, mret, ST_bind, ST_ret, get_self, lift. simpl.
    rewrite HW, Hdot. done.
Qed.

(** X5. Whenever [__call__] returns, its value is not negative. *)
Theorem misfit_nonneg self m f (val : R) self' :
  __call__ m f self = (Ok val, self') → 0 <= val.
Proof.
  intros Hcall. destruct (call_value _ _ _ _ _ Hcall) as (A & Wr & _ & _ & ->).
  pose proof (sum_sq_nonneg Wr). lra.
Qed.

Lemma weighted_zero w r :
  Forall (λ a, 0 < a) w → length r = length w →
  Forall (λ a, a = 0) (zip_with Rmult w r) ↔ Forall (λ a, a = 0) r.
Proof.
  intros Hw. revert r. induction Hw as [|a w Ha Hw IH]; intros [|b r] Hlen;
    simpl in *; try done.
  rewrite !Forall_cons, IH by lia. split.
  - intros [Hab ?]. split; [nra|done].
  - intros [-> ?]. split; [lra|done].
Qed.

(** X6. With a diagonal weighting of positive entries, the misfit is
    zero exactly when the residual is zero. *)
Theorem misfit_zero_iff_residual_zero self m f w self' :
  let r := residual (survey self) m (fields_or self m f) in
  W self = (Ok (sdiag w), self') →
  Forall (λ a, 0 < a) w → length r = length w →
  __call__ m f self = (Ok 0, self') ↔ Forall (λ a, a = 0) r.
Proof.
  intros r HW Hw Hlen.
  assert (Hdot : dot (sdiag w) r = Ok (zip_with Rmult w r))
    by exact (dot_sdiag_lawful w r Hlen).
  rewrite (call_run self m f (sdiag w) self' _ HW Hdot), vdot_self.
  rewrite <- (weighted_zero w r Hw Hlen), <- sum_sq_zero. split.
  - intros [= Hv]. simpl in Hv. lra.
  - intros ->. simpl. do 2 f_equal. lra.
Qed.

(** X7. Construction from a paired survey that gives neither [std] nor
    [eps] and whose data are not all zero: the floor [eps] is positive,
    and so is every default weight. *)
Theorem default_weights_positive (srv : Survey R ()) :
  ispaired srv = true → survey_std srv = None → survey_eps srv = None →
  Exists (λ a, a ≠ 0) (dobs srv) →
  ∃ self out, __init__ srv None None = Ok (self, out) ∧
              0 < eps self ∧
              Forall (λ a, 0 < a) (default_weights self).
Proof.
  intros Hp Hs He Hex. eexists _, _.
  split; [by apply init_defaults|]. simpl.
  assert (Heps : 0 < sqrt (vdot (dobs srv) (dobs srv)) * (1 / 100000)).
  { apply Rmult_lt_0_compat; [|lra]. apply sqrt_lt_R0.
    rewrite vdot_self. by apply sum_sq_positive. }
  split; [exact Heps|].
  unfold default_weights. simpl. apply Forall_forall. intros a Hin.
  apply list_elem_of_fmap in Hin as (d & -> & _).
  pose proof (Rabs_pos d). apply Rdiv_lt_0_compat; [lra|].
  unfold norm2 in *. simpl in *. nra.
Qed.

(** The bilinear form of the Gauss-Newton product on a linear problem:
    [u . deriv2(m, v) = (W J v) . (W J u)]. *)
Lemma deriv2_bilinear (J : spmatrix R) d w m u v :
  fmt J = CSR → shape J = (length w, length v) → length u = length v →
  ∃ g WJu WJv,
    (deriv2 m v None (linear_misfit J d w)).1 = Ok g ∧
    dot (sdiag w) (product (dot J u)) = Ok WJu ∧
    dot (sdiag w) (product (dot J v)) = Ok WJv ∧
    vdot u g = vdot WJv WJu.
Proof.
  intros Hfmt Hshape Hu.
  destruct (dot_defined J v) as [Jv HJv]; [by rewrite Hshape|].
  destruct (dot_defined J u) as [Ju HJu]; [by rewrite Hshape|].
  pose proof (length_dot _ _ _ HJv) as HlenJv. rewrite Hshape in HlenJv.
  pose proof (length_dot _ _ _ HJu) as HlenJu. rewrite Hshape in HlenJu.
  destruct (dot_defined (sdiag w) Jv) as [WJv HWJv]; [done|].
  destruct (dot_defined (sdiag w) Ju) as [WJu HWJu]; [done|].
  destruct (dot_transpose_defined _ _ _ WJv HWJv eq_refl) as [z Hz].
  pose proof (length_dot _ _ _ Hz) as Hlenz. simpl in Hlenz.
  destruct (dot_defined (transpose J) z) as [g Hg].
  { simpl. by rewrite Hshape. }
  exists g, WJu, WJv.
  assert (Hrun : deriv2 m v None (linear_misfit J d w)
                 = (Ok g, linear_misfit J d w)).
  { rewrite (deriv2_run (linear_misfit J d w) m v None (sdiag w)
               (linear_misfit J d w) WJv z); simpl.
    - by rewrite Hg.
    - done.
    - by rewrite HJv.
    - done. }
  split; [by rewrite Hrun|]. split; [by rewrite HJu|].
  split; [by rewrite HJv|].
  rewrite <- (dot_adjoint J z u Ju g Hfmt HJu Hg).
  rewrite vdot_comm.
  by rewrite <- (dot_adjoint (sdiag w) WJv Ju WJu z eq_refl HWJu Hz).
Qed.

(** X10. On a linear forward problem the Gauss-Newton product is
    symmetric: [u . deriv2(m, v) = v . deriv2(m, u)]. *)
Theorem deriv2_symmetric (J : spmatrix R) d w m u v :
  fmt J = CSR → shape J = (length w, length v) → length u = length v →
  ∃ gu gv,
    (deriv2 m u None (linear_misfit J d w)).1 = Ok gu ∧
    (deriv2 m v None (linear_misfit J d w)).1 = Ok gv ∧
    vdot u gv = vdot v gu.
Proof.
  intros Hfmt Hshape Hu.
  destruct (deriv2_bilinear J d w m u v Hfmt Hshape Hu)
    as (gv & WJu & WJv & Hgv & HWJu & HWJv & Huv).
  destruct (deriv2_bilinear J d w m v u Hfmt)
    as (gu & WJv' & WJu' & Hgu & HWJv' & HWJu' & Hvu);
    [by rewrite Hu|done|].
  exists gu, gv. split; [done|]. split; [done|].
  rewrite Huv, Hvu. rewrite HWJu in HWJu'. rewrite HWJv in HWJv'.
  injection HWJu' as <-. injection HWJv' as <-. apply vdot_comm.
Qed.

End MisfitReal.

(** ** The derivatives against the values on a linear problem *)

Section MisfitLinear.
#[local] Open Scope R_scope.

(** X8. On a linear forward problem with diagonal weights the misfit is
    quadratic and [deriv] is its gradient:
    [phi(m + h) = phi(m) + h . deriv(m) + |W J h|^2 / 2]; so the misfit
    lies above its tangent at [m]. *)
Theorem misfit_gradient_expansion (J : spmatrix R) (d w m h : list R) :
  fmt J = CSR → shape J = (length w, length m) →
  length d = length w → length h = length m →
  ∃ phi0 phi1 g WJh,
    (__call__ m None (linear_misfit J d w)).1 = Ok phi0 ∧
    (__call__ (vadd m h) None (linear_misfit J d w)).1 = Ok phi1 ∧
    (deriv m None (linear_misfit J d w)).1 = Ok g ∧
    dot (sdiag w) (product (dot J h)) = Ok WJh ∧
    phi1 = phi0 + vdot h g + 1 / 2 * sum_sq WJh ∧
    phi0 + vdot h g <= phi1.
Proof.
  intros Hfmt Hshape Hd Hh.
  destruct (deriv_is_gradient J d w m h Hfmt Hshape Hd Hh)
    as (phi0 & phi1 & g & WJh & H0 & H1 & Hg & HW & Heq).
  exists phi0, phi1, g, WJh. repeat (split; [assumption|]).
  pose proof (sum_sq_nonneg WJh). lra.
Qed.

(** X9. On a linear forward problem the Gauss-Newton product is
    positive semi-definite: [v . deriv2(m, v) = |W J v|^2 >= 0], and it
    is zero exactly when [W J v] is zero. *)
Theorem gauss_newton_positive_semidefinite (J : spmatrix R)
    (d w m v : list R) :
  fmt J = CSR → shape J = (length w, length v) →
  ∃ g WJv,
    (deriv2 m v None (linear_misfit J d w)).1 = Ok g ∧
    dot (sdiag w) (product (dot J v)) = Ok WJv ∧
    vdot v g = sum_sq WJv ∧ 0 <= vdot v g ∧
    (vdot v g = 0 ↔ Forall (λ a, a = 0) WJv).
Proof.
  intros Hfmt Hshape.
  destruct (deriv2_quadratic_form J d w m v Hfmt Hshape)
    as (g & WJv & Hg & HW & Hq & Hpos).
  exists g, WJv. repeat (split; [assumption|]).
  rewrite Hq. apply sum_sq_zero.
Qed.

End MisfitLinear.

(** ** The further properties of the misfit at concrete inputs *)

Lemma weights_vector_then_call_witness :
  length w_2 = 2 ∧ length residual_R = 2 ∧
  ∃ self', W_setter (Weights1d w_2) misfit_R = (Ok (), self') ∧
           __call__ [] None self'
           = (Ok (fmul f0_5 (sum_sq (zip_with fmul w_2 residual_R))), self').
Proof.
  split; [reflexivity|]. split; [reflexivity|].
  exact (proj2 (weights_vector_then_call misfit_R [] None w_2
                  eq_refl eq_refl)).
Defined.

Lemma misfit_nonneg_witness :
  __call__ [] None misfit_R_w2
  = (Ok (fmul f0_5 (sum_sq (zip_with fmul w_2 residual_R))), misfit_R_w2) ∧
  (0 <= fmul f0_5 (sum_sq (zip_with fmul w_2 residual_R)))%R.
Proof.
  assert (E : __call__ [] None misfit_R_w2
              = (Ok (fmul f0_5 (sum_sq (zip_with fmul w_2 residual_R))),
                 misfit_R_w2)).
  { rewrite <- vdot_self.
    apply (call_run misfit_R_w2 [] None (sdiag w_2) misfit_R_w2
             (zip_with fmul w_2 residual_R) eq_refl).
    exact (dot_sdiag_lawful w_2 residual_R eq_refl). }
  split; [exact E|].
  exact (misfit_nonneg misfit_R_w2 [] None _ misfit_R_w2 E).
Defined.

Lemma misfit_zero_iff_residual_zero_witness :
  Forall (λ a, (0 < a)%R) w_2 ∧
  (__call__ [] None misfit_R_w2 = (Ok 0%R, misfit_R_w2)
   ↔ Forall (λ a, a = 0%R) residual_R).
Proof.
  assert (Hw : Forall (λ a, (0 < a)%R) w_2)
    by (repeat constructor; lra).
  split; [exact Hw|].
  exact (misfit_zero_iff_residual_zero misfit_R_w2 [] None w_2 misfit_R_w2
           eq_refl Hw eq_refl).
Defined.

Lemma default_weights_positive_witness :
  ∃ self out,
    __init__ (scenario_survey dobs_R residual_R) None None = Ok (self, out) ∧
    (0 < eps self)%R ∧ Forall (λ a, (0 < a)%R) (default_weights self).
Proof.
  apply (default_weights_positive (scenario_survey dobs_R residual_R)
           eq_refl eq_refl eq_refl).
  apply Exists_cons_hd. lra.
Defined.

Lemma misfit_gradient_expansion_witness :
  ∃ phi0 phi1 g WJh,
    (__call__ m_2 None (linear_misfit J_2x2 d_2 w_2)).1 = Ok phi0 ∧
    (__call__ (vadd m_2 h_2) None (linear_misfit J_2x2 d_2 w_2)).1
    = Ok phi1 ∧
    (deriv m_2 None (linear_misfit J_2x2 d_2 w_2)).1 = Ok g ∧
    dot (sdiag w_2) (product (dot J_2x2 h_2)) = Ok WJh ∧
    phi1 = (phi0 + vdot h_2 g + 1 / 2 * sum_sq WJh)%R ∧
    (phi0 + vdot h_2 g <= phi1)%R.
Proof.
  exact (misfit_gradient_expansion J_2x2 d_2 w_2 m_2 h_2
           eq_refl eq_refl eq_refl eq_refl).
Defined.

Lemma gauss_newton_positive_semidefinite_witness :
  ∃ g WJv,
    (deriv2 m_2 h_2 None (linear_misfit J_2x2 d_2 w_2)).1 = Ok g ∧
    dot (sdiag w_2) (product (dot J_2x2 h_2)) = Ok WJv ∧
    vdot h_2 g = sum_sq WJv ∧ (0 <= vdot h_2 g)%R ∧
    (vdot h_2 g = 0%R ↔ Forall (λ a, a = 0%R) WJv).
Proof.
  exact (gauss_newton_positive_semidefinite J_2x2 d_2 w_2 m_2 h_2
           eq_refl eq_refl).
Defined.

Lemma deriv2_symmetric_witness :
  ∃ gu gv,
    (deriv2 m_2 m_2 None (linear_misfit J_2x2 d_2 w_2)).1 = Ok gu ∧
    (deriv2 m_2 h_2 None (linear_misfit J_2x2 d_2 w_2)).1 = Ok gv ∧
    vdot m_2 gv = vdot h_2 gu.
Proof.
  exact (deriv2_symmetric J_2x2 d_2 w_2 m_2 m_2 h_2
           eq_refl eq_refl eq_refl).
Defined.

(** ** Sources: dispatch of the fields and forcing terms *)

Section MethodFacts.
Context {F : Type} `{Scalar F} {Loc Grid : Type}.
Variables MagneticDipoleVectorPotential MagneticLoopVectorPotential :
  Loc → Grid → string → F → F → list F.
Variable inherited : string → option (pyobj F).
Variable column : pyobj F → nat → result (pyobj F).
Variable getSourceTermLineCurrentPolygon :
  Mesh F Grid → pyobj F → pyobj F → pyobj F → result (pyobj F).
Variable call_attribute :
  pyobj F → TDEMProblem F Grid → option F
  → ST (source F Loc) (pyobj F).
Implicit Types (self : source F Loc) (prob : TDEMProblem F Grid)
  (time : F) (flag : pyobj F) (m : method).

#[local] Abbreviation call :=
  (src_call MagneticDipoleVectorPotential MagneticLoopVectorPotential
     inherited column getSourceTermLineCurrentPolygon call_attribute).
#[local] Abbreviation eval :=
  (BaseTDEMSrc_eval MagneticDipoleVectorPotential
     MagneticLoopVectorPotential inherited column
     getSourceTermLineCurrentPolygon call_attribute).
#[local] Abbreviation evalDeriv :=
  (BaseTDEMSrc_evalDeriv MagneticDipoleVectorPotential
     MagneticLoopVectorPotential inherited column
     getSourceTermLineCurrentPolygon call_attribute).
#[local] Abbreviation body :=
  (method_body MagneticDipoleVectorPotential MagneticLoopVectorPotential
     inherited column getSourceTermLineCurrentPolygon call_attribute).

(** Every class of the module has the twelve methods, as functions. *)
Lemma type_lookup_method (c : srcclass) m :
  type_lookup inherited c (method_name m) = Some MethodAttr.
Proof. destruct c, m; vm_compute; reflexivity. Qed.

(** A call whose name the instance does not bind runs the body of the
    owning class. *)
Lemma call_unshadowed self m prob time :
  src_dict self !! method_name m = None →
  call m prob time self
  = match method_owner (src_class self) (method_name m) with
    | Some k => body k m prob time self
    | None => (Raise (AttributeError (method_name m)), self)
    end.
Proof.
  intros Hd. unfold src_call. rewrite Hd, type_lookup_method. reflexivity.
Qed.

(** The initial electric field and current density and the six
    derivatives are [Zero] in every class. *)
Lemma call_Zero self m prob time :
  m ∈ [m_eInitial; m_jInitial; m_bInitialDeriv; m_eInitialDeriv;
       m_hInitialDeriv; m_jInitialDeriv; m_s_mDeriv; m_s_eDeriv] →
  src_dict self !! method_name m = None →
  call m prob time self = (Ok PyZero, self).
Proof.
  intros Hm Hd. rewrite (call_unshadowed _ _ _ _ Hd).
  destruct (src_class self);
    repeat (apply elem_of_cons in Hm as [->|Hm]; [reflexivity|]);
    by apply elem_of_nil in Hm.
Qed.

(** X11. The methods that are [Zero] whatever the state of the source
    and its waveform: the initial electric field and current density
    and all six derivatives in every class (the source terms do not
    depend on the model), every method on a [BaseTDEMSrc], and every
    method but [s_e] on a [LineCurrent]. The source is left as it was.
    The instance does not bind the name of the method. *)
Theorem methods_that_are_Zero self m prob time :
  src_dict self !! method_name m = None →
  m ∈ [m_eInitial; m_jInitial; m_bInitialDeriv; m_eInitialDeriv;
       m_hInitialDeriv; m_jInitialDeriv; m_s_mDeriv; m_s_eDeriv]
  ∨ src_class self = BaseTDEMSrc
  ∨ (src_class self = LineCurrent ∧ m ≠ m_s_e) →
  call m prob time self = (Ok PyZero, self).
Proof.
  intros Hd [Hm|[Hc|[Hc Hm]]].
  - by apply call_Zero.
  - rewrite (call_unshadowed _ _ _ _ Hd), Hc. by destruct m.
  - rewrite (call_unshadowed _ _ _ _ Hd), Hc. by destruct m.
Qed.

(** X12. [evalDeriv] gives [Zero] for both forcing terms, as values
    when a direction [v] is given and as functions that return [Zero]
    on every direction when it is not; [adjoint] makes no difference. *)
Theorem evalDeriv_is_Zero self prob time (v adjoint : pyobj F) :
  src_dict self !! "s_mDeriv" = None →
  src_dict self !! "s_eDeriv" = None →
  (v ≠ PyNone →
   evalDeriv prob time v adjoint self = (Ok (DerivValues PyZero PyZero), self))
  ∧
  (v = PyNone →
   ∃ f g, evalDeriv prob time v adjoint self
          = (Ok (DerivFunctions f g), self) ∧
          ∀ u, f u self = (Ok PyZero, self) ∧ g u self = (Ok PyZero, self)).
Proof.
  intros Hm He.
  assert (Cm : call m_s_mDeriv prob time self = (Ok PyZero, self)).
  { apply call_Zero; [|exact Hm]. set_solver. }
  assert (Ce : call m_s_eDeriv prob time self = (Ok PyZero, self)).
  { apply call_Zero; [|exact He]. set_solver. }
  split.
  - intros Hv. unfold BaseTDEMSrc_evalDeriv.
    destruct v; try done;
      cbn [is_None negb]; unfold mbind, ST_bind; rewrite Cm, Ce; reflexivity.
  - intros ->. eexists _, _. split; [reflexivity|].
    intros u. cbv beta. rewrite Cm, Ce. split; reflexivity.
Qed.

#[local] Abbreviation bSrc :=
  (_bSrc MagneticDipoleVectorPotential MagneticLoopVectorPotential).
#[local] Abbreviation dipole_s_e :=
  (MagDipole_s_e MagneticDipoleVectorPotential
     MagneticLoopVectorPotential inherited).

(** [self.s_m(prob, time)] by class. *)
Lemma call_s_m self prob time :
  src_dict self !! "s_m" = None →
  call m_s_m prob time self
  = (match src_class self with
     | MagDipole | CircularLoop =>
         _ ← hasInitialFields inherited self; Ok PyZero
     | _ => Ok PyZero
     end, self).
Proof.
  intros Hd. rewrite (call_unshadowed self m_s_m prob time Hd).
  assert (Hs : (MagDipole_s_m inherited self prob time, self)
               = (_ ← hasInitialFields inherited self; Ok PyZero, self)).
  { unfold MagDipole_s_m.
    destruct (hasInitialFields inherited self) as [[| [] | | | | | | | |]|];
      reflexivity. }
  destruct (src_class self); try reflexivity;
    (etransitivity; [|exact Hs]); reflexivity.
Qed.

(** X13. The magnetic forcing term is [Zero] whenever [s_m] returns,
    in every class, and the source is left as it was; on a dipole or a
    loop [s_m] reads [waveform.hasInitialFields] first and raises when
    that does. So [eval] returns [(Zero, s_e(prob, time))], and when
    [s_m] raises, [eval] raises the same without calling [s_e]. *)
Theorem eval_magnetic_term_is_Zero self prob time :
  src_dict self !! "s_m" = None →
  (∀ x self', call m_s_m prob time self = (Ok x, self') →
              x = PyZero ∧ self' = self) ∧
  (src_class self = MagDipole ∨ src_class self = CircularLoop →
   call m_s_m prob time self
   = (_ ← hasInitialFields inherited self; Ok PyZero, self)) ∧
  (∀ sm se self', eval prob time self = (Ok (sm, se), self') →
                  sm = PyZero ∧ call m_s_e prob time self = (Ok se, self')) ∧
  (∀ e self', call m_s_m prob time self = (Raise e, self') →
              eval prob time self = (Raise e, self')).
Proof.
  intros Hd. pose proof (call_s_m self prob time Hd) as Hc.
  assert (Hval : ∀ x self', call m_s_m prob time self = (Ok x, self') →
                            x = PyZero ∧ self' = self).
  { intros x self' Hx. rewrite Hc in Hx.
    destruct (src_class self);
      try destruct (hasInitialFields inherited self);
      simpl in Hx; inversion Hx; split; reflexivity. }
  split; [exact Hval|]. split; [|split].
  - intros [Hk|Hk]; rewrite Hc, Hk; reflexivity.
  - intros sm se self' He. unfold BaseTDEMSrc_eval, mbind, ST_bind in He.
    destruct (call m_s_m prob time self) as [[x|e] s1] eqn:E1;
      [|discriminate He].
    destruct (Hval x s1 eq_refl) as [-> ->].
    destruct (call m_s_e prob time self) as [[y|e] s2] eqn:E2;
      [|discriminate He].
    inversion He. split; reflexivity.
  - intros e self' He. unfold BaseTDEMSrc_eval, mbind, ST_bind.
    rewrite He. reflexivity.
Qed.

(** [self.bInitial(prob)] and [self.hInitial(prob)] on a dipole or a
    loop. *)
Lemma call_initial_dipole self prob time :
  src_class self = MagDipole ∨ src_class self = CircularLoop →
  (src_dict self !! "bInitial" = None →
   call m_bInitial prob time self
   = (MagDipole_bInitial MagneticDipoleVectorPotential
        MagneticLoopVectorPotential inherited self prob, self)) ∧
  (src_dict self !! "hInitial" = None →
   call m_hInitial prob time self
   = (MagDipole_hInitial MagneticDipoleVectorPotential
        MagneticLoopVectorPotential inherited self prob, self)) ∧
  (src_dict self !! "s_e" = None →
   call m_s_e prob time self = (dipole_s_e self prob time, self)).
Proof.
  intros Hk. split; [|split]; intros Hd.
  - rewrite (call_unshadowed self m_bInitial prob time Hd).
    destruct Hk as [Hk|Hk]; rewrite Hk; reflexivity.
  - rewrite (call_unshadowed self m_hInitial prob time Hd).
    destruct Hk as [Hk|Hk]; rewrite Hk; reflexivity.
  - rewrite (call_unshadowed self m_s_e prob time Hd).
    destruct Hk as [Hk|Hk]; rewrite Hk; reflexivity.
Qed.

(** X14. The initial magnetic fields of a dipole or a loop. When
    [waveform.hasInitialFields] is [False], [bInitial] and [hInitial]
    are [Zero] and [_bSrc] is not evaluated. Otherwise [bInitial] is
    the [b] that [_bSrc] returns and [hInitial] is [(1/mu) b], each
    entry of [b] multiplied by [1/mu]; with
    [mu = 0], [hInitial] raises [ZeroDivisionError], before [_bSrc] is
    evaluated. *)
Theorem initial_magnetic_fields self prob time flag :
  src_class self = MagDipole ∨ src_class self = CircularLoop →
  src_dict self !! "bInitial" = None →
  src_dict self !! "hInitial" = None →
  hasInitialFields inherited self = Ok flag →
  (flag = PyBool false →
   call m_bInitial prob time self = (Ok PyZero, self) ∧
   call m_hInitial prob time self = (Ok PyZero, self)) ∧
  (flag ≠ PyBool false →
   (∀ b, bSrc self prob = Ok b →
         call m_bInitial prob time self = (Ok (PyVec b), self) ∧
         (feqb (mu self) f0 = false →
          call m_hInitial prob time self
          = (Ok (PyVec (map (fmul (fdiv f1 (mu self))) b)), self))) ∧
   (feqb (mu self) f0 = true →
    call m_hInitial prob time self = (Raise ZeroDivisionError, self))).
Proof.
  intros Hk Hb Hh Hflag.
  destruct (call_initial_dipole self prob time Hk) as (Cb & Ch & _).
  rewrite (Cb Hb), (Ch Hh).
  unfold MagDipole_bInitial, MagDipole_hInitial. rewrite Hflag. simpl.
  split.
  - intros ->. split; reflexivity.
  - intros Hne.
    assert (Hcase : ∀ (A : Type) (x y : A),
              match flag with PyBool false => x | _ => y end = y).
    { intros A x y. destruct flag as [| [] | | | | | | | |]; try reflexivity.
      by destruct Hne. }
    rewrite !Hcase. split.
    + intros b Hbsrc. rewrite Hbsrc. simpl. split; [reflexivity|].
      intros Hmu. unfold py_inverse. rewrite Hmu. reflexivity.
    + intros Hmu. unfold py_inverse. rewrite Hmu. reflexivity.
Qed.

(** X15. Under a formulation that is neither ['EB'] nor ['HJ'], [s_e]
    of a dipole or a loop never returns: [_bSrc], which it evaluates
    first, raises, an [UnboundLocalError] or, on a cylindrical mesh
    that is not symmetric, the [NotImplementedError]. The end of the
    function without [return] is not reached. *)
Theorem s_e_needs_a_known_formulation self prob time :
  _formulation prob ≠ "EB" → _formulation prob ≠ "HJ" →
  ∃ e, MagDipole_s_e MagneticDipoleVectorPotential
         MagneticLoopVectorPotential inherited self prob time = Raise e ∧
       bSrc self prob = Raise e ∧
       ((∃ name, e = UnboundLocalError name) ∨
        e = NotImplementedError
              (Some "Non-symmetric cyl mesh not implemented yet!")).
Proof.
  intros H1 H2.
  destruct (bSrc_other_formulation MagneticDipoleVectorPotential
              MagneticLoopVectorPotential self prob H1 H2)
    as [[name Hb]|Hb].
  - exists (UnboundLocalError name). unfold MagDipole_s_e. rewrite Hb.
    split; [reflexivity|]. split; [reflexivity|]. left. by exists name.
  - eexists. unfold MagDipole_s_e. rewrite Hb.
    split; [reflexivity|]. split; [reflexivity|]. by right.
Qed.

(** X16. With a waveform that has initial fields, [s_e] of a dipole or
    a loop reads [prob.timeSteps[1]]: on a problem with fewer than two
    time steps it raises [IndexError], under both formulations and for
    every field type. *)
Theorem s_e_needs_two_time_steps self prob time b :
  bSrc self prob = Ok b →
  hasInitialFields inherited self = Ok (PyBool true) →
  (length (timeSteps prob) < 2)%nat →
  _formulation prob = "EB"
  ∨ (_formulation prob = "HJ" ∧ feqb (mu self) f0 = false) →
  dipole_s_e self prob time = Raise IndexError.
Proof.
  intros Hb Hflag Hlen Hf.
  assert (Hsteps : timeSteps prob !! 1%nat = None)
    by (apply lookup_ge_None; lia).
  assert (Hinit : initial_step inherited self prob time = Raise IndexError).
  { unfold initial_step. rewrite Hflag. simpl. rewrite Hsteps. reflexivity. }
  unfold MagDipole_s_e. rewrite Hb. simpl.
  destruct Hf as [Hf|[Hf Hmu]]; rewrite Hf; simpl.
  - rewrite Hinit. reflexivity.
  - unfold py_inverse. rewrite Hmu. simpl. rewrite Hinit. reflexivity.
Qed.

(** X17. The forcing of a dipole or a loop with a step-off waveform
    under ['EB']: with [s = C^T (MfMui b)], at times before
    [timeSteps[1]] it is [Zero] for the field type ['b'] and [s] for
    ['e']; from [timeSteps[1]] on it is [s * 0.], the vector of the
    entries of [s] times [0.] and not [Zero], for both. *)
Theorem step_off_forcing self prob time d t1 b Mb CtMb :
  src_getattr inherited self "waveform"
  = Ok (PyWaveform StepOffWaveform d) →
  d !! "hasInitialFields" = Some (PyBool true) → d !! "eval" = None →
  bSrc self prob = Ok b →
  dot (MfMui prob) b = Ok Mb →
  dot (transpose (edgeCurl (mesh prob))) Mb = Ok CtMb →
  timeSteps prob !! 1%nat = Some t1 →
  _formulation prob = "EB" →
  _fieldType prob = "b" ∨ _fieldType prob = "e" →
  dipole_s_e self prob time
  = Ok (if fltb time t1 then
          if String.eqb (_fieldType prob) "b" then PyZero else PyVec CtMb
        else PyVec (map (λ x, fmul x f0) CtMb)).
Proof.
  intros Hw Hflag Heval Hb HMb HCt Hsteps Hf Hfield.
  assert (Hhas : hasInitialFields inherited self = Ok (PyBool true)).
  { unfold hasInitialFields. rewrite Hw. simpl. rewrite Hflag. reflexivity. }
  assert (Hinit : initial_step inherited self prob time
                  = Ok (fltb time t1)).
  { exact (initial_step_true inherited self prob time _ t1 Hhas eq_refl
             Hsteps). }
  assert (Hev : waveform_eval inherited self time = Ok (PyFloat f0)).
  { unfold waveform_eval. rewrite Hw. simpl. rewrite Heval. reflexivity. }
  unfold MagDipole_s_e. rewrite Hb. simpl. rewrite Hf. simpl.
  rewrite Hinit. simpl. rewrite HMb. simpl. rewrite HCt. simpl.
  destruct (fltb time t1).
  - destruct Hfield as [Hx|Hx]; rewrite Hx; reflexivity.
  - rewrite Hev. reflexivity.
Qed.

End MethodFacts.

(** ** Sources: the forcing of a current path *)

Section LineCurrentFacts.
Context {F : Type} `{Scalar F} {Loc Grid : Type}.
Variable inherited : string → option (pyobj F).
Variable column : pyobj F → nat → result (pyobj F).
Variable getSourceTermLineCurrentPolygon :
  Mesh F Grid → pyobj F → pyobj F → pyobj F → result (pyobj F).
Variable call_attribute :
  pyobj F → TDEMProblem F Grid → option F
  → ST (source F Loc) (pyobj F).
Implicit Types (self : source F Loc) (prob : TDEMProblem F Grid)
  (time : F) (M : pyobj F).

#[local] Abbreviation Mejs :=
  (LineCurrent_Mejs inherited column getSourceTermLineCurrentPolygon).
#[local] Abbreviation line_s_e :=
  (LineCurrent_s_e inherited column getSourceTermLineCurrentPolygon
     call_attribute).

(** No class binds [_Mejs]: the assignment goes to the instance
    dictionary. *)
Lemma setattr_Mejs self M :
  src_setattr inherited "_Mejs" M self
  = (Ok (), set_dict (<["_Mejs" := M]> (src_dict self)) self).
Proof.
  unfold src_setattr.
  assert (Hl : type_lookup inherited (src_class self) "_Mejs"
               = DataAttr <$> inherited "_Mejs")
    by (destruct (src_class self); vm_compute; reflexivity).
  rewrite Hl. destruct (inherited "_Mejs"); reflexivity.
Qed.

Lemma getattr_Mejs_stored self M :
  src_getattr inherited
    (set_dict (<["_Mejs" := M]> (src_dict self)) self) "_Mejs" = Ok M.
Proof.
  unfold src_getattr. cbn [src_class set_dict].
  assert (Hl : type_lookup inherited (src_class self) "_Mejs"
               = DataAttr <$> inherited "_Mejs")
    by (destruct (src_class self); vm_compute; reflexivity).
  rewrite Hl. unfold getattr_plain. cbn [src_dict set_dict].
  rewrite lookup_insert_eq.
  destruct (inherited "_Mejs"); reflexivity.
Qed.

(** A call of [Mejs] either leaves the source as it was and returns
    the attribute [_Mejs] it has, or raises and leaves the source as it
    was, or stores its result under [_Mejs]. *)
Lemma Mejs_cases self prob r self' :
  Mejs prob self = (r, self') →
  (self' = self ∧
   (r = src_getattr inherited self "_Mejs" ∧
    is_None (getattr_default inherited self "_Mejs" PyNone) = false
    ∨ ∃ e, r = Raise e)) ∨
  (∃ M, self' = set_dict (<["_Mejs" := M]> (src_dict self)) self ∧
        r = Ok M).
Proof.
  unfold LineCurrent_Mejs, mbind, ST_bind, get_self, lift.
  destruct (is_None (getattr_default inherited self "_Mejs" PyNone)) eqn:E.
  - destruct (result_bind _ _ (λ l, subscript_column column l 0) _)
      as [px|e]; [|intros [= <- <-]; left; split; [done|right; by eexists]].
    destruct (result_bind _ _ (λ l, subscript_column column l 1) _)
      as [py|e]; [|intros [= <- <-]; left; split; [done|right; by eexists]].
    destruct (result_bind _ _ (λ l, subscript_column column l 2) _)
      as [pz|e]; [|intros [= <- <-]; left; split; [done|right; by eexists]].
    destruct (getSourceTermLineCurrentPolygon (mesh prob) px py pz)
      as [M|e]; [|intros [= <- <-]; left; split; [done|right; by eexists]].
    rewrite setattr_Mejs, getattr_Mejs_stored.
    intros [= <- <-]. right. by exists M.
  - intros [= <- <-]. left. split; [done|]. left. done.
Qed.

(** X18. [Mejs] is computed once: after a call that returned a value
    other than [None], every later call returns that value and leaves
    the source as it is, whatever problem it is given. The cache is
    not tied to the mesh it was computed on. *)
Theorem Mejs_is_computed_once self prob M self' :
  Mejs prob self = (Ok M, self') → M ≠ PyNone →
  src_getattr inherited self' "_Mejs" = Ok M ∧
  ∀ prob', Mejs prob' self' = (Ok M, self').
Proof.
  intros Hrun HM.
  assert (G : src_getattr inherited self' "_Mejs" = Ok M).
  { destruct (Mejs_cases _ _ _ _ Hrun)
      as [[-> [[Hr _]|[e He]]]|(M' & -> & HM')].
    - symmetry. exact Hr.
    - discriminate He.
    - injection HM' as ->. apply getattr_Mejs_stored. }
  split; [exact G|]. intros prob'.
  unfold LineCurrent_Mejs, mbind, ST_bind, get_self, lift, getattr_default.
  rewrite G. destruct M; try reflexivity. by destruct HM.
Qed.

(** [Mejs] does not change the class of the source, nor any attribute
    but [_Mejs]. *)
Lemma Mejs_keeps self prob r self' :
  Mejs prob self = (r, self') →
  src_class self' = src_class self ∧
  ∀ name, name ≠ "_Mejs" → src_dict self' !! name = src_dict self !! name.
Proof.
  intros Hrun.
  destruct (Mejs_cases _ _ _ _ Hrun) as [[-> _]|(M & -> & _)].
  - split; [reflexivity|]. intros; reflexivity.
  - split; [reflexivity|]. intros name Hname. cbn [src_dict set_dict].
    apply lookup_insert_ne. congruence.
Qed.

(** X19. The forcing of a current path whose [Mejs] is the vector [v]:
    [v * a], each entry of [v] times [a], when the waveform evaluates
    to the float [a]; and an
    [AttributeError] when the instance has no waveform of its own, the
    class attribute being [None], with [Mejs] computed and stored all
    the same. *)
Theorem LineCurrent_forcing self prob time v self' :
  src_class self = LineCurrent → src_dict self !! "Mejs" = None →
  Mejs prob self = (Ok (PyVec v), self') →
  (∀ a, waveform_eval inherited self' time = Ok (PyFloat a) →
        line_s_e prob time self
        = (Ok (PyVec (map (λ x, fmul x a) v)), self')) ∧
  (src_dict self !! "waveform" = None →
   line_s_e prob time self = (Raise (AttributeError "eval"), self')).
Proof.
  intros Hk Hd Hrun.
  assert (Hcall : src_Mejs inherited column getSourceTermLineCurrentPolygon
                    call_attribute prob self = (Ok (PyVec v), self')).
  { unfold src_Mejs. rewrite Hd, Hk.
    assert (Hl : type_lookup inherited LineCurrent "Mejs" = Some MethodAttr)
      by (vm_compute; reflexivity).
    rewrite Hl. exact Hrun. }
  destruct (Mejs_keeps _ _ _ _ Hrun) as [Hk' Hsame].
  split.
  - intros a Ha. unfold LineCurrent_s_e, mbind, ST_bind, get_self, lift.
    rewrite Hcall, Ha. reflexivity.
  - intros Hw. unfold LineCurrent_s_e, mbind, ST_bind, get_self, lift.
    rewrite Hcall.
    assert (Hev : waveform_eval inherited self' time
                  = Raise (AttributeError "eval")).
    { unfold waveform_eval, src_getattr. rewrite Hk', Hk.
      rewrite waveform_is_plain_in_LineCurrent.
      unfold getattr_plain. rewrite Hsame by done. rewrite Hw, Hk', Hk.
      rewrite waveform_is_plain_in_LineCurrent. reflexivity. }
    rewrite Hev. reflexivity.
Qed.

End LineCurrentFacts.

(** ** Sources: the constructors *)

Section ConstructorFacts.
Context {F : Type} `{Scalar F} {Loc : Type}.
Variable inherited : string → option (pyobj F).
Variable BaseEMSrc__init__ :
  pyobj F → kwargs F → ST (source F Loc) ().
Implicit Types (self : source F Loc) (kw : kwargs F) (rxList w : pyobj F).

#[local] Abbreviation init := (source__init__ inherited BaseEMSrc__init__).

(** Keywords bind one after the other. *)
Lemma bind_keywords_app (sig : signature F) kw1 kw2 bound extra :
  bind_keywords sig (kw1 ++ kw2) bound extra
  = '(bound', extra') ← bind_keywords sig kw1 bound extra;
    bind_keywords sig kw2 bound' extra'.
Proof.
  revert bound extra. induction kw1 as [|[k v] kw1 IH]; intros bound extra.
  - reflexivity.
  - cbn [app bind_keywords].
    destruct (bool_decide _).
    + destruct (bound !! k); [reflexivity|apply IH].
    + destruct (sig_varkw sig); [apply IH|reflexivity].
Qed.

(** Keywords that name no parameter go to [**kwargs], in order. *)
Lemma bind_keywords_varkw (sig : signature F) kw bound extra :
  sig_varkw sig = true →
  (∀ k, k ∈ kw.*1 → k ∉ (sig_params sig).*1) →
  bind_keywords sig kw bound extra = Ok (bound, extra ++ kw).
Proof.
  intros Hv. revert extra. induction kw as [|[k v] kw IH]; intros extra Hk.
  - by rewrite app_nil_r.
  - cbn [bind_keywords]. rewrite bool_decide_eq_false_2.
    + rewrite Hv, IH.
      * by rewrite <- app_assoc.
      * intros k' Hk'. apply Hk. cbn. apply elem_of_cons. by right.
    + apply Hk. cbn. apply elem_of_cons. by left.
Qed.

Lemma bind_rxList_kwargs rxList kw :
  (∀ k, k ∈ kw.*1 → k ∉ ["self"; "rxList"]) →
  ∃ bound, bind_args sig_rxList_kwargs [PyOpaque "self"; rxList] kw
           = Ok (bound, kw) ∧ bound !!! "rxList" = rxList.
Proof.
  intros Hk. unfold bind_args. cbn [bind_positional sig_params sig_rxList_kwargs].
  rewrite bind_keywords_varkw; [|reflexivity|exact Hk].
  eexists. split; [vm_compute; reflexivity|]. vm_compute. reflexivity.
Qed.

Lemma bind_BaseTDEMSrc_default rxList kw :
  (∀ k, k ∈ kw.*1 → k ∉ ["self"; "rxList"; "waveform"]) →
  ∃ bound, bind_args sig_BaseTDEMSrc [PyOpaque "self"; rxList] kw
           = Ok (bound, kw) ∧
           bound !!! "rxList" = rxList ∧
           bound !!! "waveform" = default_waveform.
Proof.
  intros Hk. unfold bind_args.
  cbn [bind_positional sig_params sig_BaseTDEMSrc].
  rewrite bind_keywords_varkw; [|reflexivity|exact Hk].
  eexists. split; [vm_compute; reflexivity|].
  split; vm_compute; reflexivity.
Qed.

Lemma bind_BaseTDEMSrc_waveform rxList kw1 kw2 w :
  (∀ k, k ∈ (kw1 ++ kw2).*1 → k ∉ ["self"; "rxList"; "waveform"]) →
  ∃ bound, bind_args sig_BaseTDEMSrc [PyOpaque "self"; rxList]
             (kw1 ++ ("waveform", w) :: kw2)
           = Ok (bound, kw1 ++ kw2) ∧
           bound !!! "rxList" = rxList ∧
           bound !!! "waveform" = w.
Proof.
  intros Hk. unfold bind_args.
  cbn [bind_positional sig_params sig_BaseTDEMSrc].
  rewrite bind_keywords_app.
  rewrite bind_keywords_varkw; [|reflexivity|].
  2:{ intros k Hin. apply Hk. rewrite fmap_app. apply elem_of_app. by left. }
  cbn [mbind result_bind bind_keywords app].
  rewrite bool_decide_eq_true_2
    by (apply (bool_decide_unpack _); vm_compute; exact I).
  rewrite lookup_insert_ne by done. rewrite lookup_insert_ne by done.
  rewrite lookup_empty.
  rewrite bind_keywords_varkw; [|reflexivity|].
  2:{ intros k Hin. apply Hk. rewrite fmap_app. apply elem_of_app. by right. }
  eexists. split; [vm_compute; reflexivity|].
  split; vm_compute; reflexivity.
Qed.

Lemma names_weaken (k : string) :
  k ∉ ["self"; "rxList"; "waveform"] → k ∉ ["self"; "rxList"].
Proof. rewrite !not_elem_of_cons. tauto. Qed.

(** [BaseTDEMSrc.__init__] without and with the keyword [waveform]. *)
Lemma BaseTDEMSrc_init_default self rxList kw :
  (∀ k, k ∈ kw.*1 → k ∉ ["self"; "rxList"; "waveform"]) →
  BaseTDEMSrc__init__ inherited BaseEMSrc__init__ [rxList] kw self
  = (src_setattr inherited "waveform" default_waveform
     ≫= λ _, BaseEMSrc__init__ rxList kw) self.
Proof.
  intros Hk.
  destruct (bind_BaseTDEMSrc_default rxList _ Hk) as (b & Hb & Hr & Hw).
  unfold BaseTDEMSrc__init__. unfold mbind at 1. unfold ST_bind at 1.
  unfold lift at 1. rewrite Hb. cbn iota beta. rewrite Hr, Hw.
  reflexivity.
Qed.

Lemma BaseTDEMSrc_init_waveform self rxList kw1 kw2 w :
  (∀ k, k ∈ (kw1 ++ kw2).*1 → k ∉ ["self"; "rxList"; "waveform"]) →
  BaseTDEMSrc__init__ inherited BaseEMSrc__init__ [rxList]
    (kw1 ++ ("waveform", w) :: kw2) self
  = (src_setattr inherited "waveform" w
     ≫= λ _, BaseEMSrc__init__ rxList (kw1 ++ kw2)) self.
Proof.
  intros Hk.
  destruct (bind_BaseTDEMSrc_waveform rxList kw1 kw2 w Hk)
    as (b & Hb & Hr & Hw).
  unfold BaseTDEMSrc__init__. unfold mbind at 1. unfold ST_bind at 1.
  unfold lift at 1. rewrite Hb. cbn iota beta. rewrite Hr, Hw.
  reflexivity.
Qed.

(** [MagDipole.__init__] and [CircularLoop.__init__] hand everything
    to [BaseTDEMSrc.__init__]. *)
Lemma MagDipole_init_delegates self rxList kw :
  (∀ k, k ∈ kw.*1 → k ∉ ["self"; "rxList"]) →
  MagDipole__init__ inherited BaseEMSrc__init__ [rxList] kw self
  = BaseTDEMSrc__init__ inherited BaseEMSrc__init__ [rxList] kw self.
Proof.
  intros Hk. destruct (bind_rxList_kwargs rxList _ Hk) as (b & Hb & Hr).
  unfold MagDipole__init__. unfold mbind at 1. unfold ST_bind at 1.
  unfold lift at 1. rewrite Hb. cbn iota beta. rewrite Hr. reflexivity.
Qed.

Lemma LineCurrent_init_keywords self rxList kw :
  (∀ k, k ∈ kw.*1 → k ∉ ["self"; "rxList"]) →
  LineCurrent__init__ inherited BaseEMSrc__init__ [rxList] kw self
  = (src_setattr inherited "integrate" (PyBool false)
     ≫= λ _, BaseEMSrc__init__ rxList kw) self.
Proof.
  intros Hk. destruct (bind_rxList_kwargs rxList _ Hk) as (b & Hb & Hr).
  unfold LineCurrent__init__. unfold mbind at 1. unfold ST_bind at 1.
  unfold lift at 1. rewrite Hb. cbn iota beta. rewrite Hr. reflexivity.
Qed.

Lemma names_with_waveform kw1 kw2 w :
  (∀ k, k ∈ (kw1 ++ kw2).*1 → k ∉ ["self"; "rxList"; "waveform"]) →
  ∀ k, k ∈ (kw1 ++ ("waveform", w) :: kw2).*1 → k ∉ ["self"; "rxList"].
Proof.
  intros Hk k Hin. rewrite fmap_app, fmap_cons in Hin.
  apply elem_of_app in Hin as [Hin|Hin].
  - apply names_weaken, Hk. rewrite fmap_app. apply elem_of_app. by left.
  - apply elem_of_cons in Hin as [->|Hin].
    + apply (bool_decide_unpack _). vm_compute. exact I.
    + apply names_weaken, Hk. rewrite fmap_app. apply elem_of_app. by right.
Qed.

(** The constructor of a class other than [LineCurrent]. *)
Lemma init_with_waveform self rxList kw1 kw2 w :
  src_class self ≠ LineCurrent →
  (∀ k, k ∈ (kw1 ++ kw2).*1 → k ∉ ["self"; "rxList"; "waveform"]) →
  init [rxList] (kw1 ++ kw2) self
  = (src_setattr inherited "waveform" default_waveform
     ≫= λ _, BaseEMSrc__init__ rxList (kw1 ++ kw2)) self ∧
  init [rxList] (kw1 ++ ("waveform", w) :: kw2) self
  = (src_setattr inherited "waveform" w
     ≫= λ _, BaseEMSrc__init__ rxList (kw1 ++ kw2)) self.
Proof.
  intros Hc Hk.
  pose proof (BaseTDEMSrc_init_default self rxList _ Hk) as B0.
  pose proof (BaseTDEMSrc_init_waveform self rxList kw1 kw2 w Hk) as B1.
  assert (D0 := MagDipole_init_delegates self rxList (kw1 ++ kw2)
                  (λ k Hin, names_weaken k (Hk k Hin))).
  assert (D1 := MagDipole_init_delegates self rxList _
                  (names_with_waveform kw1 kw2 w Hk)).
  unfold source__init__.
  destruct (src_class self); try (by destruct Hc).
  - split; [exact B0|exact B1].
  - rewrite D0, D1. split; [exact B0|exact B1].
  - rewrite D0, D1. split; [exact B0|exact B1].
Qed.

(** X20. The keywords of the constructors. [MagDipole], [CircularLoop]
    and [BaseTDEMSrc] take the keyword [waveform] out, assign it (or
    the default [StepOffWaveform()]) through the property, and only
    then run the constructor of the base class on the other keywords;
    [LineCurrent] sets [integrate] and hands every keyword, [waveform]
    included, to the constructor of the base class. No keyword is
    [self] or [rxList], and [waveform] is given at most once. *)
Theorem constructor_keywords self rxList kw1 kw2 w :
  (∀ k, k ∈ (kw1 ++ kw2).*1 → k ∉ ["self"; "rxList"; "waveform"]) →
  (src_class self ≠ LineCurrent →
   init [rxList] (kw1 ++ kw2) self
   = (src_setattr inherited "waveform" default_waveform
      ≫= λ _, BaseEMSrc__init__ rxList (kw1 ++ kw2)) self ∧
   init [rxList] (kw1 ++ ("waveform", w) :: kw2) self
   = (src_setattr inherited "waveform" w
      ≫= λ _, BaseEMSrc__init__ rxList (kw1 ++ kw2)) self) ∧
  (src_class self = LineCurrent →
   init [rxList] (kw1 ++ ("waveform", w) :: kw2) self
   = (src_setattr inherited "integrate" (PyBool false)
      ≫= λ _, BaseEMSrc__init__ rxList (kw1 ++ ("waveform", w) :: kw2))
       self).
Proof.
  intros Hk. split.
  - intros Hc. by apply init_with_waveform.
  - intros Hc. unfold source__init__. rewrite Hc.
    apply LineCurrent_init_keywords, names_with_waveform, Hk.
Qed.


End ConstructorFacts.

(** ** Sources: more on the forcing of a dipole or a loop *)

Section ForcingMore.
Context {F : Type} `{Scalar F} {Loc Grid : Type}.
Variables MagneticDipoleVectorPotential MagneticLoopVectorPotential :
  Loc → Grid → string → F → F → list F.
Variable inherited : string → option (pyobj F).
Implicit Types (self : source F Loc) (prob : TDEMProblem F Grid)
  (time : F) (flag : pyobj F).

#[local] Abbreviation bSrc :=
  (_bSrc MagneticDipoleVectorPotential MagneticLoopVectorPotential).
#[local] Abbreviation srcFct :=
  (_srcFct MagneticDipoleVectorPotential MagneticLoopVectorPotential).
#[local] Abbreviation dipole_s_e :=
  (MagDipole_s_e MagneticDipoleVectorPotential
     MagneticLoopVectorPotential inherited).

(** X25. The forcing of a dipole or a loop under ['EB'] with a raw
    waveform whose [hasInitialFields] is not [True]: at every time,
    the first step included, it is [C^T (MfMui b) * waveFct(time)],
    each entry of [C^T (MfMui b)] times the amplitude, and the time
    steps of the problem are not read. *)
Theorem raw_waveform_forcing self prob time d (g : F → F) b Mb CtMb :
  src_getattr inherited self "waveform" = Ok (PyWaveform RawWaveform d) →
  d !! "hasInitialFields" ≠ Some (PyBool true) →
  d !! "eval" = None → d !! "waveFct" = Some (PyFun g) →
  bSrc self prob = Ok b →
  dot (MfMui prob) b = Ok Mb →
  dot (transpose (edgeCurl (mesh prob))) Mb = Ok CtMb →
  _formulation prob = "EB" →
  MagDipole_s_e MagneticDipoleVectorPotential MagneticLoopVectorPotential
    inherited self prob time
  = Ok (PyVec (map (λ x, fmul x (g time)) CtMb)).
Proof.
  intros Hw Hflag Heval Hfct Hb HMb HCt Hf.
  assert (Hhas : ∃ flag, hasInitialFields inherited self = Ok flag ∧
                         is_True flag = false).
  { unfold hasInitialFields. rewrite Hw. cbn [mbind result_bind py_getattr].
    destruct (d !! "hasInitialFields") as [x|] eqn:E.
    - exists x. split; [reflexivity|].
      destruct x as [| [] | | | | | | | |]; try reflexivity. by destruct Hflag.
    - eexists. split; [vm_compute; reflexivity|]. reflexivity. }
  destruct Hhas as (flag & Hhas & Hnot).
  assert (Hinit : initial_step inherited self prob time = Ok false)
    by exact (initial_step_false inherited self prob time flag Hhas Hnot).
  assert (Hev : waveform_eval inherited self time = Ok (PyFloat (g time))).
  { unfold waveform_eval. rewrite Hw. cbn [mbind result_bind call_eval].
    rewrite Heval.
    assert (Hr : wclass_resolve RawWaveform "eval" = Some RawWaveform)
      by (vm_compute; reflexivity).
    rewrite Hr. cbn [eval_of py_getattr mbind result_bind].
    rewrite Hfct. reflexivity. }
  unfold MagDipole_s_e. rewrite Hb. simpl. rewrite Hf. simpl.
  rewrite Hinit. simpl. rewrite HMb. simpl. rewrite HCt. simpl.
  rewrite Hev. reflexivity.
Qed.

(** X26. [_bSrc] and the type of the mesh. The cylindrical branch is
    taken when [_meshType] is the interned string ['CYL']: then a mesh
    that is not symmetric raises [NotImplementedError], whatever the
    formulation and the class of the source, and a symmetric one gives
    the curl of the ['y'] component alone, on the edge grid with [C]
    under ['EB'] and on the face grid with [C^T] under ['HJ']. A tag
    that is not the interned object, be it equal to ['CYL'], takes the
    branch of the other meshes, with the three components. *)
Theorem bSrc_cylindrical self prob :
  (is_literal (_meshType (mesh prob)) "CYL" = true →
   (isSymmetric (mesh prob) = false →
    _bSrc MagneticDipoleVectorPotential MagneticLoopVectorPotential self
      prob
    = Raise (NotImplementedError
               (Some "Non-symmetric cyl mesh not implemented yet!"))) ∧
   (isSymmetric (mesh prob) = true →
    (_formulation prob = "EB" →
     bSrc self prob
     = (a ← srcFct self (gridEy (mesh prob)) "y";
        dot (edgeCurl (mesh prob)) a)) ∧
    (_formulation prob = "HJ" →
     bSrc self prob
     = (a ← srcFct self (gridFy (mesh prob)) "y";
        dot (transpose (edgeCurl (mesh prob))) a)))) ∧
  (interned (_meshType (mesh prob)) = false →
   _formulation prob = "EB" →
   bSrc self prob
   = (ax ← srcFct self (gridEx (mesh prob)) "x";
      ay ← srcFct self (gridEy (mesh prob)) "y";
      az ← srcFct self (gridEz (mesh prob)) "z";
      dot (edgeCurl (mesh prob)) (ax ++ ay ++ az))).
Proof.
  split.
  - intros Hcyl. unfold _bSrc. rewrite Hcyl. split.
    + intros Hs. rewrite Hs. reflexivity.
    + intros Hs. rewrite Hs. cbn [negb]. unfold _bSrc_locals. split.
      * intros Hf. rewrite Hf. cbn.
        destruct (srcFct self (gridEy (mesh prob)) "y"); reflexivity.
      * intros Hf. rewrite Hf. cbn.
        destruct (srcFct self (gridFy (mesh prob)) "y"); reflexivity.
  - intros Hi Hf. unfold _bSrc, is_literal, _bSrc_locals.
    rewrite Hi, Hf. cbn.
    destruct (srcFct self (gridEx (mesh prob)) "x"); [|reflexivity].
    destruct (srcFct self (gridEy (mesh prob)) "y"); [|reflexivity].
    destruct (srcFct self (gridEz (mesh prob)) "z"); reflexivity.
Qed.

(** X27. The dipole moment of a [CircularLoop] has no effect: its
    vector potential is the one of a loop, which takes the radius, and
    neither [_bSrc] nor [s_e] changes when [moment] does. *)
Theorem loop_ignores_moment self prob time (x : F) :
  src_class self = CircularLoop →
  _bSrc MagneticDipoleVectorPotential MagneticLoopVectorPotential
    (set_moment x self) prob
  = bSrc self prob ∧
  dipole_s_e (set_moment x self) prob time = dipole_s_e self prob time.
Proof.
  intros Hc.
  assert (Hsrc : ∀ g c, srcFct (set_moment x self) g c = srcFct self g c).
  { intros g c. unfold _srcFct. cbn [src_class set_moment]. rewrite Hc.
    reflexivity. }
  assert (Hb : bSrc (set_moment x self) prob = bSrc self prob).
  { unfold _bSrc. destruct (_bSrc_locals prob) as [[[[gx gy] gz] C]|];
      rewrite ?Hsrc; reflexivity. }
  split; [exact Hb|].
  unfold MagDipole_s_e. rewrite Hb. reflexivity.
Qed.

End ForcingMore.

(** ** Waveforms: construction and pairing *)

Section WaveformMore.
Context {F : Type} `{Scalar F}.
Implicit Types (w t : pyobj F) (kw : kwargs F).


Lemma StepOffWaveform_positional t :
  new_waveform StepOffWaveform [t] []
  = Ok (PyWaveform StepOffWaveform
          (<["hasInitialFields" := PyBool true]> (<["offTime" := t]> ∅))).
Proof. vm_compute. reflexivity. Qed.

Lemma StepOffWaveform_keyword t :
  new_waveform StepOffWaveform [] [("offTime", t)]
  = Ok (PyWaveform StepOffWaveform
          (<["hasInitialFields" := PyBool true]> (<["offTime" := t]> ∅))).
Proof. vm_compute. reflexivity. Qed.

(** More positional arguments than parameters: a [TypeError]. *)
Lemma bind_args_overflow (sig : signature F) args kw :
  (length (sig_params sig) < length args)%nat →
  ∃ e, bind_args sig args kw = Raise e.
Proof.
  intros Hlen. unfold bind_args.
  assert (Ho : ∀ (params : list (string * option (pyobj F)))
                 (args' : list (pyobj F)) bound,
            (length params < length args')%nat →
            (bind_positional params args' bound).2 = true).
  { induction params as [|[p dflt] params IH]; intros [|a args'] bound Hl.
    - simpl in Hl. lia.
    - reflexivity.
    - simpl in Hl. lia.
    - cbn [bind_positional]. apply IH. simpl in Hl. lia. }
  specialize (Ho (sig_params sig) args ∅ Hlen).
  destruct (bind_positional (sig_params sig) args ∅) as [bound o].
  simpl in Ho. subst o.
  destruct (bind_keywords sig kw bound []) as [[b e]|e]; by eexists.
Qed.

(** Without [**kwargs], a keyword that binds names a parameter that
    has no value yet. *)
Lemma bind_keywords_strict (sig : signature F) k (v : pyobj F) kw bound
    extra r :
  sig_varkw sig = false →
  bind_keywords sig ((k, v) :: kw) bound extra = Ok r →
  k ∈ (sig_params sig).*1 ∧ bound !! k = None ∧
  bind_keywords sig kw (<[k := v]> bound) extra = Ok r.
Proof.
  intros Hv. cbn [bind_keywords].
  destruct (bool_decide (k ∈ (sig_params sig).*1)) eqn:Hin.
  - apply bool_decide_eq_true_1 in Hin.
    destruct (bound !! k); [discriminate|]. by intros Hr.
  - rewrite Hv. discriminate.
Qed.

(** The keywords that [StepOffWaveform.__init__] accepts after [self]
    and [n] positional arguments. *)
Lemma StepOffWaveform_keywords (bound : gmap string (pyobj F)) k v kw r :
  is_Some (bound !! "self") →
  bind_keywords sig_StepOffWaveform ((k, v) :: kw) bound [] = Ok r →
  k = "offTime" ∧ bound !! "offTime" = None ∧ kw = [].
Proof.
  intros Hself Hr.
  apply bind_keywords_strict in Hr as (Hin & Hlook & Hrest); [|reflexivity].
  cbn in Hin. apply elem_of_cons in Hin as [->|Hin].
  { rewrite Hlook in Hself. by destruct Hself. }
  apply elem_of_cons in Hin as [->|Hin]; [|by apply elem_of_nil in Hin].
  split; [reflexivity|]. split; [exact Hlook|].
  destruct kw as [|[k' v'] kw]; [reflexivity|].
  apply bind_keywords_strict in Hrest as (Hin & Hlook' & _); [|reflexivity].
  cbn in Hin. apply elem_of_cons in Hin as [->|Hin].
  { rewrite lookup_insert_ne in Hlook' by done.
    rewrite Hlook' in Hself. by destruct Hself. }
  apply elem_of_cons in Hin as [->|Hin]; [|by apply elem_of_nil in Hin].
  by rewrite lookup_insert_eq in Hlook'.
Qed.

(** X22. Whenever [StepOffWaveform(...)] returns an instance, it was
    called with at most the off-time, by position or by keyword; the
    instance holds that off-time (or [0.]) and [hasInitialFields =
    True], and it evaluates to [0.] at every time, before the off-time
    as well as after it. *)
Theorem StepOffWaveform_instances args kw w :
  new_waveform StepOffWaveform args kw = Ok w →
  (∃ t, w = PyWaveform StepOffWaveform
              (<["hasInitialFields" := PyBool true]> (<["offTime" := t]> ∅))
        ∧ (args = [] ∧ kw = [] ∧ t = PyFloat f0
           ∨ args = [t] ∧ kw = []
           ∨ args = [] ∧ kw = [("offTime", t)])) ∧
  py_getattr w "hasInitialFields" = Ok (PyBool true) ∧
  ∀ time, call_eval w time = Ok (PyFloat f0).
Proof.
  intros Hnew.
  assert (Hshape : ∃ t, w = PyWaveform StepOffWaveform
              (<["hasInitialFields" := PyBool true]> (<["offTime" := t]> ∅))
        ∧ (args = [] ∧ kw = [] ∧ t = PyFloat f0
           ∨ args = [t] ∧ kw = []
           ∨ args = [] ∧ kw = [("offTime", t)])).
  { assert (Hbind : ∃ r, bind_args sig_StepOffWaveform
                           (PyWaveform StepOffWaveform ∅ :: args) kw = Ok r).
    { unfold new_waveform, StepOffWaveform__init__ in Hnew.
      destruct (bind_args sig_StepOffWaveform _ kw) as [r|e];
        [by exists r|discriminate Hnew]. }
    destruct Hbind as [r Hbind].
    destruct args as [|t [|u args]].
    - destruct kw as [|[k v] kw].
      + rewrite StepOffWaveform_default in Hnew. injection Hnew as <-.
        exists (PyFloat f0). split; [reflexivity|]. by left.
      + unfold bind_args in Hbind.
        cbn [bind_positional sig_params sig_StepOffWaveform] in Hbind.
        destruct (bind_keywords _ _ _ _) as [r'|e] eqn:Hkw in Hbind;
          [|discriminate Hbind].
        apply StepOffWaveform_keywords in Hkw as (-> & _ & ->).
        2:{ rewrite lookup_insert_eq. by eexists. }
        rewrite StepOffWaveform_keyword in Hnew. injection Hnew as <-.
        exists v. split; [reflexivity|]. right. by right.
    - destruct kw as [|[k v] kw].
      + rewrite StepOffWaveform_positional in Hnew. injection Hnew as <-.
        exists t. split; [reflexivity|]. right. by left.
      + unfold bind_args in Hbind.
        cbn [bind_positional sig_params sig_StepOffWaveform] in Hbind.
        destruct (bind_keywords _ _ _ _) as [r'|e] eqn:Hkw in Hbind;
          [|discriminate Hbind].
        apply StepOffWaveform_keywords in Hkw as (_ & Hoff & _).
        2:{ rewrite lookup_insert_ne by done. rewrite lookup_insert_eq.
            by eexists. }
        by rewrite lookup_insert_eq in Hoff.
    - destruct (bind_args_overflow sig_StepOffWaveform
                  (PyWaveform StepOffWaveform ∅ :: t :: u :: args) kw)
        as [e He]; [simpl; lia|].
      rewrite He in Hbind. discriminate Hbind. }
  split; [exact Hshape|].
  destruct Hshape as (t & -> & _).
  split; [vm_compute; reflexivity|]. intros time. vm_compute. reflexivity.
Qed.

(** X23. [_assertMatchesPair] passes exactly on the instances of the
    pair class and of its subclasses, hence on every waveform instance
    for the pair [BaseWaveform] of the sources. When it fails, the
    message of the [AssertionError] is the text of the source with its
    [%s]: the name of the pair class is not put in. *)
Theorem assertMatchesPair_cases (obj : pyobj F) (p : wclass) :
  _assertMatchesPair obj (PyClass p)
  = (if isinstance obj p then Ok ()
     else Raise (AssertionError
       "Waveform object must be an instance of a %s BaseWaveform class."))
  ∧ (∀ c (d : gmap string (pyobj F)),
       isinstance (PyWaveform c d) p = true ↔ p = c ∨ p = BaseWaveform)
  ∧ (∀ c (d : gmap string (pyobj F)),
       _assertMatchesPair (PyWaveform c d) (PyClass BaseWaveform) = Ok ()).
Proof.
  split; [|split].
  - unfold _assertMatchesPair. destruct (isinstance obj p); [reflexivity|].
    destruct p; vm_compute; reflexivity.
  - intros c d. destruct c, p; vm_compute; split; intros Hx;
      try reflexivity; try discriminate Hx;
      try (destruct Hx as [Hx|Hx]; discriminate Hx);
      try (left; reflexivity); right; reflexivity.
  - intros c d. destruct c; vm_compute; reflexivity.
Qed.

End WaveformMore.

(** ** The sources at concrete inputs *)

Section SourceInstances.
#[local] Open Scope float_scope.

#[local] Abbreviation call :=
  (src_call potential_on_grid potential_on_grid no_inherited whole_column
     path_term not_callable).
#[local] Abbreviation eval :=
  (BaseTDEMSrc_eval potential_on_grid potential_on_grid no_inherited
     whole_column path_term not_callable).
#[local] Abbreviation evalDeriv :=
  (BaseTDEMSrc_evalDeriv potential_on_grid potential_on_grid no_inherited
     whole_column path_term not_callable).
#[local] Abbreviation dipole_s_e :=
  (MagDipole_s_e potential_on_grid potential_on_grid no_inherited).
#[local] Abbreviation Mejs :=
  (LineCurrent_Mejs no_inherited whole_column path_term).
#[local] Abbreviation line_s_e :=
  (LineCurrent_s_e no_inherited whole_column path_term not_callable).
#[local] Abbreviation init :=
  (source__init__ no_inherited BaseEMSrc_init_skip).

Lemma methods_that_are_Zero_witness :
  call m_eInitial (problem_3 "EB" "e") 0 dipole = (Ok PyZero, dipole).
Proof.
  apply methods_that_are_Zero.
  - vm_compute. reflexivity.
  - left. apply elem_of_cons. left. reflexivity.
Defined.

Lemma evalDeriv_is_Zero_witness :
  evalDeriv (problem_3 "EB" "e") 0 (PyVec [1]) (PyBool false) dipole
  = (Ok (DerivValues PyZero PyZero), dipole).
Proof.
  apply evalDeriv_is_Zero.
  - vm_compute. reflexivity.
  - vm_compute. reflexivity.
  - discriminate.
Defined.

Lemma eval_magnetic_term_is_Zero_witness :
  eval (problem_3 "EB" "e") 0 dipole
  = (Ok (PyZero, PyVec [10; 80; 270]), dipole) ∧
  call m_s_e (problem_3 "EB" "e") 0 dipole
  = (Ok (PyVec [10; 80; 270]), dipole).
Proof.
  assert (E : eval (problem_3 "EB" "e") 0 dipole
              = (Ok (PyZero, PyVec [10; 80; 270]), dipole))
    by (vm_compute; reflexivity).
  split; [exact E|].
  refine (proj2 (proj1 (proj2 (proj2
    (eval_magnetic_term_is_Zero potential_on_grid potential_on_grid
       no_inherited whole_column path_term not_callable dipole
       (problem_3 "EB" "e") 0 _)))
    PyZero (PyVec [10; 80; 270]) dipole E)).
  vm_compute. reflexivity.
Defined.

Lemma initial_magnetic_fields_witness :
  call m_bInitial (problem_3 "EB" "e") 0 dipole
  = (Ok (PyVec [1; 4; 9]), dipole) ∧
  call m_hInitial (problem_3 "EB" "e") 0 dipole
  = (Ok (PyVec [0.5; 2; 4.5]), dipole).
Proof.
  destruct (initial_magnetic_fields potential_on_grid potential_on_grid
              no_inherited whole_column path_term not_callable dipole
              (problem_3 "EB" "e") 0 (PyBool true))
    as [_ Hon].
  - left. vm_compute. reflexivity.
  - vm_compute. reflexivity.
  - vm_compute. reflexivity.
  - vm_compute. reflexivity.
  - destruct (Hon ltac:(discriminate)) as [Hb _].
    destruct (Hb [1; 4; 9] ltac:(vm_compute; reflexivity)) as [Hb1 Hh].
    split; [exact Hb1|].
    etransitivity; [apply Hh; vm_compute; reflexivity|].
    vm_compute. reflexivity.
Defined.

Lemma s_e_needs_a_known_formulation_witness :
  ∃ e, dipole_s_e dipole (problem_3 "AB" "e") 0 = Raise e ∧
       _bSrc potential_on_grid potential_on_grid dipole (problem_3 "AB" "e")
       = Raise e ∧
       ((∃ name, e = UnboundLocalError name) ∨
        e = NotImplementedError
              (Some "Non-symmetric cyl mesh not implemented yet!")).
Proof.
  apply s_e_needs_a_known_formulation; discriminate.
Defined.

Lemma s_e_needs_two_time_steps_witness :
  dipole_s_e dipole problem_1step 0 = Raise IndexError.
Proof.
  apply (s_e_needs_two_time_steps potential_on_grid potential_on_grid
           no_inherited dipole problem_1step 0 [1; 4; 9]).
  - vm_compute. reflexivity.
  - vm_compute. reflexivity.
  - simpl. lia.
  - left. reflexivity.
Defined.

Lemma step_off_forcing_witness :
  dipole_s_e dipole (problem_3 "EB" "e") 2
  = Ok (PyVec [0; 0; 0]).
Proof.
  etransitivity.
  - apply (step_off_forcing potential_on_grid potential_on_grid no_inherited
             dipole (problem_3 "EB" "e") 2
             (<["hasInitialFields" := PyBool true]>
                (<["offTime" := PyFloat 0]> ∅))
             1 [1; 4; 9] [10; 40; 90] [10; 80; 270]);
      first [right; reflexivity | vm_compute; reflexivity].
  - vm_compute. reflexivity.
Defined.

Lemma Mejs_is_computed_once_witness :
  let once :=
    set_dict (<["_Mejs" := PyVec [11; 22; 33]]> (src_dict line_current_path))
      line_current_path in
  Mejs (problem_3 "EB" "e") line_current_path
  = (Ok (PyVec [11; 22; 33]), once) ∧
  Mejs problem_3' once = (Ok (PyVec [11; 22; 33]), once).
Proof.
  intros once.
  assert (E : Mejs (problem_3 "EB" "e") line_current_path
              = (Ok (PyVec [11; 22; 33]), once))
    by (vm_compute; reflexivity).
  split; [exact E|].
  apply (Mejs_is_computed_once no_inherited whole_column path_term
           line_current_path (problem_3 "EB" "e") _ once E).
  discriminate.
Defined.

Lemma LineCurrent_forcing_witness :
  let once :=
    set_dict (<["_Mejs" := PyVec [11; 22; 33]]> (src_dict line_current_path))
      line_current_path in
  line_s_e (problem_3 "EB" "e") 2 line_current_path
  = (Ok (PyVec [66; 132; 198]), once).
Proof.
  intros once. etransitivity.
  - refine (proj1 (LineCurrent_forcing no_inherited whole_column path_term
                     not_callable line_current_path (problem_3 "EB" "e") 2
                     [11; 22; 33] once _ _ _) 6 _);
      vm_compute; reflexivity.
  - vm_compute. reflexivity.
Defined.

Lemma constructor_keywords_witness :
  init [PyOpaque "rxList"]
    [("moment", PyFloat 2); ("waveform", raw_waveform)]
    (blank_source MagDipole)
  = (src_setattr no_inherited "waveform" raw_waveform
     ≫= λ _, BaseEMSrc_init_skip (PyOpaque "rxList")
               [("moment", PyFloat 2)]) (blank_source MagDipole).
Proof.
  refine (proj2 (proj1
    (constructor_keywords no_inherited BaseEMSrc_init_skip
       (blank_source MagDipole) (PyOpaque "rxList")
       [("moment", PyFloat 2)] [] raw_waveform _) _)).
  - intros k Hin. cbn in Hin. apply elem_of_cons in Hin as [->|Hin].
    + apply (bool_decide_unpack _). vm_compute. exact I.
    + by apply elem_of_nil in Hin.
  - discriminate.
Defined.


Lemma StepOffWaveform_instances_witness :
  new_waveform StepOffWaveform [PyFloat 1] []
  = Ok (PyWaveform StepOffWaveform
          (<["hasInitialFields" := PyBool true]>
             (<["offTime" := PyFloat 1]> ∅))) ∧
  ∀ time,
    call_eval (PyWaveform StepOffWaveform
                 (<["hasInitialFields" := PyBool true]>
                    (<["offTime" := PyFloat 1]> ∅))) time
    = Ok (PyFloat 0).
Proof.
  assert (E : new_waveform StepOffWaveform [PyFloat 1] []
              = Ok (PyWaveform StepOffWaveform
                      (<["hasInitialFields" := PyBool true]>
                         (<["offTime" := PyFloat 1]> ∅))))
    by (vm_compute; reflexivity).
  split; [exact E|].
  exact (proj2 (proj2 (StepOffWaveform_instances _ _ _ E))).
Defined.

Lemma raw_waveform_forcing_witness :
  dipole_s_e raw_dipole problem_1step 2 = Ok (PyVec [60; 480; 1620]).
Proof.
  etransitivity.
  - apply (raw_waveform_forcing potential_on_grid potential_on_grid
             no_inherited raw_dipole problem_1step 2
             (<["waveFct" := PyFun (λ t, 3 * t)]>
                (<["offTime" := PyFloat 0]> ∅))
             (λ t, 3 * t) [1; 4; 9] [10; 40; 90] [10; 80; 270]);
      first [vm_compute; reflexivity | vm_compute; discriminate].
  - vm_compute. reflexivity.
Defined.

Lemma bSrc_cylindrical_witness :
  _bSrc potential_on_grid potential_on_grid dipole problem_cyl
  = Raise (NotImplementedError
             (Some "Non-symmetric cyl mesh not implemented yet!")) ∧
  _bSrc potential_on_grid potential_on_grid dipole problem_cyl_runtime
  = Ok [1; 4; 9].
Proof.
  split.
  - apply (proj1 (bSrc_cylindrical potential_on_grid potential_on_grid
                    dipole problem_cyl)); reflexivity.
  - etransitivity.
    + apply (proj2 (bSrc_cylindrical potential_on_grid potential_on_grid
                      dipole problem_cyl_runtime)); reflexivity.
    + vm_compute. reflexivity.
Defined.

Lemma loop_ignores_moment_witness :
  _bSrc potential_on_grid potential_on_grid (set_moment 5 loop)
    (problem_3 "EB" "e")
  = _bSrc potential_on_grid potential_on_grid loop (problem_3 "EB" "e") ∧
  dipole_s_e (set_moment 5 loop) (problem_3 "EB" "e") 0
  = dipole_s_e loop (problem_3 "EB" "e") 0.
Proof.
  apply loop_ignores_moment. vm_compute. reflexivity.
Defined.

End SourceInstances.

(** ** The misfit: the factor [scale] *)
Section MisfitScale.
Context {F : Type} `{Scalar F} `{!ScalarLaws F} {Fields : Type}.
Implicit Types (self : l2_DataMisfit F Fields) (m v : list F)
  (f : option Fields) (A : spmatrix F).

Lemma W_set_scale self (s : F) :
  W (set_scale s self)
  = ((W self).1, set_scale s (W self).2).
Proof.
  unfold W, set_scale. cbn. destruct (_W self) eqn:E; cbn; rewrite ?E;
    reflexivity.
Qed.

(** X24. The factor [scale] enters [deriv] only: the value of
    [__call__] and the product of [deriv2] are the same whatever
    [scale] is, while [deriv] hands [W^T (scale * (W r))] to [Jtvec],
    with entries [w_i * (scale * (w_i * r_i))] for diagonal weights
    [w]. *)
Theorem scale_enters_deriv_only self m v f (s : F) (w : list F) :
  let r := residual (survey self) m (fields_or self m f) in
  (__call__ m f (set_scale s self)).1 = (__call__ m f self).1 ∧
  (deriv2 m v f (set_scale s self)).1 = (deriv2 m v f self).1 ∧
  (_W self = Some (sdiag w) → length r = length w →
   (deriv m f (set_scale s self)).1
   = Ok (Jtvec (prob (survey self)) m
           (zip_with (λ wi ri, fmul wi (fmul s (fmul wi ri))) w r)
           (fields_or self m f))).
Proof.
  intros r. split; [|split].
  - unfold __call__, mbind, mret, ST_bind, ST_ret, get_self, lift.
    rewrite W_set_scale. destruct (W_total self) as (A & self' & HW).
    rewrite HW. cbn [fst snd]. cbn [survey set_scale].
    change (fields_or (set_scale s self) m f) with (fields_or self m f).
    destruct (dot A _) as [a|e]; [|reflexivity].
    rewrite W_set_scale, (W_cached _ _ _ HW). reflexivity.
  - unfold deriv2, mbind, mret, ST_bind, ST_ret, get_self, lift.
    rewrite W_set_scale. destruct (W_total self) as (A & self' & HW).
    rewrite HW. cbn [fst snd]. cbn [survey set_scale].
    change (fields_or (set_scale s self) m f) with (fields_or self m f).
    destruct (dot A _) as [a|e]; [|reflexivity].
    rewrite W_set_scale, (W_cached _ _ _ HW). cbn [fst snd].
    destruct (dot (transpose A) a) as [b|e]; [|reflexivity].
    rewrite W_set_scale, (W_cached _ _ _ HW). reflexivity.
  - intros HW Hlen.
    assert (HW' : W (set_scale s self) = (Ok (sdiag w), set_scale s self)).
    { unfold W. cbn [_W set_scale]. rewrite HW. reflexivity. }
    assert (Hd : dot (sdiag w) r = Ok (zip_with fmul w r))
      by (apply dot_sdiag_lawful; exact Hlen).
    assert (Hd' : dot (transpose (sdiag w)) (vscale s (zip_with fmul w r))
                  = Ok (zip_with fmul w (vscale s (zip_with fmul w r)))).
    { assert (Hl : length (vscale s (zip_with fmul w r)) = length w).
      { unfold vscale. rewrite length_map, length_zip_with. lia. }
      rewrite (dot_transpose_sdiag _ _ Hl). apply dot_sdiag_lawful, Hl. }
    rewrite (deriv_run (set_scale s self) m f (sdiag w) (set_scale s self)
               (zip_with fmul w r)
               (zip_with fmul w (vscale s (zip_with fmul w r))) HW' Hd Hd').
    rewrite zip_with_scaled. reflexivity.
Qed.

End MisfitScale.

Lemma scale_enters_deriv_only_witness :
  (deriv [] None (set_scale 3%R misfit_R_w2)).1
  = Ok [12 / 10; - (15 / 100)]%R.
Proof.
  rewrite (proj2 (proj2 (scale_enters_deriv_only misfit_R_w2 [] [] None
                           3%R w_2)) eq_refl eq_refl).
  cbn. repeat f_equal; lra.
Defined.
